(** * uACPI default address-space handlers

    A shallow embedding of [default_handlers.c] (the system-memory, system-IO
    and PCI-config operation-region handlers) together with the properties
    of the handlers that the specification states.

    The C code talks to three kinds of collaborators that live outside the
    translation unit: the kernel glue ([uacpi_kernel_*]), the interpreter
    ([uacpi_eval_*]) and the namespace ([uacpi_namespace_*]).  Calls into the
    first two are recorded, in program order, in a log that is part of the
    machine state; what such a call answers is decided by a [platform], which
    sees the whole log so far and may therefore be arbitrarily stateful.  The
    namespace is a pointer graph, kept as a finite map from node addresses
    to node structs. *)

From Stdlib Require Import ZArith List String Lia Bool.
From stdpp Require Import base option gmap.
Import ListNotations.

Local Open Scope Z_scope.

(** ** Fixed-width integers and platform constants *)

(** [wrap bits v] is the value of [v] after conversion to an unsigned
    integer type of [bits] bits. *)
Definition wrap (bits : Z) (v : Z) : Z := v mod 2 ^ bits.

Definition as_u8 (v : Z) : Z := wrap 8 v.
Definition as_u16 (v : Z) : Z := wrap 16 v.
Definition as_u32 (v : Z) : Z := wrap 32 v.
Definition as_u64 (v : Z) : Z := wrap 64 v.

(** The targets [compiler.h] knows about, and the pointer size it selects
    for each of them. *)
Inductive target : Type :=
| Win64
| Win32
| Gnu_x86_64
| Gnu_i386.

Definition UACPI_POINTER_SIZE (t : target) : Z :=
  match t with
  | Win64 => 8
  | Win32 => 4
  | Gnu_x86_64 => 8
  | Gnu_i386 => 4
  end.

(** Modelled from the spec: the integer typedefs are declared in a header
    that is not part of the sources at hand.  [uacpi_size] is taken to be the
    pointer-sized unsigned integer, and [uacpi_phys_addr], [uacpi_io_addr]
    and the [integer] of an object to be 64 bits wide, as in the data model
    of the specification. *)
Definition as_size (t : target) (v : Z) : Z := wrap (8 * UACPI_POINTER_SIZE t) v.

Definition UACPI_NULL : Z := 0.

(** ** Status codes, region operations, objects *)

(** Modelled from the spec: the enum [uacpi_status] is declared in a header
    that is not part of the sources at hand.  These are the status codes the
    handlers name, plus every other code a platform primitive may hand
    back. *)
Inductive uacpi_status : Type :=
| UACPI_STATUS_OK
| UACPI_STATUS_MAPPING_FAILED
| UACPI_STATUS_OUT_OF_MEMORY
| UACPI_STATUS_INVALID_ARGUMENT
| UACPI_STATUS_NOT_FOUND
| UACPI_STATUS_OTHER (code : Z).

#[global] Instance uacpi_status_eq_dec : EqDecision uacpi_status.
Proof. solve_decision. Defined.

(** Modelled from the spec: the macro [uacpi_unlikely_error] is defined in a
    header that is not part of the sources at hand; an error is any status
    but OK. *)
Definition uacpi_unlikely_error (st : uacpi_status) : bool :=
  if decide (st = UACPI_STATUS_OK) then false else true.

(** Modelled from the spec: the enum [uacpi_region_op] is declared in a
    header that is not part of the sources at hand.  It is the operation code
    handed to a handler; being a C enum, a caller can pass any integer, and
    [UACPI_REGION_OP_unknown] stands for the values that name none of the
    four operations. *)
Inductive uacpi_region_op : Type :=
| UACPI_REGION_OP_ATTACH
| UACPI_REGION_OP_DETACH
| UACPI_REGION_OP_READ
| UACPI_REGION_OP_WRITE
| UACPI_REGION_OP_unknown (raw : Z).

Inductive uacpi_object_type : Type :=
| UACPI_OBJECT_NULL
| UACPI_OBJECT_INTEGER
| UACPI_OBJECT_STRING
| UACPI_OBJECT_BUFFER
| UACPI_OBJECT_PACKAGE
| UACPI_OBJECT_REFERENCE
| UACPI_OBJECT_DEVICE
| UACPI_OBJECT_OPERATION_REGION.

#[global] Instance uacpi_object_type_eq_dec : EqDecision uacpi_object_type.
Proof. solve_decision. Defined.

Record uacpi_operation_region : Type := {
  or_offset : Z;
  or_length : Z
}.

(** Modelled from the spec: the object, operation-region and namespace-node
    structs are declared in headers that are not part of the sources at
    hand; only the members the handlers read are kept.  An object has its
    type tag and, when it is an operation region, the region descriptor
    [op_region] points to. *)
Record uacpi_object : Type := {
  obj_type : uacpi_object_type;
  obj_op_region : option uacpi_operation_region
}.

Record uacpi_namespace_node : Type := {
  node_name : string;
  node_parent : Z;
  node_object : option uacpi_object
}.

(** Modelled from the spec: the declaration of [uacpi_pci_address] is not
    part of the sources at hand; the field widths are those of the
    specification's PciContext (segment 16 bits, the others 8 bits). *)
Record uacpi_pci_address : Type := {
  segment : Z;
  bus : Z;
  device : Z;
  function : Z
}.

#[global] Instance uacpi_pci_address_eq_dec : EqDecision uacpi_pci_address.
Proof. solve_decision. Defined.

(** ** Handler arguments *)

Record uacpi_region_attach_data : Type := {
  region_node : Z;
  out_region_context : Z
}.

Record uacpi_region_detach_data : Type := {
  detach_region_context : Z
}.

(** Modelled from the spec: the declaration of [uacpi_region_rw_data] is not
    part of the sources at hand.  The specification's RwInput carries an
    absolute [address] and an [offset] within the region as two attributes,
    and so does this record.  Whether the two members share storage is
    settled by that declaration; a request in which they do has
    [offset d = address d]. *)
Record uacpi_region_rw_data : Type := {
  region_context : Z;
  address : Z;
  offset : Z;
  value : Z;
  byte_width : Z
}.

Definition set_value (d : uacpi_region_rw_data) (v : Z) : uacpi_region_rw_data :=
  {| region_context := region_context d;
     address := address d;
     offset := offset d;
     value := v;
     byte_width := byte_width d |}.

Definition set_offset (d : uacpi_region_rw_data) (o : Z) : uacpi_region_rw_data :=
  {| region_context := region_context d;
     address := address d;
     offset := o;
     value := value d;
     byte_width := byte_width d |}.

Definition set_address (d : uacpi_region_rw_data) (a : Z) : uacpi_region_rw_data :=
  {| region_context := region_context d;
     address := a;
     offset := offset d;
     value := value d;
     byte_width := byte_width d |}.

Definition set_out_region_context (d : uacpi_region_attach_data) (p : Z)
  : uacpi_region_attach_data :=
  {| region_node := region_node d; out_region_context := p |}.

(** What [op_data] points to.  The handlers cast it according to [op]. *)
Inductive op_data : Type :=
| AttachData (d : uacpi_region_attach_data)
| DetachData (d : uacpi_region_detach_data)
| RwData (d : uacpi_region_rw_data).

(** ** Machine state *)

(** The fields of the three region-context structs. *)
Inductive field : Type :=
| F_segment | F_bus | F_device | F_function
| F_phys | F_virt | F_size
| F_base | F_handle.

#[global] Instance field_eq_dec : EqDecision field.
Proof. solve_decision. Defined.

Definition field_index (f : field) : nat :=
  match f with
  | F_segment => 0 | F_bus => 1 | F_device => 2 | F_function => 3
  | F_phys => 4 | F_virt => 5 | F_size => 6
  | F_base => 7 | F_handle => 8
  end%nat.

Definition index_field (n : nat) : field :=
  match n with
  | 0 => F_segment | 1 => F_bus | 2 => F_device | 3 => F_function
  | 4 => F_phys | 5 => F_virt | 6 => F_size
  | 7 => F_base | _ => F_handle
  end%nat.

#[global] Instance field_countable : Countable field.
Proof.
  apply (inj_countable' field_index index_field).
  intros f. destruct f; reflexivity.
Defined.

(** The size of each of the three context structs, as passed to the allocator. *)
Inductive ctx_struct : Type :=
| sizeof_pci_region_ctx
| sizeof_memory_region_ctx
| sizeof_io_region_ctx.

(** What a trace line prints besides its format string. *)
Inductive trace_arg : Type :=
| arg_name (text : string)
| arg_int (v : Z).

(** Calls that leave the translation unit, and the volatile accesses to
    mapped memory, in the order they happen. *)
Inductive event : Type :=
| kernel_alloc (size : ctx_struct)
| kernel_calloc (count : Z) (size : ctx_struct)
| kernel_free (p : Z)
| kernel_free_id (id : option string)
| release_pnp_id_list (ids : list string)
| kernel_map (phys size : Z)
| kernel_unmap (virt size : Z)
| kernel_io_map (base len : Z)
| kernel_io_unmap (handle : Z)
| kernel_io_read (handle off width : Z)
| kernel_io_write (handle off width v : Z)
| kernel_pci_read (a : uacpi_pci_address) (off width : Z)
| kernel_pci_write (a : uacpi_pci_address) (off width v : Z)
| eval_hid (node : Z)
| eval_cid (node : Z)
| eval_typed (node : Z) (path : string)
| trace (fmt : string) (args : list trace_arg)
| trace_region_error (node : Z) (msg : string) (st : uacpi_status)
| volatile_load (ptr width : Z)
| volatile_store (ptr width v : Z).

(** A heap block is a struct under construction: a field that was never
    written is absent.  The context structs ([heap]) are kept apart from the
    bytes reached through mapped pointers ([ram]): the model takes what the
    platform maps to lie outside the kernel heap, and a theorem about [heap]
    says nothing of a volatile store whose pointer strays into a context
    struct. *)
Record world : Type := {
  heap : gmap Z (gmap field Z);
  ram : Z -> Z;
  log : list event
}.

Definition set_heap (w : world) (h : gmap Z (gmap field Z)) : world :=
  {| heap := h; ram := ram w; log := log w |}.

Definition set_ram (w : world) (m : Z -> Z) : world :=
  {| heap := heap w; ram := m; log := log w |}.

Definition add_log (w : world) (es : list event) : world :=
  {| heap := heap w; ram := ram w; log := log w ++ es |}.

Definition emit (e : event) (w : world) : world := add_log w [e].

(** The answers of the collaborators.  Each one sees the log of everything
    that happened before the call. *)
Record platform : Type := {
  uacpi_kernel_alloc : list event -> ctx_struct -> Z;
  uacpi_kernel_calloc : list event -> Z -> ctx_struct -> Z;
  uacpi_kernel_map : list event -> Z -> Z -> Z;
  uacpi_kernel_io_map : list event -> Z -> Z -> uacpi_status * option Z;
  uacpi_kernel_io_read : list event -> Z -> Z -> Z -> uacpi_status * option Z;
  uacpi_kernel_io_write : list event -> Z -> Z -> Z -> Z -> uacpi_status;
  uacpi_kernel_pci_read :
    list event -> uacpi_pci_address -> Z -> Z -> uacpi_status * option Z;
  uacpi_kernel_pci_write :
    list event -> uacpi_pci_address -> Z -> Z -> Z -> uacpi_status;
  uacpi_eval_hid : list event -> Z -> uacpi_status * option string;
  uacpi_eval_cid : list event -> Z -> uacpi_status * list string;
  uacpi_eval_typed : list event -> Z -> string -> uacpi_status * Z;
  uacpi_is_pci_root_bridge : option string -> bool
}.

(** ** The monad of handler code

    A computation maps a state to a result and a new state, or to [None]
    when the C program has no defined behaviour there (a null or dangling
    pointer is dereferenced, a field is read before it is written) or, for
    the two namespace walks, when the step budget is used up. *)
Definition M (A : Type) : Type := world -> option (A * world).

Definition ret {A : Type} (a : A) : M A := fun w => Some (a, w).

Definition bind {A B : Type} (m : M A) (k : A -> M B) : M B :=
  fun w => match m w with
           | Some (a, w') => k a w'
           | None => None
           end.

Definition undefined {A : Type} : M A := fun _ => None.

Notation "'let*' x ':=' m 'in' k" := (bind m (fun x => k))
  (at level 10, x pattern, m at level 100, k at level 200).
Notation "m ';;' k" := (bind m (fun _ => k))
  (at level 100, k at level 200, right associativity).

Definition do_emit (e : event) : M unit := fun w => Some (tt, emit e w).

(** Heap blocks. *)
Definition new_block (p : Z) (blk : gmap field Z) : M unit :=
  fun w => Some (tt, set_heap w (<[p := blk]> (heap w))).

Definition drop_block (p : Z) : M unit :=
  fun w => Some (tt, set_heap w (delete p (heap w))).

Definition load_field (p : Z) (f : field) : M Z :=
  fun w => match heap w !! p with
           | Some blk => match blk !! f with
                         | Some v => Some (v, w)
                         | None => None
                         end
           | None => None
           end.

Definition store_field (p : Z) (f : field) (v : Z) : M unit :=
  fun w => match heap w !! p with
           | Some blk => Some (tt, set_heap w (<[p := <[f := v]> blk]> (heap w)))
           | None => None
           end.

(** [call e answer] performs the external call [e]: the collaborator
    answers from the log as it stood before the call. *)
Definition call {A : Type} (e : event) (answer : list event -> A) : M A :=
  fun w => Some (answer (log w), emit e w).

(** ** Bytes in mapped memory *)

Inductive endianness : Type :=
| LittleEndian
| BigEndian.

Fixpoint encode_le (n : nat) (v : Z) : list Z :=
  match n with
  | O => []
  | S n' => v mod 256 :: encode_le n' (v / 256)
  end.

Fixpoint decode_le (bs : list Z) : Z :=
  match bs with
  | [] => 0
  | b :: bs' => b mod 256 + 256 * decode_le bs'
  end.

Definition encode (bo : endianness) (n : nat) (v : Z) : list Z :=
  match bo with
  | LittleEndian => encode_le n v
  | BigEndian => rev (encode_le n v)
  end.

Definition decode (bo : endianness) (bs : list Z) : Z :=
  match bo with
  | LittleEndian => decode_le bs
  | BigEndian => decode_le (rev bs)
  end.

Fixpoint read_bytes (m : Z -> Z) (p : Z) (n : nat) : list Z :=
  match n with
  | O => []
  | S n' => m p :: read_bytes m (p + 1) n'
  end.

Fixpoint write_bytes (m : Z -> Z) (p : Z) (bs : list Z) : Z -> Z :=
  match bs with
  | [] => m
  | b :: bs' => write_bytes (fun a => if a =? p then b else m a) (p + 1) bs'
  end.

(** ** The handlers *)

Section Handlers.

Variable P : platform.
Variable tgt : target.
Variable bo : endianness.

(** The namespace: node structs by address, and what
    [uacpi_namespace_root()] returns. *)
Variable ns : gmap Z uacpi_namespace_node.
Variable root : Z.

(** [*node] *)
Definition deref_node (p : Z) : M uacpi_namespace_node :=
  fun w => if decide (p = UACPI_NULL) then None
           else match ns !! p with
                | Some n => Some (n, w)
                | None => None
                end.

(** Modelled from the spec: [uacpi_namespace_node_get_object] is defined in
    the namespace code, which is not part of the sources at hand; it is
    taken to hand back the object attached to the node, or null. *)
Definition uacpi_namespace_node_get_object (node : Z) : M (option uacpi_object) :=
  let* n := deref_node node in ret (node_object n).

(** [uacpi_namespace_node_get_object(node)->op_region] *)
Definition get_op_region_ptr (node : Z) : M (option uacpi_operation_region) :=
  let* obj := uacpi_namespace_node_get_object node in
  match obj with
  | Some o => ret (obj_op_region o)
  | None => undefined
  end.

(** [*op_region] *)
Definition deref_op_region (r : option uacpi_operation_region)
  : M uacpi_operation_region :=
  match r with
  | Some r' => ret r'
  | None => undefined
  end.

(** [uacpi_kernel_alloc(sizeof( *ctx ))]: a successful allocation makes a
    block with no field written yet. *)
Definition kernel_alloc_call (size : ctx_struct) : M Z :=
  let* p := call (kernel_alloc size) (fun l => uacpi_kernel_alloc P l size) in
  if decide (p = UACPI_NULL) then ret p
  else new_block p ∅ ;; ret p.

(** [uacpi_kernel_calloc] zeroes the block; it is only used for the PCI
    context. *)
Definition zeroed_pci_region_ctx : gmap field Z :=
  <[F_segment := 0]> (<[F_bus := 0]> (<[F_device := 0]> (<[F_function := 0]> ∅))).

Definition kernel_calloc_call (count : Z) (size : ctx_struct) : M Z :=
  let* p := call (kernel_calloc count size)
                 (fun l => uacpi_kernel_calloc P l count size) in
  if decide (p = UACPI_NULL) then ret p
  else new_block p zeroed_pci_region_ctx ;; ret p.

(** [uacpi_kernel_free(ctx)]: the block is gone afterwards. *)
Definition kernel_free_call (p : Z) : M unit :=
  do_emit (kernel_free p) ;; drop_block p.

(** *** PCI configuration space *)

Fixpoint any_pci_root_bridge (ids : list string) : bool :=
  match ids with
  | [] => false
  | id :: ids' =>
      if uacpi_is_pci_root_bridge P (Some id) then true
      else any_pci_root_bridge ids'
  end.

Definition is_node_pci_root (node : Z) : M bool :=
  let* (st, id) := call (eval_hid node) (fun l => uacpi_eval_hid P l node) in
  if bool_decide (st = UACPI_STATUS_OK) && uacpi_is_pci_root_bridge P id then
    do_emit (kernel_free_id id) ;;
    do_emit (release_pnp_id_list []) ;;
    ret true
  else
    let* (st', id_list) := call (eval_cid node) (fun l => uacpi_eval_cid P l node) in
    let found :=
      if bool_decide (st' = UACPI_STATUS_OK) then any_pci_root_bridge id_list
      else false in
    do_emit (kernel_free_id id) ;;
    do_emit (release_pnp_id_list id_list) ;;
    ret found.

Fixpoint find_pci_root_loop (fuel : nat) (node parent : Z) : M Z :=
  if decide (parent = root) then
    do_emit (trace_region_error node "unable to find PCI root controlling"
                                UACPI_STATUS_NOT_FOUND) ;;
    ret node
  else
    match fuel with
    | O => undefined
    | S fuel' =>
        let* found := is_node_pci_root parent in
        if found then
          let* pn := deref_node parent in
          let* n := deref_node node in
          do_emit (trace "found a PCI root node %.4s controlling region %.4s"
                         [arg_name (node_name pn); arg_name (node_name n)]) ;;
          ret parent
        else
          let* pn := deref_node parent in
          find_pci_root_loop fuel' node (node_parent pn)
    end.

Definition find_pci_root (fuel : nat) (node : Z) : M Z :=
  let* n := deref_node node in
  find_pci_root_loop fuel node (node_parent n).

(** The [while (node)] loop of [pci_region_attach]. *)
Fixpoint find_device_loop (fuel : nat) (node : Z) : M Z :=
  if decide (node = UACPI_NULL) then ret node
  else
    match fuel with
    | O => undefined
    | S fuel' =>
        let* obj := uacpi_namespace_node_get_object node in
        let is_device :=
          match obj with
          | Some o => bool_decide (obj_type o = UACPI_OBJECT_DEVICE)
          | None => false
          end in
        if is_device then ret node
        else
          let* n := deref_node node in
          find_device_loop fuel' (node_parent n)
    end.

(** [uacpi_eval_typed(node, path, NULL, UACPI_OBJECT_INTEGER_BIT, &obj)]
    together with the later read of [obj->integer], a 64-bit field. *)
Definition eval_integer (node : Z) (path : string) : M (uacpi_status * Z) :=
  let* (st, v) := call (eval_typed node path)
                       (fun l => uacpi_eval_typed P l node path) in
  ret (st, as_u64 v).

Definition pci_region_attach (fuel : nat) (data : uacpi_region_attach_data)
  : M (uacpi_status * uacpi_region_attach_data) :=
  let* ctx := kernel_calloc_call 1 sizeof_pci_region_ctx in
  if decide (ctx = UACPI_NULL) then ret (UACPI_STATUS_OUT_OF_MEMORY, data)
  else
    let node := region_node data in
    let* op_region := get_op_region_ptr node in
    let* pci_root := find_pci_root fuel node in
    let* node := find_device_loop fuel node in
    if decide (node = UACPI_NULL) then
      do_emit (trace_region_error node "unable to find device responsible for"
                                  UACPI_STATUS_NOT_FOUND) ;;
      kernel_free_call ctx ;;
      ret (UACPI_STATUS_NOT_FOUND, data)
    else
      let* (st, v) := eval_integer node "_ADR" in
      (if bool_decide (st = UACPI_STATUS_OK) then
         store_field ctx F_function (as_u8 (Z.land (Z.shiftr v 0) 255)) ;;
         store_field ctx F_device (as_u8 (Z.land (Z.shiftr v 16) 255))
       else ret tt) ;;
      let* (st, v) := eval_integer pci_root "_SEG" in
      (if bool_decide (st = UACPI_STATUS_OK) then
         store_field ctx F_segment (as_u16 v)
       else ret tt) ;;
      let* (st, v) := eval_integer pci_root "_BBN" in
      (if bool_decide (st = UACPI_STATUS_OK) then
         store_field ctx F_bus (as_u8 v)
       else ret tt) ;;
      let* n := deref_node node in
      let* seg := load_field ctx F_segment in
      let* b := load_field ctx F_bus in
      let* dev := load_field ctx F_device in
      let* fn := load_field ctx F_function in
      do_emit (trace "detected PCI device %.4s@%04X:%02X:%02X:%01X"
                     [arg_name (node_name n); arg_int seg; arg_int b;
                      arg_int dev; arg_int fn]) ;;
      ret (UACPI_STATUS_OK, set_out_region_context data ctx).

Definition pci_region_detach (data : uacpi_region_detach_data) : M uacpi_status :=
  let ctx := detach_region_context data in
  kernel_free_call ctx ;;
  ret UACPI_STATUS_OK.

(** [ctx->address], read as a whole struct. *)
Definition load_pci_address (ctx : Z) : M uacpi_pci_address :=
  let* seg := load_field ctx F_segment in
  let* b := load_field ctx F_bus in
  let* dev := load_field ctx F_device in
  let* fn := load_field ctx F_function in
  ret {| segment := seg; bus := b; device := dev; function := fn |}.

(** A platform read primitive stores through its out pointer or leaves it
    alone. *)
Definition store_out (d : uacpi_region_rw_data) (out : option Z)
  : uacpi_region_rw_data :=
  match out with
  | Some v => set_value d (as_u64 v)
  | None => d
  end.

Definition pci_region_do_rw (op : uacpi_region_op) (data : uacpi_region_rw_data)
  : M (uacpi_status * uacpi_region_rw_data) :=
  let ctx := region_context data in
  let off := as_size tgt (offset data) in
  let width := as_u8 (byte_width data) in
  let* a := load_pci_address ctx in
  match op with
  | UACPI_REGION_OP_READ =>
      let* (st, out) := call (kernel_pci_read a off width)
                             (fun l => uacpi_kernel_pci_read P l a off width) in
      ret (st, store_out data out)
  | _ =>
      let* st := call (kernel_pci_write a off width (value data))
                      (fun l => uacpi_kernel_pci_write P l a off width (value data)) in
      ret (st, data)
  end.

Definition handle_pci_region (fuel : nat) (op : uacpi_region_op) (d : op_data)
  : M (uacpi_status * op_data) :=
  match op with
  | UACPI_REGION_OP_ATTACH =>
      match d with
      | AttachData a =>
          let* (st, a') := pci_region_attach fuel a in ret (st, AttachData a')
      | _ => undefined
      end
  | UACPI_REGION_OP_DETACH =>
      match d with
      | DetachData a => let* st := pci_region_detach a in ret (st, d)
      | _ => undefined
      end
  | UACPI_REGION_OP_READ | UACPI_REGION_OP_WRITE =>
      match d with
      | RwData a =>
          let* (st, a') := pci_region_do_rw op a in ret (st, RwData a')
      | _ => undefined
      end
  | UACPI_REGION_OP_unknown _ => ret (UACPI_STATUS_INVALID_ARGUMENT, d)
  end.

(** *** System memory *)

Definition memory_region_attach (data : uacpi_region_attach_data)
  : M (uacpi_status * uacpi_region_attach_data) :=
  let* ctx := kernel_alloc_call sizeof_memory_region_ctx in
  if decide (ctx = UACPI_NULL) then ret (UACPI_STATUS_OUT_OF_MEMORY, data)
  else
    let* op_region_ptr := get_op_region_ptr (region_node data) in
    let* op_region := deref_op_region op_region_ptr in
    store_field ctx F_size (as_size tgt (or_length op_region)) ;;
    store_field ctx F_phys (as_u64 (or_offset op_region)) ;;
    let* phys := load_field ctx F_phys in
    let* size := load_field ctx F_size in
    let* virt := call (kernel_map phys size)
                      (fun l => uacpi_kernel_map P l phys size) in
    store_field ctx F_virt virt ;;
    if decide (virt = UACPI_NULL) then
      do_emit (trace_region_error (region_node data) "unable to map"
                                  UACPI_STATUS_MAPPING_FAILED) ;;
      kernel_free_call ctx ;;
      ret (UACPI_STATUS_MAPPING_FAILED, data)
    else
      ret (UACPI_STATUS_OK, set_out_region_context data ctx).

Definition memory_region_detach (data : uacpi_region_detach_data) : M uacpi_status :=
  let ctx := detach_region_context data in
  let* virt := load_field ctx F_virt in
  let* size := load_field ctx F_size in
  do_emit (kernel_unmap virt size) ;;
  kernel_free_call ctx ;;
  ret UACPI_STATUS_OK.

(** A volatile load of [n] bytes at [ptr]. *)
Definition volatile_read (n : nat) (ptr : Z) : M Z :=
  fun w => Some (decode bo (read_bytes (ram w) ptr n),
                 emit (volatile_load ptr (Z.of_nat n)) w).

(** A volatile store of the [n]-byte quantity [v] at [ptr]. *)
Definition volatile_write (n : nat) (ptr v : Z) : M unit :=
  fun w => Some (tt, emit (volatile_store ptr (Z.of_nat n) v)
                          (set_ram w (write_bytes (ram w) ptr (encode bo n v)))).

(** [memory_read(ptr, width, out)]; the second component of the result is
    what [*out] holds afterwards. *)
Definition memory_read (ptr width out : Z) : M (uacpi_status * Z) :=
  match width with
  | 1 => let* v := volatile_read 1 ptr in ret (UACPI_STATUS_OK, as_u64 v)
  | 2 => let* v := volatile_read 2 ptr in ret (UACPI_STATUS_OK, as_u64 v)
  | 4 => let* v := volatile_read 4 ptr in ret (UACPI_STATUS_OK, as_u64 v)
  | 8 => let* v := volatile_read 8 ptr in ret (UACPI_STATUS_OK, as_u64 v)
  | _ => ret (UACPI_STATUS_INVALID_ARGUMENT, out)
  end.

Definition memory_write (ptr width input : Z) : M uacpi_status :=
  match width with
  | 1 => volatile_write 1 ptr (as_u8 input) ;; ret UACPI_STATUS_OK
  | 2 => volatile_write 2 ptr (as_u16 input) ;; ret UACPI_STATUS_OK
  | 4 => volatile_write 4 ptr (as_u32 input) ;; ret UACPI_STATUS_OK
  | 8 => volatile_write 8 ptr (as_u64 input) ;; ret UACPI_STATUS_OK
  | _ => ret UACPI_STATUS_INVALID_ARGUMENT
  end.

Definition memory_region_do_rw (op : uacpi_region_op) (data : uacpi_region_rw_data)
  : M (uacpi_status * uacpi_region_rw_data) :=
  let ctx := region_context data in
  let* virt := load_field ctx F_virt in
  let* phys := load_field ctx F_phys in
  let ptr := as_size tgt (virt + as_u64 (address data - phys)) in
  match op with
  | UACPI_REGION_OP_READ =>
      let* (st, out) := memory_read ptr (byte_width data) (value data) in
      ret (st, set_value data out)
  | _ =>
      let* st := memory_write ptr (byte_width data) (value data) in
      ret (st, data)
  end.

Definition handle_memory_region (op : uacpi_region_op) (d : op_data)
  : M (uacpi_status * op_data) :=
  match op with
  | UACPI_REGION_OP_ATTACH =>
      match d with
      | AttachData a =>
          let* (st, a') := memory_region_attach a in ret (st, AttachData a')
      | _ => undefined
      end
  | UACPI_REGION_OP_DETACH =>
      match d with
      | DetachData a => let* st := memory_region_detach a in ret (st, d)
      | _ => undefined
      end
  | UACPI_REGION_OP_READ | UACPI_REGION_OP_WRITE =>
      match d with
      | RwData a =>
          let* (st, a') := memory_region_do_rw op a in ret (st, RwData a')
      | _ => undefined
      end
  | UACPI_REGION_OP_unknown _ => ret (UACPI_STATUS_INVALID_ARGUMENT, d)
  end.

(** *** System I/O *)

Definition io_region_attach (data : uacpi_region_attach_data)
  : M (uacpi_status * uacpi_region_attach_data) :=
  let* ctx := kernel_alloc_call sizeof_io_region_ctx in
  if decide (ctx = UACPI_NULL) then ret (UACPI_STATUS_OUT_OF_MEMORY, data)
  else
    let* op_region_ptr := get_op_region_ptr (region_node data) in
    let* op_region := deref_op_region op_region_ptr in
    store_field ctx F_base (as_u64 (or_offset op_region)) ;;
    let* base := load_field ctx F_base in
    let* (st, h) := call (kernel_io_map base (or_length op_region))
                         (fun l => uacpi_kernel_io_map P l base (or_length op_region)) in
    (match h with
     | Some h' => store_field ctx F_handle h'
     | None => ret tt
     end) ;;
    if uacpi_unlikely_error st then
      do_emit (trace_region_error (region_node data) "unable to map an IO" st) ;;
      kernel_free_call ctx ;;
      ret (st, data)
    else
      ret (st, set_out_region_context data ctx).

Definition io_region_detach (data : uacpi_region_detach_data) : M uacpi_status :=
  let ctx := detach_region_context data in
  let* h := load_field ctx F_handle in
  do_emit (kernel_io_unmap h) ;;
  kernel_free_call ctx ;;
  ret UACPI_STATUS_OK.

Definition io_region_do_rw (op : uacpi_region_op) (data : uacpi_region_rw_data)
  : M (uacpi_status * uacpi_region_rw_data) :=
  let ctx := region_context data in
  let* base := load_field ctx F_base in
  let off := as_size tgt (as_u64 (offset data - base)) in
  let width := as_u8 (byte_width data) in
  let* h := load_field ctx F_handle in
  match op with
  | UACPI_REGION_OP_READ =>
      let* (st, out) := call (kernel_io_read h off width)
                             (fun l => uacpi_kernel_io_read P l h off width) in
      ret (st, store_out data out)
  | _ =>
      let* st := call (kernel_io_write h off width (value data))
                      (fun l => uacpi_kernel_io_write P l h off width (value data)) in
      ret (st, data)
  end.

Definition handle_io_region (op : uacpi_region_op) (d : op_data)
  : M (uacpi_status * op_data) :=
  match op with
  | UACPI_REGION_OP_ATTACH =>
      match d with
      | AttachData a =>
          let* (st, a') := io_region_attach a in ret (st, AttachData a')
      | _ => undefined
      end
  | UACPI_REGION_OP_DETACH =>
      match d with
      | DetachData a => let* st := io_region_detach a in ret (st, d)
      | _ => undefined
      end
  | UACPI_REGION_OP_READ | UACPI_REGION_OP_WRITE =>
      match d with
      | RwData a =>
          let* (st, a') := io_region_do_rw op a in ret (st, RwData a')
      | _ => undefined
      end
  | UACPI_REGION_OP_unknown _ => ret (UACPI_STATUS_INVALID_ARGUMENT, d)
  end.

(** ** Reading the namespace as paths

    The two walks of [pci_region_attach] follow parent pointers.  The
    definitions below describe what they meet as lists of node addresses,
    and say in the words of the specification what the walks are to find. *)

(** [is_chain stop p l]: starting at [p] and following parent pointers, one
    visits the nodes of [l], in order, all of them present in the namespace
    and different from [stop], and then arrives at [stop]. *)
Fixpoint is_chain (stop p : Z) (l : list Z) : bool :=
  match l with
  | [] => bool_decide (p = stop)
  | a :: rest =>
      bool_decide (p = a) && negb (bool_decide (a = stop)) &&
      negb (bool_decide (a = UACPI_NULL)) &&
      match ns !! a with
      | Some n => is_chain stop (node_parent n) rest
      | None => false
      end
  end.

(** A region node sits properly below the root: its ancestors strictly
    below the root are [anc], in order from its parent upwards, and the root
    is a node without a parent. *)
Definition well_rooted (node : Z) (anc : list Z) : bool :=
  negb (bool_decide (node = UACPI_NULL)) &&
  negb (bool_decide (root = UACPI_NULL)) &&
  match ns !! node, ns !! root with
  | Some n, Some r =>
      is_chain root (node_parent n) anc &&
      bool_decide (node_parent r = UACPI_NULL)
  | _, _ => false
  end.

(** The region descriptor behind a node: the node, its object and the
    object's [op_region] pointer must all be there. *)
Definition region_descriptor (node : Z) : option uacpi_operation_region :=
  if decide (node = UACPI_NULL) then None
  else match ns !! node with
       | Some n =>
           match node_object n with
           | Some o => obj_op_region o
           | None => None
           end
       | None => None
       end.

Definition name_of (p : Z) : string :=
  match ns !! p with
  | Some n => node_name n
  | None => EmptyString
  end.

Definition has_object (p : Z) : bool :=
  match ns !! p with
  | Some n => match node_object n with Some _ => true | None => false end
  | None => false
  end.

Definition is_device_node (p : Z) : bool :=
  match ns !! p with
  | Some n =>
      match node_object n with
      | Some o => bool_decide (obj_type o = UACPI_OBJECT_DEVICE)
      | None => false
      end
  | None => false
  end.

(** The nearest node of [path] whose object is a Device, or null. *)
Definition controlling_device (path : list Z) : Z :=
  match List.find is_device_node path with
  | Some dev => dev
  | None => UACPI_NULL
  end.

(** A node is recognized as a PCI root bridge by its [_HID] or, failing
    that, by any entry of its [_CID]; [l] is the log when the question is
    asked. *)
Definition hid_matches (l : list event) (node : Z) : bool :=
  bool_decide ((uacpi_eval_hid P l node).1 = UACPI_STATUS_OK) &&
  uacpi_is_pci_root_bridge P (uacpi_eval_hid P l node).2.

Definition cid_matches (l : list event) (node : Z) : bool :=
  bool_decide ((uacpi_eval_cid P l node).1 = UACPI_STATUS_OK) &&
  existsb (fun id => uacpi_is_pci_root_bridge P (Some id))
          (uacpi_eval_cid P l node).2.

Definition recognized_pci_root (l : list event) (node : Z) : bool :=
  hid_matches l node || cid_matches (l ++ [eval_hid node]) node.

(** What asking that question adds to the log. *)
Definition probe_events (l : list event) (node : Z) : list event :=
  if hid_matches l node then
    [eval_hid node; kernel_free_id (uacpi_eval_hid P l node).2;
     release_pnp_id_list []]
  else
    [eval_hid node; eval_cid node; kernel_free_id (uacpi_eval_hid P l node).2;
     release_pnp_id_list (uacpi_eval_cid P (l ++ [eval_hid node]) node).2].

(** The first recognized node of [anc], asking in order. *)
Fixpoint first_pci_root (l : list event) (anc : list Z) : option Z :=
  match anc with
  | [] => None
  | a :: rest =>
      if recognized_pci_root l a then Some a
      else first_pci_root (l ++ probe_events l a) rest
  end.

(** The log of that search, including the closing trace line. *)
Fixpoint root_walk_events (l : list event) (node : Z) (anc : list Z) : list event :=
  match anc with
  | [] => [trace_region_error node "unable to find PCI root controlling"
                              UACPI_STATUS_NOT_FOUND]
  | a :: rest =>
      if recognized_pci_root l a then
        probe_events l a ++
        [trace "found a PCI root node %.4s controlling region %.4s"
               [arg_name (name_of a); arg_name (name_of node)]]
      else
        probe_events l a ++ root_walk_events (l ++ probe_events l a) node rest
  end.

End Handlers.

(** The address tuple that the answers to [_ADR], [_SEG] and [_BBN] resolve
    to; an evaluation that did not succeed leaves its fields zero. *)
Definition resolved_address (adr seg bbn : uacpi_status * Z) : uacpi_pci_address :=
  {| segment :=
       if bool_decide (seg.1 = UACPI_STATUS_OK) then as_u16 (as_u64 seg.2) else 0;
     bus :=
       if bool_decide (bbn.1 = UACPI_STATUS_OK) then as_u8 (as_u64 bbn.2) else 0;
     device :=
       if bool_decide (adr.1 = UACPI_STATUS_OK)
       then as_u8 (Z.land (Z.shiftr (as_u64 adr.2) 16) 255) else 0;
     function :=
       if bool_decide (adr.1 = UACPI_STATUS_OK)
       then as_u8 (Z.land (Z.shiftr (as_u64 adr.2) 0) 255) else 0 |}.

(** The platform [P] with other answers to the typed evaluations; every
    other collaborator answers as before. *)
Definition with_eval_typed (P : platform)
    (f : list event -> Z -> string -> uacpi_status * Z) : platform :=
  {| uacpi_kernel_alloc := uacpi_kernel_alloc P;
     uacpi_kernel_calloc := uacpi_kernel_calloc P;
     uacpi_kernel_map := uacpi_kernel_map P;
     uacpi_kernel_io_map := uacpi_kernel_io_map P;
     uacpi_kernel_io_read := uacpi_kernel_io_read P;
     uacpi_kernel_io_write := uacpi_kernel_io_write P;
     uacpi_kernel_pci_read := uacpi_kernel_pci_read P;
     uacpi_kernel_pci_write := uacpi_kernel_pci_write P;
     uacpi_eval_hid := uacpi_eval_hid P;
     uacpi_eval_cid := uacpi_eval_cid P;
     uacpi_eval_typed := f;
     uacpi_is_pci_root_bridge := uacpi_is_pci_root_bridge P |}.

(** A PCI context block holding the address [a]. *)
Definition pci_block (a : uacpi_pci_address) : gmap field Z :=
  <[F_segment := segment a]>
    (<[F_bus := bus a]> (<[F_device := device a]> (<[F_function := function a]> ∅))).

(** ** A small machine to run the handlers on

    The namespace of the specification's PCI scenario,
    [\_SB.PCI0(_HID=PNP0A08, _SEG=1, _BBN=0x40).DEV0(_ADR=0x001F0003).REG],
    with a memory region [MEM0] (base 0x10000, length 0x100), a port region
    [PIO0] (base 0x3F8, length 8), below the non-device [_SB] a region
    [LOST] that no device controls, and a device [DEV1] outside any PCI
    hierarchy, without [_ADR], with a region [CFG1]. *)

Definition no_region_object (t : uacpi_object_type) : uacpi_object :=
  {| obj_type := t; obj_op_region := None |}.

Definition region_object (base len : Z) : uacpi_object :=
  {| obj_type := UACPI_OBJECT_OPERATION_REGION;
     obj_op_region := Some {| or_offset := base; or_length := len |} |}.

Definition demo_root : Z := 1.

Definition demo_ns : gmap Z uacpi_namespace_node :=
  <[1 := {| node_name := "\___"; node_parent := 0; node_object := None |}]>
  (<[2 := {| node_name := "_SB_"; node_parent := 1;
             node_object := Some (no_region_object UACPI_OBJECT_NULL) |}]>
  (<[3 := {| node_name := "PCI0"; node_parent := 2;
             node_object := Some (no_region_object UACPI_OBJECT_DEVICE) |}]>
  (<[4 := {| node_name := "DEV0"; node_parent := 3;
             node_object := Some (no_region_object UACPI_OBJECT_DEVICE) |}]>
  (<[5 := {| node_name := "REG_"; node_parent := 4;
             node_object := Some (region_object 0 256) |}]>
  (<[6 := {| node_name := "MEM0"; node_parent := 1;
             node_object := Some (region_object 65536 256) |}]>
  (<[7 := {| node_name := "PIO0"; node_parent := 1;
             node_object := Some (region_object 1016 8) |}]>
  (<[8 := {| node_name := "LOST"; node_parent := 2;
             node_object := Some (region_object 0 256) |}]>
  (<[9 := {| node_name := "DEV1"; node_parent := 1;
             node_object := Some (no_region_object UACPI_OBJECT_DEVICE) |}]>
  (<[10 := {| node_name := "CFG1"; node_parent := 9;
              node_object := Some (region_object 0 256) |}]> ∅))))))))).

Definition demo_is_pci_root_bridge (id : option string) : bool :=
  match id with
  | Some s => String.eqb s "PNP0A03" || String.eqb s "PNP0A08"
  | None => false
  end.

Definition demo_eval_typed (node : Z) (path : string) : uacpi_status * Z :=
  if (node =? 4) && String.eqb path "_ADR" then (UACPI_STATUS_OK, 2031619)
  else if (node =? 3) && String.eqb path "_SEG" then (UACPI_STATUS_OK, 1)
  else if (node =? 3) && String.eqb path "_BBN" then (UACPI_STATUS_OK, 64)
  else (UACPI_STATUS_NOT_FOUND, 0).

(** A platform whose allocator hands out [ctx], whose mapper hands out
    [virt] and whose port mapper answers [io_st].  [bridge_hid] is the
    [_HID] of [PCI0]. *)
Definition demo_platform (ctx virt : Z) (io_st : uacpi_status) (bridge_hid : string)
  : platform :=
  {| uacpi_kernel_alloc := fun _ _ => ctx;
     uacpi_kernel_calloc := fun _ _ _ => ctx;
     uacpi_kernel_map := fun _ _ _ => virt;
     uacpi_kernel_io_map := fun _ _ _ =>
       (io_st, if uacpi_unlikely_error io_st then None else Some 7);
     uacpi_kernel_io_read := fun _ _ _ _ => (UACPI_STATUS_OK, Some 90);
     uacpi_kernel_io_write := fun _ _ _ _ _ => UACPI_STATUS_OK;
     uacpi_kernel_pci_read := fun _ _ _ _ => (UACPI_STATUS_OK, Some 32902);
     uacpi_kernel_pci_write := fun _ _ _ _ _ => UACPI_STATUS_OK;
     uacpi_eval_hid := fun _ node =>
       if node =? 3 then (UACPI_STATUS_OK, Some bridge_hid)
       else (UACPI_STATUS_NOT_FOUND, None);
     uacpi_eval_cid := fun _ _ => (UACPI_STATUS_NOT_FOUND, []);
     uacpi_eval_typed := fun _ => demo_eval_typed;
     uacpi_is_pci_root_bridge := demo_is_pci_root_bridge |}.

Definition good_platform : platform :=
  demo_platform 4096 28672 UACPI_STATUS_OK "PNP0A08".

(** The platform of the PCI scenario, except that the [_ADR] of [DEV0]
    evaluates to [v]. *)
Definition demo_eval_typed_adr (v : Z) (node : Z) (path : string) : uacpi_status * Z :=
  if (node =? 4) && String.eqb path "_ADR" then (UACPI_STATUS_OK, v)
  else demo_eval_typed node path.

(** A platform whose mapper and port mapper both fail. *)
Definition bad_platform : platform :=
  demo_platform 4096 0 (UACPI_STATUS_OTHER 5) "PNP0A08".

(** A platform on which nothing identifies as a PCI root bridge. *)
Definition rootless_platform : platform :=
  demo_platform 4096 28672 UACPI_STATUS_OK "PNP0C02".

Definition boot_world : world :=
  {| heap := ∅; ram := fun _ => 0; log := [] |}.

(** The state with an attached port region: base 0x3F8, handle 7. *)
Definition io_world : world :=
  {| heap := {[ 4096 := <[F_base := 1016]> (<[F_handle := 7]> ∅) ]};
     ram := fun _ => 0;
     log := [] |}.

(** The state with an attached memory region: physical base 0x10000 mapped
    at 0x7000, 0x100 bytes. *)
Definition mmio_world : world :=
  {| heap := {[ 4096 := <[F_phys := 65536]> (<[F_virt := 28672]> (<[F_size := 256]> ∅)) ]};
     ram := fun _ => 0;
     log := [] |}.

(** The state with an attached PCI region at 0001:40:1F.3. *)
Definition pci_world : world :=
  {| heap := {[ 4096 := pci_block {| segment := 1; bus := 64;
                                     device := 31; function := 3 |} ]};
     ram := fun _ => 0;
     log := [] |}.

(** A platform whose allocator is exhausted. *)
Definition oom_platform : platform :=
  demo_platform 0 28672 UACPI_STATUS_OK "PNP0A08".

Definition rw_data (ctx addr off v width : Z) : uacpi_region_rw_data :=
  {| region_context := ctx; address := addr; offset := off;
     value := v; byte_width := width |}.

Definition attach_data (node : Z) : uacpi_region_attach_data :=
  {| region_node := node; out_region_context := UACPI_NULL |}.

(** ** What an access adds to the log *)

(** The platform call a PCI-config request turns into. *)
Definition pci_access (tgt : target) (addr : uacpi_pci_address)
    (op : uacpi_region_op) (d : uacpi_region_rw_data) : event :=
  match op with
  | UACPI_REGION_OP_READ =>
      kernel_pci_read addr (as_size tgt (offset d)) (as_u8 (byte_width d))
  | _ =>
      kernel_pci_write addr (as_size tgt (offset d)) (as_u8 (byte_width d)) (value d)
  end.

(** The platform call a port request turns into, for a region based at
    [base] and mapped to the handle [h]. *)
Definition io_access (tgt : target) (base h : Z)
    (op : uacpi_region_op) (d : uacpi_region_rw_data) : event :=
  match op with
  | UACPI_REGION_OP_READ =>
      kernel_io_read h (as_size tgt (as_u64 (offset d - base))) (as_u8 (byte_width d))
  | _ =>
      kernel_io_write h (as_size tgt (as_u64 (offset d - base)))
                      (as_u8 (byte_width d)) (value d)
  end.

(** The nodes whose [_HID] was evaluated, in order. *)
Fixpoint probed_nodes (es : list event) : list Z :=
  match es with
  | [] => []
  | eval_hid n :: es' => n :: probed_nodes es'
  | _ :: es' => probed_nodes es'
  end.

(** * The test runner

    The command-line runner loads a DSDT, brings the interpreter up,
    evaluates [MAIN] from the namespace root and compares what comes back
    with an expected type and value.  It is C++: a function either returns,
    throws an exception derived from [std::exception], or aborts the
    process. *)

Inductive outcome (A : Type) : Type :=
| Returned (a : A)
| Thrown (what : string)
| Aborted.

Arguments Returned {A} a.
Arguments Thrown {A} what.
Arguments Aborted {A}.

(** Modelled from the spec: the runner reads a [uacpi_object] whose
    declaration is not part of the sources at hand; only the members the
    runner reads are kept.  [as_string_text] is the whole buffer [text]
    points into, terminator and all; [as_string_length] is the [length]
    member. *)
Record retval_object : Type := {
  ret_type : uacpi_object_type;
  as_integer_value : Z;
  as_string_text : string;
  as_string_length : nat
}.

(** What the runner prints and which calls it makes, in order. *)
Inductive runner_event : Type :=
| ev_cout (text : string)
| ev_build_xsdt_from_file (path : string)
| ev_uacpi_initialize
| ev_uacpi_namespace_load
| ev_uacpi_namespace_initialize
| ev_uacpi_eval (path : string).

(** The library and the helpers behind the runner.  An answer may depend on
    the events so far.  [build_xsdt_from_file] answers [Some what] when it
    throws; [stoull] stands for [std::stoull(s, nullptr, 0)] and answers
    [inr what] when it throws; [to_string] stands for [std::to_string]. *)
Record harness : Type := {
  build_xsdt_from_file : list runner_event -> string -> option string;
  uacpi_initialize : list runner_event -> uacpi_status;
  uacpi_namespace_load : list runner_event -> uacpi_status;
  uacpi_namespace_initialize : list runner_event -> uacpi_status;
  uacpi_eval : list runner_event -> string -> uacpi_status * retval_object;
  uacpi_status_to_string : uacpi_status -> string;
  stoull : string -> Z + string;
  to_string : Z -> string
}.

Definition string_to_object_type (str : string) : outcome uacpi_object_type :=
  if String.eqb str "int" then Returned UACPI_OBJECT_INTEGER
  else if String.eqb str "str" then Returned UACPI_OBJECT_STRING
  else Thrown ("Unsupported type for validation: " ++ str).

Definition type_to_string (t : uacpi_object_type) : string :=
  match t with
  | UACPI_OBJECT_NULL => "null"
  | UACPI_OBJECT_INTEGER => "integer"
  | UACPI_OBJECT_STRING => "string"
  | UACPI_OBJECT_BUFFER => "buffer"
  | UACPI_OBJECT_PACKAGE => "package"
  | UACPI_OBJECT_REFERENCE => "reference"
  | _ => "<bug>"
  end.

(** The bytes of a buffer read as a C string: everything before the first
    NUL.  A buffer without a NUL has no defined reading. *)
Fixpoint c_str (buf : string) : option string :=
  match buf with
  | EmptyString => None
  | String c rest =>
      if Ascii.eqb c Ascii.zero then Some EmptyString
      else match c_str rest with
           | Some s => Some (String c s)
           | None => None
           end
  end.

(** [std::string_view(text, length)]: the first [length] bytes of the
    buffer, when it has that many. *)
Definition string_view (text : string) (len : nat) : option string :=
  if (len <=? String.length text)%nat then Some (substring 0 len text) else None.

(** The lambda [ret_is_wrong]; its arguments are what [data()] of the two
    views reads. *)
Definition ret_is_wrong (expected actual : string) : outcome unit :=
  Thrown ("returned value '" ++ actual ++ "' doesn't match expected '"
          ++ expected ++ "'").

Section Runner.

Variable H : harness.

(** The result is [None] where the C++ program reads outside the object's
    text buffer. *)
Definition validate_ret_against_expected (obj : retval_object)
    (expected_type : uacpi_object_type) (expected_val : string)
  : option (outcome unit) :=
  if negb (bool_decide (ret_type obj = expected_type)) then
    Some (Thrown ("returned type '" ++ type_to_string (ret_type obj)
                  ++ "' doesn't match expected '"
                  ++ type_to_string expected_type ++ "'"))
  else
    match ret_type obj with
    | UACPI_OBJECT_INTEGER =>
        match stoull H expected_val with
        | inr what => Some (Thrown what)
        | inl expected_int =>
            let actual_int := as_integer_value obj in
            if negb (expected_int =? actual_int) then
              Some (ret_is_wrong expected_val (to_string H actual_int))
            else Some (Returned tt)
        end
    | UACPI_OBJECT_STRING =>
        match string_view (as_string_text obj) (as_string_length obj) with
        | None => None
        | Some actual_str =>
            if negb (String.eqb expected_val actual_str) then
              match c_str (as_string_text obj) with
              | Some shown => Some (ret_is_wrong expected_val shown)
              | None => None
              end
            else Some (Returned tt)
        end
    | _ => Some Aborted
    end.

(** The lambda [ensure_ok_status]. *)
Definition ensure_ok_status (st : uacpi_status) : outcome unit :=
  if bool_decide (st = UACPI_STATUS_OK) then Returned tt
  else Thrown ("uACPI error: " ++ uacpi_status_to_string H st).

Definition run_test (dsdt_path : string) (expected_type : uacpi_object_type)
    (expected_value : string) (l : list runner_event)
  : option (outcome unit * list runner_event) :=
  let l1 := l ++ [ev_build_xsdt_from_file dsdt_path] in
  match build_xsdt_from_file H l dsdt_path with
  | Some what => Some (Thrown what, l1)
  | None =>
      let l2 := l1 ++ [ev_uacpi_initialize] in
      match ensure_ok_status (uacpi_initialize H l1) with
      | Returned _ =>
          let l3 := l2 ++ [ev_uacpi_namespace_load] in
          match ensure_ok_status (uacpi_namespace_load H l2) with
          | Returned _ =>
              let l4 := l3 ++ [ev_uacpi_namespace_initialize] in
              match ensure_ok_status (uacpi_namespace_initialize H l3) with
              | Returned _ =>
                  let l5 := l4 ++ [ev_uacpi_eval "\MAIN"] in
                  let (st, obj) := uacpi_eval H l4 "\MAIN" in
                  match ensure_ok_status st with
                  | Returned _ =>
                      match validate_ret_against_expected obj expected_type
                                                          expected_value with
                      | Some o => Some (o, l5)
                      | None => None
                      end
                  | o => Some (o, l5)
                  end
              | o => Some (o, l4)
              end
          | o => Some (o, l3)
          end
      | o => Some (o, l2)
      end
  end.

(** How the process ends. *)
Inductive process_end : Type :=
| Exit (code : Z)
| Killed_by_abort.

(** [main]; [argc] is the length of [argv].  With no argument at all
    [argv[0]] is null and the usage line has no defined text. *)
Definition main (argv : list string) (l : list runner_event)
  : option (process_end * list runner_event) :=
  if Z.of_nat (length argv) <? 4 then
    match argv with
    | [] => None
    | argv0 :: _ =>
        Some (Exit 1,
              l ++ [ev_cout ("Usage: " ++ argv0
                             ++ " <dsdt_path> <expected_type> <expected_value>")])
    end
  else
    match string_to_object_type (nth 2 argv EmptyString) with
    | Returned expected_type =>
        match run_test (nth 1 argv EmptyString) expected_type
                       (nth 3 argv EmptyString) l with
        | Some (Returned _, l') => Some (Exit 0, l')
        | Some (Thrown what, l') => Some (Exit 1, l' ++ [ev_cout ("ERROR: " ++ what)])
        | Some (Aborted, l') => Some (Killed_by_abort, l')
        | None => None
        end
    | Thrown what => Some (Exit 1, l ++ [ev_cout ("ERROR: " ++ what)])
    | Aborted => Some (Killed_by_abort, l)
    end.

End Runner.

(** The five calls of a complete run, in order. *)
Definition run_stages (dsdt_path : string) : list runner_event :=
  [ev_build_xsdt_from_file dsdt_path; ev_uacpi_initialize; ev_uacpi_namespace_load;
   ev_uacpi_namespace_initialize; ev_uacpi_eval "\MAIN"].

(** A harness on which everything succeeds and [MAIN] returns the integer
    0x1234; [stoull] knows two spellings of that number. *)
Definition demo_stoull (s : string) : Z + string :=
  if String.eqb s "0x1234" then inl 4660
  else if String.eqb s "4660" then inl 4660
  else inr "stoull"%string.

Definition demo_harness (init : uacpi_status) (obj : retval_object) : harness :=
  {| build_xsdt_from_file := fun _ _ => None;
     uacpi_initialize := fun _ => init;
     uacpi_namespace_load := fun _ => UACPI_STATUS_OK;
     uacpi_namespace_initialize := fun _ => UACPI_STATUS_OK;
     uacpi_eval := fun _ _ => (UACPI_STATUS_OK, obj);
     uacpi_status_to_string := fun _ => "error"%string;
     stoull := demo_stoull;
     to_string := fun _ => "?"%string |}.

Definition integer_object (v : Z) : retval_object :=
  {| ret_type := UACPI_OBJECT_INTEGER; as_integer_value := v;
     as_string_text := EmptyString; as_string_length := 0 |}.

(** A string object over the buffer [buf], of which [len] bytes count. *)
Definition string_object (buf : string) (len : nat) : retval_object :=
  {| ret_type := UACPI_OBJECT_STRING; as_integer_value := 0;
     as_string_text := buf; as_string_length := len |}.

(** * Properties *)

(** ** Bytes *)

Lemma wrap_small bits v : 0 <= v < 2 ^ bits -> wrap bits v = v.
Proof. intros Hv. unfold wrap. apply Z.mod_small. exact Hv. Qed.

Lemma decode_le_encode_le n v :
  decode_le (encode_le n v) = v mod 2 ^ (8 * Z.of_nat n).
Proof.
  revert v. induction n as [|n IH]; intros v.
  - simpl. symmetry. apply Z.mod_1_r.
  - cbn [encode_le decode_le]. rewrite IH, Z.mod_mod by lia.
    replace (8 * Z.of_nat (S n)) with (8 + 8 * Z.of_nat n) by lia.
    rewrite Z.pow_add_r by lia. change (2 ^ 8) with 256.
    rewrite Z.rem_mul_r; [reflexivity | lia |].
    apply Z.pow_pos_nonneg; lia.
Qed.

Lemma decode_le_range bs :
  0 <= decode_le bs < 2 ^ (8 * Z.of_nat (length bs)).
Proof.
  induction bs as [|b bs IH].
  - simpl. lia.
  - cbn [decode_le length].
    replace (8 * Z.of_nat (S (length bs))) with (8 + 8 * Z.of_nat (length bs)) by lia.
    rewrite Z.pow_add_r by lia. change (2 ^ 8) with 256.
    assert (Hb : 0 <= b mod 256 < 256) by (apply Z.mod_pos_bound; lia).
    nia.
Qed.

Lemma length_encode_le n v : length (encode_le n v) = n.
Proof. revert v. induction n as [|n IH]; intros v; simpl; [reflexivity | now rewrite IH]. Qed.

Lemma length_encode bo n v : length (encode bo n v) = n.
Proof. destruct bo; simpl; [| rewrite length_rev]; apply length_encode_le. Qed.

Lemma length_read_bytes m p n : length (read_bytes m p n) = n.
Proof. revert p. induction n as [|n IH]; intros p; simpl; [reflexivity | now rewrite IH]. Qed.

Lemma decode_encode bo n v : decode bo (encode bo n v) = v mod 2 ^ (8 * Z.of_nat n).
Proof.
  destruct bo; simpl.
  - apply decode_le_encode_le.
  - rewrite rev_involutive. apply decode_le_encode_le.
Qed.

Lemma decode_range bo bs : 0 <= decode bo bs < 2 ^ (8 * Z.of_nat (length bs)).
Proof.
  destruct bo; simpl.
  - apply decode_le_range.
  - rewrite <- length_rev. apply decode_le_range.
Qed.

Lemma write_bytes_below m p bs a : a < p -> write_bytes m p bs a = m a.
Proof.
  revert m p. induction bs as [|b bs IH]; intros m p Ha; simpl.
  - reflexivity.
  - rewrite IH by lia. destruct (Z.eqb_spec a p); [lia | reflexivity].
Qed.

Lemma read_write_bytes m p bs :
  read_bytes (write_bytes m p bs) p (length bs) = bs.
Proof.
  revert m p. induction bs as [|b bs IH]; intros m p; simpl.
  - reflexivity.
  - rewrite IH. rewrite write_bytes_below by lia.
    now rewrite Z.eqb_refl.
Qed.

(** A store followed by a load of the same width at the same place. *)
Lemma load_after_store bo n m p v :
  decode bo (read_bytes (write_bytes m p (encode bo n v)) p n)
  = v mod 2 ^ (8 * Z.of_nat n).
Proof.
  rewrite <- (length_encode bo n v) at 2.
  rewrite read_write_bytes. apply decode_encode.
Qed.

(** The [switch (width)] of the two access primitives. *)
Lemma switch_width_default {A : Type} (w : Z) (a b c d e : A) :
  w <> 1 -> w <> 2 -> w <> 4 -> w <> 8 ->
  match w with 1 => a | 2 => b | 4 => c | 8 => d | _ => e end = e.
Proof.
  intros H1 H2 H4 H8.
  destruct w as [|p|p]; try reflexivity.
  do 4 (try destruct p as [p|p|]); try reflexivity; congruence.
Qed.

(** ** The MMIO access primitives *)

Lemma as_u64_decode bo m p (n : nat) :
  (n <= 8)%nat -> as_u64 (decode bo (read_bytes m p n)) = decode bo (read_bytes m p n).
Proof.
  intros Hn. apply wrap_small.
  pose proof (decode_range bo (read_bytes m p n)) as Hr.
  rewrite length_read_bytes in Hr.
  assert (2 ^ (8 * Z.of_nat n) <= 2 ^ 64) by (apply Z.pow_le_mono_r; lia).
  lia.
Qed.

Lemma memory_read_spec bo ptr (n : nat) out s :
  (n = 1 \/ n = 2 \/ n = 4 \/ n = 8)%nat ->
  memory_read bo ptr (Z.of_nat n) out s
  = Some ((UACPI_STATUS_OK, decode bo (read_bytes (ram s) ptr n)),
          emit (volatile_load ptr (Z.of_nat n)) s).
Proof.
  intros [-> | [-> | [-> | ->]]];
    cbv [memory_read Z.of_nat Pos.of_succ_nat Pos.succ bind volatile_read ret];
    rewrite as_u64_decode by lia; reflexivity.
Qed.

Lemma memory_write_spec bo ptr (n : nat) v s :
  (n = 1 \/ n = 2 \/ n = 4 \/ n = 8)%nat ->
  memory_write bo ptr (Z.of_nat n) v s
  = Some (UACPI_STATUS_OK,
          emit (volatile_store ptr (Z.of_nat n) (wrap (8 * Z.of_nat n) v))
               (set_ram s (write_bytes (ram s) ptr
                             (encode bo n (wrap (8 * Z.of_nat n) v))))).
Proof.
  intros [-> | [-> | [-> | ->]]]; reflexivity.
Qed.

Lemma width_nat w :
  w = 1 \/ w = 2 \/ w = 4 \/ w = 8 ->
  exists n : nat, w = Z.of_nat n /\ (n = 1 \/ n = 2 \/ n = 4 \/ n = 8)%nat.
Proof.
  intros [-> | [-> | [-> | ->]]];
    [exists 1%nat | exists 2%nat | exists 4%nat | exists 8%nat]; split; auto.
Qed.

(** C4: for a byte width outside {1,2,4,8} the MMIO read primitive and the
    MMIO write primitive both return the invalid-argument status, the state
    (mapped memory and the log of accesses) is left as it was and the read's
    out-slot keeps its value; for a width in {1,2,4,8} both return success,
    having made exactly one volatile access of that width. *)
Theorem memory_access_width_check bo (ptr w out v : Z) (s : world) :
  (w <> 1 -> w <> 2 -> w <> 4 -> w <> 8 ->
     memory_read bo ptr w out s = Some ((UACPI_STATUS_INVALID_ARGUMENT, out), s) /\
     memory_write bo ptr w v s = Some (UACPI_STATUS_INVALID_ARGUMENT, s)) /\
  (w = 1 \/ w = 2 \/ w = 4 \/ w = 8 ->
     (exists out' s',
         memory_read bo ptr w out s = Some ((UACPI_STATUS_OK, out'), s') /\
         log s' = log s ++ [volatile_load ptr w]) /\
     (exists s',
         memory_write bo ptr w v s = Some (UACPI_STATUS_OK, s') /\
         log s' = log s ++ [volatile_store ptr w (wrap (8 * w) v)])).
Proof.
  split.
  - intros H1 H2 H4 H8. unfold memory_read, memory_write.
    rewrite !switch_width_default by assumption. split; reflexivity.
  - intros Hw. destruct (width_nat w Hw) as (n & -> & Hn). split.
    + eexists _, _. split; [apply memory_read_spec; exact Hn | reflexivity].
    + eexists. split; [apply memory_write_spec; exact Hn | reflexivity].
Qed.

(** C9: an MMIO write of [v] with width [w] stores [v mod 2^(8w)]; an MMIO
    read of width [w] yields a value below [2^(8w)]; and a read that follows
    a write at the same pointer and width yields [v mod 2^(8w)].  The claim
    is for the widths 1, 2 and 4; the statement also covers 8. *)
Theorem memory_write_truncates_read_zero_extends bo (ptr w v out : Z) (s : world) :
  w = 1 \/ w = 2 \/ w = 4 \/ w = 8 ->
  (exists s1,
      memory_write bo ptr w v s = Some (UACPI_STATUS_OK, s1) /\
      log s1 = log s ++ [volatile_store ptr w (v mod 2 ^ (8 * w))] /\
      exists s2,
        memory_read bo ptr w out s1
        = Some ((UACPI_STATUS_OK, v mod 2 ^ (8 * w)), s2)) /\
  (exists r s2,
      memory_read bo ptr w out s = Some ((UACPI_STATUS_OK, r), s2) /\
      0 <= r < 2 ^ (8 * w)).
Proof.
  intros Hw. destruct (width_nat w Hw) as (n & -> & Hn). split.
  - eexists. split; [apply memory_write_spec; exact Hn |].
    split; [reflexivity |].
    eexists. rewrite memory_read_spec by exact Hn.
    cbn [ram emit add_log set_ram]. rewrite load_after_store.
    unfold wrap. rewrite Z.mod_mod by (apply Z.pow_nonzero; lia).
    reflexivity.
  - eexists _, _. split; [apply memory_read_spec; exact Hn |].
    pose proof (decode_range bo (read_bytes (ram s) ptr n)) as Hr.
    rewrite length_read_bytes in Hr. exact Hr.
Qed.

(** ** Context blocks *)

Lemma load_field_eq w p f blk v :
  heap w !! p = Some blk -> blk !! f = Some v -> load_field p f w = Some (v, w).
Proof. intros Hp Hf. unfold load_field. rewrite Hp, Hf. reflexivity. Qed.

(** ** Address translation *)

Lemma as_size_small tgt v :
  0 <= v < 2 ^ (8 * UACPI_POINTER_SIZE tgt) -> as_size tgt v = v.
Proof. intros Hv. unfold as_size. apply wrap_small. exact Hv. Qed.

(** C2: an MMIO read or write on an attached memory region is the access
    primitive applied at [virt + (address - phys)], computed as the C
    expression computes it (the difference in 64 bits, the sum in pointer
    width): for every width the result of the request is the result of
    [memory_read], respectively [memory_write], at that pointer; for a
    supported width a read delivers the bytes found there and a write stores
    the low bytes of the value there, one volatile access each.  The
    [offset] field of the request plays no part.  For an address at or above
    [phys] whose translation fits a pointer the access is at
    [virt + (address - phys)] exactly. *)
Theorem memory_region_do_rw_pointer tgt bo (op : uacpi_region_op)
    (d : uacpi_region_rw_data) (w : world) (blk : gmap field Z) (virt phys : Z) :
  heap w !! region_context d = Some blk ->
  blk !! F_virt = Some virt ->
  blk !! F_phys = Some phys ->
  op = UACPI_REGION_OP_READ \/ op = UACPI_REGION_OP_WRITE ->
  let ptr := as_size tgt (virt + as_u64 (address d - phys)) in
  (op = UACPI_REGION_OP_READ ->
   memory_region_do_rw tgt bo op d w
   = match memory_read bo ptr (byte_width d) (value d) w with
     | Some ((st, out), w') => Some ((st, set_value d out), w')
     | None => None
     end) /\
  (op = UACPI_REGION_OP_WRITE ->
   memory_region_do_rw tgt bo op d w
   = match memory_write bo ptr (byte_width d) (value d) w with
     | Some (st, w') => Some ((st, d), w')
     | None => None
     end) /\
  (forall n : nat,
      byte_width d = Z.of_nat n ->
      (n = 1 \/ n = 2 \/ n = 4 \/ n = 8)%nat ->
      (op = UACPI_REGION_OP_READ ->
       memory_region_do_rw tgt bo op d w
       = Some ((UACPI_STATUS_OK,
                set_value d (decode bo (read_bytes (ram w) ptr n))),
               emit (volatile_load ptr (Z.of_nat n)) w)) /\
      (op = UACPI_REGION_OP_WRITE ->
       memory_region_do_rw tgt bo op d w
       = Some ((UACPI_STATUS_OK, d),
               emit (volatile_store ptr (Z.of_nat n) (wrap (8 * Z.of_nat n) (value d)))
                    (set_ram w (write_bytes (ram w) ptr
                                  (encode bo n (wrap (8 * Z.of_nat n) (value d)))))))) /\
  (forall o,
      memory_region_do_rw tgt bo op (set_offset d o) w
      = match memory_region_do_rw tgt bo op d w with
        | Some ((st, d'), w') => Some ((st, set_offset d' o), w')
        | None => None
        end) /\
  (0 <= phys <= address d -> address d < 2 ^ 64 -> 0 <= virt ->
   virt + (address d - phys) < 2 ^ (8 * UACPI_POINTER_SIZE tgt) ->
   ptr = virt + (address d - phys)).
Proof.
  intros Hblk Hvirt Hphys Hop ptr.
  assert (Hrun : forall d0,
             region_context d0 = region_context d -> address d0 = address d ->
             memory_region_do_rw tgt bo op d0 w
             = match op with
               | UACPI_REGION_OP_READ =>
                   match memory_read bo ptr (byte_width d0) (value d0) w with
                   | Some ((st, out), w') => Some ((st, set_value d0 out), w')
                   | None => None
                   end
               | _ =>
                   match memory_write bo ptr (byte_width d0) (value d0) w with
                   | Some (st, w') => Some ((st, d0), w')
                   | None => None
                   end
               end).
  { intros d0 Hctx Haddr. unfold memory_region_do_rw, bind.
    rewrite Hctx, Haddr.
    rewrite (load_field_eq _ _ _ _ _ Hblk Hvirt), (load_field_eq _ _ _ _ _ Hblk Hphys).
    fold ptr. unfold ret.
    destruct op.
    - destruct (memory_write bo ptr _ _ w) as [[st w']|]; reflexivity.
    - destruct (memory_write bo ptr _ _ w) as [[st w']|]; reflexivity.
    - destruct (memory_read bo ptr _ _ w) as [[[st out] w']|]; reflexivity.
    - destruct (memory_write bo ptr _ _ w) as [[st w']|]; reflexivity.
    - destruct (memory_write bo ptr _ _ w) as [[st w']|]; reflexivity. }
  split; [| split; [| split; [| split]]].
  - intros ->. apply (Hrun d); reflexivity.
  - intros ->. apply (Hrun d); reflexivity.
  - intros n Hwn Hn. split; intros ->; rewrite (Hrun d) by reflexivity; rewrite Hwn.
    + rewrite (memory_read_spec bo ptr n (value d) w Hn). reflexivity.
    + rewrite (memory_write_spec bo ptr n (value d) w Hn). reflexivity.
  - intros o. rewrite (Hrun (set_offset d o)), (Hrun d) by reflexivity.
    cbn [set_offset byte_width value].
    destruct Hop as [-> | ->].
    + destruct (memory_read bo ptr _ _ w) as [[[st out] w']|]; reflexivity.
    + destruct (memory_write bo ptr _ _ w) as [[st w']|]; reflexivity.
  - intros Hp Ha Hv Hfit. subst ptr. unfold as_u64.
    rewrite (wrap_small 64) by lia. apply as_size_small. lia.
Qed.

(** What [io_region_do_rw] hands to the platform's port primitive: the
    request's [offset] field minus the region base, in 64 bits, converted to
    [uacpi_size]. *)
Lemma io_region_do_rw_eq P tgt (op : uacpi_region_op) (d : uacpi_region_rw_data)
    (w : world) (blk : gmap field Z) (base h : Z) :
  heap w !! region_context d = Some blk ->
  blk !! F_base = Some base ->
  blk !! F_handle = Some h ->
  let off := as_size tgt (as_u64 (offset d - base)) in
  let width := as_u8 (byte_width d) in
  io_region_do_rw P tgt op d w
  = match op with
    | UACPI_REGION_OP_READ =>
        Some (((uacpi_kernel_io_read P (log w) h off width).1,
               store_out d (uacpi_kernel_io_read P (log w) h off width).2),
              emit (kernel_io_read h off width) w)
    | _ =>
        Some ((uacpi_kernel_io_write P (log w) h off width (value d), d),
              emit (kernel_io_write h off width (value d)) w)
    end.
Proof.
  intros Hblk Hbase Hh off width.
  unfold io_region_do_rw, bind.
  rewrite (load_field_eq _ _ _ _ _ Hblk Hbase), (load_field_eq _ _ _ _ _ Hblk Hh).
  fold off width. unfold call, ret.
  destruct op; try reflexivity.
  destruct (uacpi_kernel_io_read P (log w) h off width) as [st out]. reflexivity.
Qed.


(** It is the member [offset] the handler reads.  On a request that holds
    the absolute address 0x3FA in [address] and the distance 2 from the base
    0x3F8 in [offset], the platform is called with [2 - 0x3F8] wrapped to 64
    bits. *)
Example io_region_do_rw_reads_offset_member :
  io_region_do_rw good_platform Gnu_x86_64 UACPI_REGION_OP_WRITE
                  (rw_data 4096 1018 2 90 1) io_world
  = Some ((UACPI_STATUS_OK, rw_data 4096 1018 2 90 1),
          emit (kernel_io_write 7 18446744073709550602 1 90) io_world).
Proof. vm_compute. reflexivity. Qed.

(** ** Symbolic execution of the attach routines *)

Lemma store_field_top p f v blk h m l :
  store_field p f v {| heap := <[p := blk]> h; ram := m; log := l |}
  = Some (tt, {| heap := <[p := <[f := v]> blk]> h; ram := m; log := l |}).
Proof.
  unfold store_field. cbn [heap]. rewrite lookup_insert_eq.
  unfold set_heap. cbn [heap ram log]. rewrite insert_insert_eq. reflexivity.
Qed.

Lemma load_field_top p f blk h m l :
  load_field p f {| heap := <[p := blk]> h; ram := m; log := l |}
  = match blk !! f with
    | Some v => Some (v, {| heap := <[p := blk]> h; ram := m; log := l |})
    | None => None
    end.
Proof. unfold load_field. cbn [heap]. rewrite lookup_insert_eq. reflexivity. Qed.

Lemma get_region_eq ns node {A} (k : uacpi_operation_region -> M A) w :
  (let* p := get_op_region_ptr ns node in
   let* r := deref_op_region p in k r) w
  = match region_descriptor ns node with
    | Some r => k r w
    | None => None
    end.
Proof.
  unfold get_op_region_ptr, uacpi_namespace_node_get_object, deref_node,
    deref_op_region, region_descriptor, bind, ret, undefined.
  destruct (decide (node = UACPI_NULL)) as [Hnull | Hnode]; [reflexivity |].
  destruct (ns !! node) as [n|]; [| reflexivity].
  destruct (node_object n) as [o|]; [| reflexivity].
  destruct (obj_op_region o); reflexivity.
Qed.

Lemma bind_bind {A B C} (m : M A) (k1 : A -> M B) (k2 : B -> M C) w :
  bind (bind m k1) k2 w = bind m (fun a => bind (k1 a) k2) w.
Proof. unfold bind. destruct (m w) as [[a w']|]; reflexivity. Qed.

Lemma bind_ret {A B} (a : A) (k : A -> M B) w : bind (ret a) k w = k a w.
Proof. reflexivity. Qed.

Lemma bind_call {A B} e (f : list event -> A) (k : A -> M B) w :
  bind (call e f) k w = k (f (log w)) (emit e w).
Proof. reflexivity. Qed.

Lemma bind_do_emit {B} e (k : unit -> M B) w :
  bind (do_emit e) k w = k tt (emit e w).
Proof. reflexivity. Qed.

Lemma bind_new_block {B} p blk (k : unit -> M B) w :
  bind (new_block p blk) k w = k tt (set_heap w (<[p := blk]> (heap w))).
Proof. reflexivity. Qed.

Lemma bind_drop_block {B} p (k : unit -> M B) w :
  bind (drop_block p) k w = k tt (set_heap w (delete p (heap w))).
Proof. reflexivity. Qed.

Lemma bind_store_top {B} p f v blk h m l (k : unit -> M B) :
  bind (store_field p f v) k {| heap := <[p := blk]> h; ram := m; log := l |}
  = k tt {| heap := <[p := <[f := v]> blk]> h; ram := m; log := l |}.
Proof. unfold bind. rewrite store_field_top. reflexivity. Qed.

Lemma bind_load_top {B} p f v blk h m l (k : Z -> M B) :
  blk !! f = Some v ->
  bind (load_field p f) k {| heap := <[p := blk]> h; ram := m; log := l |}
  = k v {| heap := <[p := blk]> h; ram := m; log := l |}.
Proof. intros Hf. unfold bind. rewrite load_field_top, Hf. reflexivity. Qed.

Lemma bind_load_field {B} p f v blk (k : Z -> M B) w :
  heap w !! p = Some blk -> blk !! f = Some v ->
  bind (load_field p f) k w = k v w.
Proof. intros Hp Hf. unfold bind. rewrite (load_field_eq _ _ _ _ _ Hp Hf). reflexivity. Qed.

Ltac solve_field :=
  repeat first [ rewrite lookup_insert_eq
               | rewrite lookup_insert_ne by discriminate ];
  reflexivity.

Ltac mrun :=
  repeat first
    [ rewrite bind_bind
    | rewrite bind_ret
    | rewrite bind_call
    | rewrite bind_do_emit
    | rewrite bind_new_block
    | rewrite bind_drop_block
    | rewrite bind_store_top
    | erewrite bind_load_top by solve_field
    | progress cbv beta iota
    | progress (unfold set_heap, set_ram, emit, add_log; cbn [heap ram log]) ].

Lemma memory_region_attach_eq P tgt ns a w :
  memory_region_attach P tgt ns a w
  = let ctx := uacpi_kernel_alloc P (log w) sizeof_memory_region_ctx in
    let l1 := log w ++ [kernel_alloc sizeof_memory_region_ctx] in
    if decide (ctx = UACPI_NULL) then
      Some ((UACPI_STATUS_OUT_OF_MEMORY, a),
            {| heap := heap w; ram := ram w; log := l1 |})
    else
      match region_descriptor ns (region_node a) with
      | None => None
      | Some r =>
          let phys := as_u64 (or_offset r) in
          let size := as_size tgt (or_length r) in
          let virt := uacpi_kernel_map P l1 phys size in
          if decide (virt = UACPI_NULL) then
            Some ((UACPI_STATUS_MAPPING_FAILED, a),
                  {| heap := delete ctx (heap w);
                     ram := ram w;
                     log := l1 ++ [kernel_map phys size;
                                   trace_region_error (region_node a) "unable to map"
                                     UACPI_STATUS_MAPPING_FAILED;
                                   kernel_free ctx] |})
          else
            Some ((UACPI_STATUS_OK, set_out_region_context a ctx),
                  {| heap := <[ctx := <[F_virt := virt]>
                                        (<[F_phys := phys]> (<[F_size := size]> ∅))]>
                               (heap w);
                     ram := ram w;
                     log := l1 ++ [kernel_map phys size] |})
      end.
Proof.
  cbv zeta. unfold memory_region_attach, kernel_alloc_call. mrun.
  destruct (decide (uacpi_kernel_alloc P (log w) sizeof_memory_region_ctx = UACPI_NULL))
    as [Hnull | Hctx].
  - mrun. rewrite decide_True by exact Hnull. reflexivity.
  - mrun. rewrite decide_False by exact Hctx. rewrite get_region_eq.
    destruct (region_descriptor ns (region_node a)) as [r|]; [| reflexivity].
    mrun.
    destruct (decide (uacpi_kernel_map P _ _ _ = UACPI_NULL)) as [Hv | Hv].
    + unfold kernel_free_call. mrun. unfold ret.
      rewrite delete_insert_eq. rewrite <- !app_assoc. reflexivity.
    + unfold ret. rewrite <- !app_assoc. reflexivity.
Qed.

Lemma io_region_attach_eq P ns a w :
  io_region_attach P ns a w
  = let ctx := uacpi_kernel_alloc P (log w) sizeof_io_region_ctx in
    let l1 := log w ++ [kernel_alloc sizeof_io_region_ctx] in
    if decide (ctx = UACPI_NULL) then
      Some ((UACPI_STATUS_OUT_OF_MEMORY, a),
            {| heap := heap w; ram := ram w; log := l1 |})
    else
      match region_descriptor ns (region_node a) with
      | None => None
      | Some r =>
          let base := as_u64 (or_offset r) in
          let st := (uacpi_kernel_io_map P l1 base (or_length r)).1 in
          let h := (uacpi_kernel_io_map P l1 base (or_length r)).2 in
          let blk := match h with
                     | Some h' => <[F_handle := h']> (<[F_base := base]> ∅)
                     | None => <[F_base := base]> ∅
                     end in
          if uacpi_unlikely_error st then
            Some ((st, a),
                  {| heap := delete ctx (heap w);
                     ram := ram w;
                     log := l1 ++ [kernel_io_map base (or_length r);
                                   trace_region_error (region_node a)
                                     "unable to map an IO" st;
                                   kernel_free ctx] |})
          else
            Some ((st, set_out_region_context a ctx),
                  {| heap := <[ctx := blk]> (heap w);
                     ram := ram w;
                     log := l1 ++ [kernel_io_map base (or_length r)] |})
      end.
Proof.
  cbv zeta. unfold io_region_attach, kernel_alloc_call. mrun.
  destruct (decide (uacpi_kernel_alloc P (log w) sizeof_io_region_ctx = UACPI_NULL))
    as [Hnull | Hctx].
  - mrun. rewrite decide_True by exact Hnull. reflexivity.
  - mrun. rewrite decide_False by exact Hctx. rewrite get_region_eq.
    destruct (region_descriptor ns (region_node a)) as [r|]; [| reflexivity].
    mrun.
    destruct (uacpi_kernel_io_map P _ _ _) as [st [h|]]; cbn [fst snd]; mrun;
      destruct (uacpi_unlikely_error st); unfold kernel_free_call; mrun; unfold ret;
      rewrite ?delete_insert_eq, <- ?app_assoc; reflexivity.
Qed.

Lemma memory_region_detach_eq d w blk virt size :
  heap w !! detach_region_context d = Some blk ->
  blk !! F_virt = Some virt ->
  blk !! F_size = Some size ->
  memory_region_detach d w
  = Some (UACPI_STATUS_OK,
          {| heap := delete (detach_region_context d) (heap w);
             ram := ram w;
             log := log w ++ [kernel_unmap virt size;
                              kernel_free (detach_region_context d)] |}).
Proof.
  intros Hblk Hvirt Hsize. unfold memory_region_detach.
  rewrite (bind_load_field _ _ _ _ _ _ Hblk Hvirt), (bind_load_field _ _ _ _ _ _ Hblk Hsize).
  unfold kernel_free_call. mrun. unfold ret. rewrite <- app_assoc. reflexivity.
Qed.

Lemma io_region_detach_eq d w blk h :
  heap w !! detach_region_context d = Some blk ->
  blk !! F_handle = Some h ->
  io_region_detach d w
  = Some (UACPI_STATUS_OK,
          {| heap := delete (detach_region_context d) (heap w);
             ram := ram w;
             log := log w ++ [kernel_io_unmap h;
                              kernel_free (detach_region_context d)] |}).
Proof.
  intros Hblk Hh. unfold io_region_detach.
  rewrite (bind_load_field _ _ _ _ _ _ Hblk Hh).
  unfold kernel_free_call. mrun. unfold ret. rewrite <- app_assoc. reflexivity.
Qed.

Lemma pci_region_detach_eq d w :
  pci_region_detach d w
  = Some (UACPI_STATUS_OK,
          {| heap := delete (detach_region_context d) (heap w);
             ram := ram w;
             log := log w ++ [kernel_free (detach_region_context d)] |}).
Proof. reflexivity. Qed.

(** ** The two namespace walks *)

Lemma add_log_add_log w es1 es2 :
  add_log (add_log w es1) es2 = add_log w (es1 ++ es2).
Proof. unfold add_log. cbn [heap ram log]. rewrite app_assoc. reflexivity. Qed.

Lemma is_node_pci_root_eq P node w :
  is_node_pci_root P node w
  = Some (recognized_pci_root P (log w) node,
          add_log w (probe_events P (log w) node)).
Proof.
  unfold is_node_pci_root, recognized_pci_root, probe_events, hid_matches, cid_matches.
  mrun.
  destruct (uacpi_eval_hid P (log w) node) as [st id]. cbn [fst snd].
  destruct (bool_decide (st = UACPI_STATUS_OK) && uacpi_is_pci_root_bridge P id).
  - mrun. unfold ret. rewrite <- !app_assoc. reflexivity.
  - mrun.
    destruct (uacpi_eval_cid P (log w ++ [eval_hid node]) node) as [st' ids].
    cbn [fst snd]. mrun. unfold ret. rewrite <- !app_assoc. cbn [orb app].
    replace (any_pci_root_bridge P ids)
      with (existsb (fun id0 => uacpi_is_pci_root_bridge P (Some id0)) ids).
    + destruct (bool_decide (st' = UACPI_STATUS_OK)); reflexivity.
    + induction ids as [|i ids IH]; cbn; [reflexivity |].
      rewrite IH. destruct (uacpi_is_pci_root_bridge P (Some i)); reflexivity.
Qed.

Lemma deref_node_eq ns p n w :
  p <> UACPI_NULL -> ns !! p = Some n -> deref_node ns p w = Some (n, w).
Proof.
  intros Hp Hn. unfold deref_node. rewrite decide_False by exact Hp.
  rewrite Hn. reflexivity.
Qed.

Lemma bind_deref_node {B} ns p n (k : uacpi_namespace_node -> M B) w :
  p <> UACPI_NULL -> ns !! p = Some n -> bind (deref_node ns p) k w = k n w.
Proof. intros Hp Hn. unfold bind. rewrite (deref_node_eq ns p n w Hp Hn). reflexivity. Qed.

Lemma is_chain_cons ns stop p a rest :
  is_chain ns stop p (a :: rest) = true ->
  p = a /\ a <> stop /\ a <> UACPI_NULL /\
  exists n, ns !! a = Some n /\ is_chain ns stop (node_parent n) rest = true.
Proof.
  cbn [is_chain]. intros H.
  apply andb_prop in H as [H Hrest]. apply andb_prop in H as [H Hnull].
  apply andb_prop in H as [Hp Hstop].
  apply bool_decide_eq_true in Hp.
  apply negb_true_iff, bool_decide_eq_false in Hstop, Hnull.
  destruct (ns !! a) as [n|]; [| discriminate]. eauto 8.
Qed.

Lemma find_pci_root_loop_eq P ns root node n0 anc :
  node <> UACPI_NULL -> ns !! node = Some n0 ->
  forall fuel parent w,
    is_chain ns root parent anc = true ->
    (length anc <= fuel)%nat ->
    find_pci_root_loop P ns root fuel node parent w
    = Some (default node (first_pci_root P (log w) anc),
            add_log w (root_walk_events P ns (log w) node anc)).
Proof.
  intros Hnode Hn0. induction anc as [|a rest IH]; intros fuel parent w Hchain Hfuel.
  - cbn [is_chain] in Hchain. apply bool_decide_eq_true in Hchain. subst parent.
    destruct fuel; cbn [find_pci_root_loop]; rewrite decide_True by reflexivity;
      reflexivity.
  - apply is_chain_cons in Hchain as (-> & Hstop & Hnull & n & Hn & Hrest).
    destruct fuel as [|fuel]; [cbn in Hfuel; lia |].
    cbn [find_pci_root_loop first_pci_root root_walk_events].
    rewrite decide_False by exact Hstop.
    unfold bind at 1. rewrite is_node_pci_root_eq.
    destruct (recognized_pci_root P (log w) a).
    + rewrite (bind_deref_node ns a n _ _ Hnull Hn).
      rewrite (bind_deref_node ns node n0 _ _ Hnode Hn0).
      mrun. unfold ret, name_of. rewrite Hn, Hn0. cbn [default].
      rewrite <- app_assoc. reflexivity.
    + rewrite (bind_deref_node ns a n _ _ Hnull Hn).
      rewrite (IH fuel (node_parent n) _ Hrest) by (cbn in Hfuel; lia).
      rewrite add_log_add_log. reflexivity.
Qed.

Lemma find_device_loop_eq ns path :
  forall fuel node w,
    is_chain ns UACPI_NULL node path = true ->
    (length path <= fuel)%nat ->
    find_device_loop ns fuel node w = Some (controlling_device ns path, w).
Proof.
  induction path as [|a rest IH]; intros fuel node w Hchain Hfuel.
  - cbn [is_chain] in Hchain. apply bool_decide_eq_true in Hchain. subst node.
    destruct fuel; cbn [find_device_loop]; rewrite decide_True by reflexivity;
      reflexivity.
  - apply is_chain_cons in Hchain as (-> & _ & Hnull & n & Hn & Hrest).
    destruct fuel as [|fuel]; [cbn in Hfuel; lia |].
    cbn [find_device_loop]. rewrite decide_False by exact Hnull.
    unfold uacpi_namespace_node_get_object. mrun.
    rewrite (bind_deref_node ns a n _ _ Hnull Hn). mrun.
    unfold controlling_device. cbn [List.find].
    unfold is_device_node at 1. rewrite Hn.
    destruct (node_object n) as [o|].
    + destruct (bool_decide (obj_type o = UACPI_OBJECT_DEVICE)).
      * reflexivity.
      * rewrite (bind_deref_node ns a n _ _ Hnull Hn).
        apply IH; [exact Hrest | cbn in Hfuel; lia].
    + rewrite (bind_deref_node ns a n _ _ Hnull Hn).
      apply IH; [exact Hrest | cbn in Hfuel; lia].
Qed.

Lemma is_chain_to_null ns root r anc :
  root <> UACPI_NULL -> ns !! root = Some r -> node_parent r = UACPI_NULL ->
  forall p,
    is_chain ns root p anc = true ->
    is_chain ns UACPI_NULL p (anc ++ [root]) = true.
Proof.
  intros Hroot Hr Hpar. induction anc as [|a rest IH]; intros p Hchain.
  - cbn [is_chain] in Hchain. apply bool_decide_eq_true in Hchain. subst p.
    cbn [app is_chain]. rewrite Hr, Hpar.
    rewrite !bool_decide_eq_true_2 by reflexivity.
    rewrite bool_decide_eq_false_2 by exact Hroot. reflexivity.
  - apply is_chain_cons in Hchain as (-> & _ & Hnull & n & Hn & Hrest).
    cbn [app is_chain]. rewrite Hn, (IH _ Hrest).
    rewrite bool_decide_eq_true_2 by reflexivity.
    rewrite bool_decide_eq_false_2 by exact Hnull. reflexivity.
Qed.

(** What [well_rooted] gives the two walks. *)
Lemma well_rooted_inv ns root node anc :
  well_rooted ns root node anc = true ->
  node <> UACPI_NULL /\
  exists n, ns !! node = Some n /\
            is_chain ns root (node_parent n) anc = true /\
            is_chain ns UACPI_NULL node (node :: anc ++ [root]) = true.
Proof.
  unfold well_rooted. intros H.
  apply andb_prop in H as [H Hrest]. apply andb_prop in H as [Hnode Hroot].
  apply negb_true_iff, bool_decide_eq_false in Hnode, Hroot.
  destruct (ns !! node) as [n|] eqn:Hn; [| discriminate].
  destruct (ns !! root) as [r|] eqn:Hr; [| discriminate].
  apply andb_prop in Hrest as [Hchain Hpar]. apply bool_decide_eq_true in Hpar.
  split; [exact Hnode |]. exists n. split; [reflexivity |]. split; [exact Hchain |].
  cbn [is_chain]. rewrite Hn.
  rewrite (is_chain_to_null ns root r anc Hroot Hr Hpar _ Hchain).
  rewrite bool_decide_eq_true_2 by reflexivity.
  rewrite bool_decide_eq_false_2 by exact Hnode. reflexivity.
Qed.

Lemma find_pci_root_eq P ns root fuel node anc w :
  well_rooted ns root node anc = true ->
  (length anc <= fuel)%nat ->
  find_pci_root P ns root fuel node w
  = Some (default node (first_pci_root P (log w) anc),
          add_log w (root_walk_events P ns (log w) node anc)).
Proof.
  intros Hwf Hfuel.
  destruct (well_rooted_inv _ _ _ _ Hwf) as (Hnode & n & Hn & Hchain & _).
  unfold find_pci_root. rewrite (bind_deref_node ns node n _ _ Hnode Hn).
  apply (find_pci_root_loop_eq P ns root node n anc Hnode Hn); assumption.
Qed.

Lemma controlling_device_found ns path :
  controlling_device ns path <> UACPI_NULL ->
  exists n, ns !! controlling_device ns path = Some n.
Proof.
  unfold controlling_device. intros Hdev.
  destruct (List.find (is_device_node ns) path) as [dev|] eqn:Hfind;
    [| contradiction Hdev; reflexivity].
  apply List.find_some in Hfind as [_ Hdevice].
  unfold is_device_node in Hdevice.
  destruct (ns !! dev) as [n|]; [eauto | discriminate].
Qed.

Lemma get_op_region_ptr_eq ns node n o w :
  node <> UACPI_NULL -> ns !! node = Some n -> node_object n = Some o ->
  get_op_region_ptr ns node w = Some (obj_op_region o, w).
Proof.
  intros Hnode Hn Ho. unfold get_op_region_ptr, uacpi_namespace_node_get_object.
  mrun. rewrite (bind_deref_node ns node n _ _ Hnode Hn). mrun.
  rewrite Ho. reflexivity.
Qed.

Lemma pci_block_built (fn dev seg b : Z) :
  <[F_bus := b]> (<[F_segment := seg]> (<[F_device := dev]>
     (<[F_function := fn]> zeroed_pci_region_ctx)))
  = pci_block {| segment := seg; bus := b; device := dev; function := fn |}.
Proof.
  apply map_eq. intros f. unfold pci_block, zeroed_pci_region_ctx.
  cbn [segment bus device function].
  destruct f; repeat first [ rewrite lookup_insert_eq
                           | rewrite lookup_insert_ne by discriminate ];
    reflexivity.
Qed.

(** The whole of [pci_region_attach] on a region node that sits properly
    below the root and has an object. *)
Lemma pci_region_attach_eq P ns root fuel a anc w :
  well_rooted ns root (region_node a) anc = true ->
  has_object ns (region_node a) = true ->
  (length anc + 2 <= fuel)%nat ->
  pci_region_attach P ns root fuel a w
  = let node := region_node a in
    let ctx := uacpi_kernel_calloc P (log w) 1 sizeof_pci_region_ctx in
    let l1 := log w ++ [kernel_calloc 1 sizeof_pci_region_ctx] in
    if decide (ctx = UACPI_NULL) then
      Some ((UACPI_STATUS_OUT_OF_MEMORY, a),
            {| heap := heap w; ram := ram w; log := l1 |})
    else
      let pci_root := default node (first_pci_root P l1 anc) in
      let l2 := l1 ++ root_walk_events P ns l1 node anc in
      let dev := controlling_device ns (node :: anc ++ [root]) in
      if decide (dev = UACPI_NULL) then
        Some ((UACPI_STATUS_NOT_FOUND, a),
              {| heap := delete ctx (heap w);
                 ram := ram w;
                 log := l2 ++ [trace_region_error UACPI_NULL
                                 "unable to find device responsible for"
                                 UACPI_STATUS_NOT_FOUND;
                               kernel_free ctx] |})
      else
        let adr := uacpi_eval_typed P l2 dev "_ADR" in
        let l3 := l2 ++ [eval_typed dev "_ADR"] in
        let seg := uacpi_eval_typed P l3 pci_root "_SEG" in
        let l4 := l3 ++ [eval_typed pci_root "_SEG"] in
        let bbn := uacpi_eval_typed P l4 pci_root "_BBN" in
        let l5 := l4 ++ [eval_typed pci_root "_BBN"] in
        let addr := resolved_address adr seg bbn in
        Some ((UACPI_STATUS_OK, set_out_region_context a ctx),
              {| heap := <[ctx := pci_block addr]> (heap w);
                 ram := ram w;
                 log := l5 ++ [trace "detected PCI device %.4s@%04X:%02X:%02X:%01X"
                                 [arg_name (name_of ns dev); arg_int (segment addr);
                                  arg_int (bus addr); arg_int (device addr);
                                  arg_int (function addr)]] |}).
Proof.
  intros Hwf Hobj Hfuel. cbv zeta.
  destruct (well_rooted_inv _ _ _ _ Hwf) as (Hnode & n & Hn & _ & Hpath).
  unfold has_object in Hobj. rewrite Hn in Hobj.
  destruct (node_object n) as [o|] eqn:Ho; [| discriminate].
  unfold pci_region_attach, kernel_calloc_call. mrun.
  destruct (decide (uacpi_kernel_calloc P (log w) 1 sizeof_pci_region_ctx = UACPI_NULL))
    as [Hnull | Hctx].
  { mrun. rewrite decide_True by exact Hnull. reflexivity. }
  mrun. rewrite decide_False by exact Hctx.
  unfold bind at 1. rewrite (get_op_region_ptr_eq ns _ n o _ Hnode Hn Ho).
  unfold bind at 1. rewrite (find_pci_root_eq P ns root fuel _ anc _ Hwf) by lia.
  unfold bind at 1.
  rewrite (find_device_loop_eq ns (region_node a :: anc ++ [root]))
    by (try exact Hpath; cbn [length]; rewrite length_app; cbn [length]; lia).
  mrun.
  destruct (decide (controlling_device ns (region_node a :: anc ++ [root]) = UACPI_NULL))
    as [Hdev | Hdev].
  { rewrite Hdev. unfold kernel_free_call. mrun. unfold ret.
    rewrite delete_insert_eq, <- !app_assoc. reflexivity. }
  destruct (controlling_device_found ns _ Hdev) as (nd & Hnd).
  set (dev := controlling_device ns (region_node a :: anc ++ [root])) in *.
  set (pci_root := default (region_node a) (first_pci_root P _ anc)).
  unfold eval_integer, resolved_address. mrun.
  destruct (uacpi_eval_typed P _ dev "_ADR") as [st1 v1]. mrun. cbn [fst snd].
  destruct (bool_decide (st1 = UACPI_STATUS_OK)); mrun;
    destruct (uacpi_eval_typed P _ pci_root "_SEG") as [st2 v2]; mrun; cbn [fst snd];
    destruct (bool_decide (st2 = UACPI_STATUS_OK)); mrun;
    destruct (uacpi_eval_typed P _ pci_root "_BBN") as [st3 v3]; mrun; cbn [fst snd];
    destruct (bool_decide (st3 = UACPI_STATUS_OK)); mrun;
    rewrite (bind_deref_node ns dev nd _ _ Hdev Hnd); mrun;
    unfold ret, name_of; rewrite Hnd; cbn [segment bus device function];
    rewrite <- !app_assoc; cbn [app]; rewrite <- pci_block_built;
    repeat f_equal; apply map_eq; intros f;
    unfold zeroed_pci_region_ctx;
    destruct f; repeat first [ rewrite lookup_insert_eq
                             | rewrite lookup_insert_ne by discriminate ];
    reflexivity.
Qed.

(** ** Attach failures *)

(** C5: an attach that fails after its context was allocated frees that
    context and leaves the caller's out-slot alone.  MMIO: when the platform
    map answers null, the result is mapping-failed.  PCI: when no node on
    the way from the region to the root is a Device, the result is
    not-found.  Port I/O: when the io-map answers an error, that error is the
    result.  In each case the attach data come back unchanged, the last
    platform call is the free of the allocated context, and the context
    block is gone from the heap. *)
Theorem attach_failure_releases_context P tgt ns root fuel
    (a : uacpi_region_attach_data) (anc : list Z) (w : world) :
  (forall r,
      let ctx := uacpi_kernel_alloc P (log w) sizeof_memory_region_ctx in
      let l1 := log w ++ [kernel_alloc sizeof_memory_region_ctx] in
      region_descriptor ns (region_node a) = Some r ->
      ctx <> UACPI_NULL ->
      uacpi_kernel_map P l1 (as_u64 (or_offset r)) (as_size tgt (or_length r))
        = UACPI_NULL ->
      exists w',
        memory_region_attach P tgt ns a w
          = Some ((UACPI_STATUS_MAPPING_FAILED, a), w') /\
        (exists evs, log w' = log w ++ kernel_alloc sizeof_memory_region_ctx
                                     :: evs ++ [kernel_free ctx]) /\
        heap w' = delete ctx (heap w) /\ heap w' !! ctx = None) /\
  (let ctx := uacpi_kernel_calloc P (log w) 1 sizeof_pci_region_ctx in
   well_rooted ns root (region_node a) anc = true ->
   has_object ns (region_node a) = true ->
   (length anc + 2 <= fuel)%nat ->
   ctx <> UACPI_NULL ->
   controlling_device ns (region_node a :: anc ++ [root]) = UACPI_NULL ->
   exists w',
     pci_region_attach P ns root fuel a w
       = Some ((UACPI_STATUS_NOT_FOUND, a), w') /\
     (exists evs, log w' = log w ++ kernel_calloc 1 sizeof_pci_region_ctx
                                  :: evs ++ [kernel_free ctx]) /\
     heap w' = delete ctx (heap w) /\ heap w' !! ctx = None) /\
  (forall r st,
      let ctx := uacpi_kernel_alloc P (log w) sizeof_io_region_ctx in
      let l1 := log w ++ [kernel_alloc sizeof_io_region_ctx] in
      region_descriptor ns (region_node a) = Some r ->
      ctx <> UACPI_NULL ->
      (uacpi_kernel_io_map P l1 (as_u64 (or_offset r)) (or_length r)).1 = st ->
      st <> UACPI_STATUS_OK ->
      exists w',
        io_region_attach P ns a w = Some ((st, a), w') /\
        (exists evs, log w' = log w ++ kernel_alloc sizeof_io_region_ctx
                                     :: evs ++ [kernel_free ctx]) /\
        heap w' = delete ctx (heap w) /\ heap w' !! ctx = None).
Proof.
  split; [| split].
  - intros r ctx l1 Hr Hctx Hmap.
    rewrite memory_region_attach_eq. cbv zeta. fold ctx l1.
    rewrite decide_False by exact Hctx. rewrite Hr.
    rewrite decide_True by exact Hmap.
    eexists. split; [reflexivity |]. cbn [heap log].
    split; [| split; [reflexivity | apply lookup_delete_eq]].
    exists [kernel_map (as_u64 (or_offset r)) (as_size tgt (or_length r));
            trace_region_error (region_node a) "unable to map"
              UACPI_STATUS_MAPPING_FAILED].
    subst l1. rewrite <- app_assoc. reflexivity.
  - intros ctx Hwf Hobj Hfuel Hctx Hdev.
    rewrite (pci_region_attach_eq P ns root fuel a anc w Hwf Hobj Hfuel).
    cbv zeta. fold ctx. rewrite decide_False by exact Hctx.
    rewrite decide_True by exact Hdev.
    eexists. split; [reflexivity |]. cbn [heap log].
    split; [| split; [reflexivity | apply lookup_delete_eq]].
    exists (root_walk_events P ns (log w ++ [kernel_calloc 1 sizeof_pci_region_ctx])
              (region_node a) anc
            ++ [trace_region_error UACPI_NULL "unable to find device responsible for"
                  UACPI_STATUS_NOT_FOUND]).
    rewrite <- !app_assoc. reflexivity.
  - intros r st ctx l1 Hr Hctx Hst Herr.
    rewrite io_region_attach_eq. cbv zeta. fold ctx l1.
    rewrite decide_False by exact Hctx. rewrite Hr, Hst.
    unfold uacpi_unlikely_error. rewrite decide_False by exact Herr.
    eexists. split; [reflexivity |]. cbn [heap log].
    split; [| split; [reflexivity | apply lookup_delete_eq]].
    exists [kernel_io_map (as_u64 (or_offset r)) (or_length r);
            trace_region_error (region_node a) "unable to map an IO" st].
    subst l1. rewrite <- app_assoc. reflexivity.
Qed.

(** ** Dispatch and detach *)

Lemma handle_attach_inv {A} (attach : M (uacpi_status * A)) (wrap_data : A -> op_data)
    st d' w w1 :
  (let* (st, a') := attach in ret (st, wrap_data a')) w = Some ((st, d'), w1) ->
  exists a', d' = wrap_data a' /\ attach w = Some ((st, a'), w1).
Proof.
  unfold bind, ret. destruct (attach w) as [[[st0 a0] w0]|]; [| discriminate].
  intros [= <- <- <-]. eauto.
Qed.

(** C8: each of the three handlers answers invalid-argument to an operation
    code that is none of Attach, Detach, Read and Write, and touches nothing;
    and a Detach of the context that a successful Attach of the same handler
    stored in the out-slot succeeds, after the unmap of the recorded mapping
    and the free of the context (MMIO), the io-unmap of the recorded handle
    and the free (port I/O, where a successful io-map is taken to hand out
    a handle), or the free alone (PCI). *)
Theorem unknown_op_rejected_and_detach_succeeds P tgt ns root fuel (w : world) :
  (forall raw d bo,
      handle_memory_region P tgt bo ns (UACPI_REGION_OP_unknown raw) d w
        = Some ((UACPI_STATUS_INVALID_ARGUMENT, d), w) /\
      handle_io_region P tgt ns (UACPI_REGION_OP_unknown raw) d w
        = Some ((UACPI_STATUS_INVALID_ARGUMENT, d), w) /\
      handle_pci_region P tgt ns root fuel (UACPI_REGION_OP_unknown raw) d w
        = Some ((UACPI_STATUS_INVALID_ARGUMENT, d), w)) /\
  (forall bo a a' w1,
      handle_memory_region P tgt bo ns UACPI_REGION_OP_ATTACH (AttachData a) w
        = Some ((UACPI_STATUS_OK, AttachData a'), w1) ->
      let ctx := out_region_context a' in
      let d := DetachData {| detach_region_context := ctx |} in
      exists blk virt size w2,
        heap w1 !! ctx = Some blk /\
        blk !! F_virt = Some virt /\ blk !! F_size = Some size /\
        handle_memory_region P tgt bo ns UACPI_REGION_OP_DETACH d w1
          = Some ((UACPI_STATUS_OK, d), w2) /\
        log w2 = log w1 ++ [kernel_unmap virt size; kernel_free ctx] /\
        heap w2 !! ctx = None) /\
  (forall a a' w1,
      (forall l base len,
          (uacpi_kernel_io_map P l base len).1 = UACPI_STATUS_OK ->
          is_Some (uacpi_kernel_io_map P l base len).2) ->
      handle_io_region P tgt ns UACPI_REGION_OP_ATTACH (AttachData a) w
        = Some ((UACPI_STATUS_OK, AttachData a'), w1) ->
      let ctx := out_region_context a' in
      let d := DetachData {| detach_region_context := ctx |} in
      exists blk h w2,
        heap w1 !! ctx = Some blk /\ blk !! F_handle = Some h /\
        handle_io_region P tgt ns UACPI_REGION_OP_DETACH d w1
          = Some ((UACPI_STATUS_OK, d), w2) /\
        log w2 = log w1 ++ [kernel_io_unmap h; kernel_free ctx] /\
        heap w2 !! ctx = None) /\
  (forall a a' w1,
      handle_pci_region P tgt ns root fuel UACPI_REGION_OP_ATTACH (AttachData a) w
        = Some ((UACPI_STATUS_OK, AttachData a'), w1) ->
      let ctx := out_region_context a' in
      let d := DetachData {| detach_region_context := ctx |} in
      exists w2,
        handle_pci_region P tgt ns root fuel UACPI_REGION_OP_DETACH d w1
          = Some ((UACPI_STATUS_OK, d), w2) /\
        log w2 = log w1 ++ [kernel_free ctx] /\
        heap w2 !! ctx = None).
Proof.
  split; [| split; [| split]].
  - intros raw d bo. repeat split; reflexivity.
  - intros bo a a' w1 H ctx d. cbn [handle_memory_region] in H.
    apply handle_attach_inv in H as (a0 & [= <-] & H).
    rewrite memory_region_attach_eq in H. cbv zeta in H.
    destruct (decide (uacpi_kernel_alloc P (log w) sizeof_memory_region_ctx = UACPI_NULL));
      [discriminate |].
    destruct (region_descriptor ns (region_node a)) as [r|]; [| discriminate].
    destruct (decide (uacpi_kernel_map P _ _ _ = UACPI_NULL)); [discriminate |].
    injection H as <- <-. subst ctx d. cbn [out_region_context set_out_region_context].
    eexists _, _, _, _. cbn [heap log handle_memory_region].
    split; [apply lookup_insert_eq |].
    split; [apply lookup_insert_eq |].
    split; [rewrite !lookup_insert_ne by discriminate; apply lookup_insert_eq |].
    split.
    + unfold bind. erewrite memory_region_detach_eq; cbn [detach_region_context heap].
      * reflexivity.
      * apply lookup_insert_eq.
      * apply lookup_insert_eq.
      * rewrite !lookup_insert_ne by discriminate. apply lookup_insert_eq.
    + cbn [heap log]. split; [reflexivity | apply lookup_delete_eq].
  - intros a a' w1 Hcontract H ctx d. cbn [handle_io_region] in H.
    apply handle_attach_inv in H as (a0 & [= <-] & H).
    rewrite io_region_attach_eq in H. cbv zeta in H.
    destruct (decide (uacpi_kernel_alloc P (log w) sizeof_io_region_ctx = UACPI_NULL));
      [discriminate |].
    destruct (region_descriptor ns (region_node a)) as [r|]; [| discriminate].
    pose proof (Hcontract (log w ++ [kernel_alloc sizeof_io_region_ctx])
                  (as_u64 (or_offset r)) (or_length r)) as Hh.
    destruct (uacpi_kernel_io_map P _ _ _) as [st h]. cbn [fst snd] in H, Hh.
    destruct (uacpi_unlikely_error st) eqn:Herr.
    { injection H as -> _ _. discriminate Herr. }
    injection H as -> <- <-.
    destruct (Hh eq_refl) as [h' ->].
    subst ctx d. cbn [out_region_context set_out_region_context].
    eexists _, _, _. cbn [heap log handle_io_region].
    split; [apply lookup_insert_eq |].
    split; [apply lookup_insert_eq |].
    split.
    + unfold bind. erewrite io_region_detach_eq; cbn [detach_region_context heap].
      * reflexivity.
      * apply lookup_insert_eq.
      * apply lookup_insert_eq.
    + cbn [heap log]. split; [reflexivity | apply lookup_delete_eq].
  - intros a a' w1 _ ctx d. subst ctx d. eexists. cbn [handle_pci_region].
    unfold bind. rewrite pci_region_detach_eq. cbn [detach_region_context].
    split; [reflexivity |]. cbn [heap log].
    split; [reflexivity | apply lookup_delete_eq].
Qed.

(** ** PCI address resolution *)

Lemma land_255 x : Z.land x 255 = x mod 2 ^ 8.
Proof. change 255 with (Z.ones 8). apply Z.land_ones. lia. Qed.

Lemma as_u8_land x : as_u8 (Z.land x 255) = Z.land x 255.
Proof.
  rewrite land_255. unfold as_u8, wrap. apply Z.mod_mod. lia.
Qed.

Lemma land_255_bits x y :
  (forall i, 0 <= i < 8 -> Z.testbit x i = Z.testbit y i) ->
  Z.land x 255 = Z.land y 255.
Proof.
  intros Hbits. apply Z.bits_inj'. intros i Hi.
  rewrite !Z.land_spec. change 255 with (Z.ones 8).
  rewrite Z.testbit_ones_nonneg by lia.
  destruct (Z.ltb_spec i 8).
  - rewrite Hbits by lia. reflexivity.
  - rewrite !andb_false_r. reflexivity.
Qed.

Lemma testbit_as_u64 v i : 0 <= i < 64 -> Z.testbit (as_u64 v) i = Z.testbit v i.
Proof.
  intros Hi. unfold as_u64, wrap. apply Z.mod_pow2_bits_low. lia.
Qed.

(** The two fields taken from an [_ADR] value. *)
Lemma adr_function v :
  as_u8 (Z.land (Z.shiftr (as_u64 v) 0) 255) = Z.land v 255.
Proof.
  rewrite as_u8_land, Z.shiftr_0_r. apply land_255_bits.
  intros i Hi. apply testbit_as_u64. lia.
Qed.

Lemma adr_device v :
  as_u8 (Z.land (Z.shiftr (as_u64 v) 16) 255) = Z.land (Z.shiftr v 16) 255.
Proof.
  rewrite as_u8_land. apply land_255_bits.
  intros i Hi. rewrite !Z.shiftr_spec by lia. apply testbit_as_u64. lia.
Qed.

Lemma adr_bits_agree v v' :
  (forall i, 0 <= i < 8 \/ 16 <= i < 24 -> Z.testbit v' i = Z.testbit v i) ->
  Z.land v' 255 = Z.land v 255 /\
  Z.land (Z.shiftr v' 16) 255 = Z.land (Z.shiftr v 16) 255.
Proof.
  intros Hbits. split; apply land_255_bits; intros i Hi.
  - apply Hbits. lia.
  - rewrite !Z.shiftr_spec by lia. apply Hbits. lia.
Qed.

Lemma resolved_address_adr_ok v seg bbn :
  function (resolved_address (UACPI_STATUS_OK, v) seg bbn) = Z.land v 255 /\
  device (resolved_address (UACPI_STATUS_OK, v) seg bbn)
    = Z.land (Z.shiftr v 16) 255.
Proof.
  unfold resolved_address. cbn [function device fst snd].
  rewrite bool_decide_eq_true_2 by reflexivity.
  split; [apply adr_function | apply adr_device].
Qed.

(** The successful path of [pci_region_attach], with the three answers
    named: [l_adr], [l_seg] and [l_bbn] are the logs at the moments the three
    evaluations are made. *)
Lemma pci_region_attach_ok P ns root fuel a anc w :
  well_rooted ns root (region_node a) anc = true ->
  has_object ns (region_node a) = true ->
  (length anc + 2 <= fuel)%nat ->
  let ctx := uacpi_kernel_calloc P (log w) 1 sizeof_pci_region_ctx in
  let dev := controlling_device ns (region_node a :: anc ++ [root]) in
  let pci_root :=
    default (region_node a)
            (first_pci_root P (log w ++ [kernel_calloc 1 sizeof_pci_region_ctx]) anc) in
  ctx <> UACPI_NULL ->
  dev <> UACPI_NULL ->
  exists evs l_adr l_seg l_bbn line w',
    l_adr = log w ++ kernel_calloc 1 sizeof_pci_region_ctx :: evs /\
    l_seg = l_adr ++ [eval_typed dev "_ADR"] /\
    l_bbn = l_seg ++ [eval_typed pci_root "_SEG"] /\
    log w' = l_bbn ++ [eval_typed pci_root "_BBN"; line] /\
    pci_region_attach P ns root fuel a w
      = Some ((UACPI_STATUS_OK, set_out_region_context a ctx), w') /\
    heap w' !! ctx
      = Some (pci_block (resolved_address (uacpi_eval_typed P l_adr dev "_ADR")
                                          (uacpi_eval_typed P l_seg pci_root "_SEG")
                                          (uacpi_eval_typed P l_bbn pci_root "_BBN"))).
Proof.
  intros Hwf Hobj Hfuel ctx dev pci_root Hctx Hdev.
  rewrite (pci_region_attach_eq P ns root fuel a anc w Hwf Hobj Hfuel).
  cbv zeta. fold ctx dev pci_root.
  rewrite decide_False by exact Hctx. rewrite decide_False by exact Hdev.
  exists (root_walk_events P ns (log w ++ [kernel_calloc 1 sizeof_pci_region_ctx])
            (region_node a) anc).
  eexists ((log w ++ [kernel_calloc 1 sizeof_pci_region_ctx]) ++ _), _, _, _, _.
  split; [rewrite <- app_assoc; reflexivity |].
  split; [reflexivity |]. split; [reflexivity |].
  split; [| split; [reflexivity | cbn [heap]; apply lookup_insert_eq]].
  cbn [log]. rewrite <- (app_assoc _ [_] [_]). reflexivity.
Qed.

Lemma with_eval_typed_first_pci_root P f anc :
  forall l, first_pci_root (with_eval_typed P f) l anc = first_pci_root P l anc.
Proof.
  induction anc as [|x rest IH]; intros l; [reflexivity |].
  cbn [first_pci_root].
  change (recognized_pci_root (with_eval_typed P f) l x)
    with (recognized_pci_root P l x).
  change (probe_events (with_eval_typed P f) l x) with (probe_events P l x).
  rewrite IH. reflexivity.
Qed.

Lemma with_eval_typed_root_walk_events P f ns node anc :
  forall l,
    root_walk_events (with_eval_typed P f) ns l node anc
    = root_walk_events P ns l node anc.
Proof.
  induction anc as [|x rest IH]; intros l; [reflexivity |].
  cbn [root_walk_events].
  change (recognized_pci_root (with_eval_typed P f) l x)
    with (recognized_pci_root P l x).
  change (probe_events (with_eval_typed P f) l x) with (probe_events P l x).
  rewrite IH. reflexivity.
Qed.

Lemma resolved_address_adr_bits v v' seg bbn :
  (forall i, 0 <= i < 8 \/ 16 <= i < 24 -> Z.testbit v' i = Z.testbit v i) ->
  resolved_address (UACPI_STATUS_OK, v') seg bbn
  = resolved_address (UACPI_STATUS_OK, v) seg bbn.
Proof.
  intros Hbits. destruct (adr_bits_agree v v' Hbits) as [Hfn Hdev].
  unfold resolved_address. cbn [fst snd].
  rewrite !(bool_decide_eq_true_2 (UACPI_STATUS_OK = UACPI_STATUS_OK) eq_refl).
  rewrite !adr_function, !adr_device, Hfn, Hdev. reflexivity.
Qed.

(** C3: when the [_ADR] of the controlling device evaluates to the integer
    [v], the attach stores function [v & 0xFF] and device [(v >> 16) & 0xFF],
    next to the segment and the bus that the answers to [_SEG] and [_BBN]
    alone determine.  The other bits of [v] have no effect on what the attach
    does: on a platform that differs only in answering an [_ADR] value [v']
    which agrees with [v] on bits 0-7 and 16-23, the attach ends in the very
    same state, stored tuple included. *)
Theorem pci_region_attach_adr_fields P ns root fuel
    (a : uacpi_region_attach_data) (anc : list Z) (w : world) (v : Z) :
  well_rooted ns root (region_node a) anc = true ->
  has_object ns (region_node a) = true ->
  (length anc + 2 <= fuel)%nat ->
  let ctx := uacpi_kernel_calloc P (log w) 1 sizeof_pci_region_ctx in
  let dev := controlling_device ns (region_node a :: anc ++ [root]) in
  let l1 := log w ++ [kernel_calloc 1 sizeof_pci_region_ctx] in
  let pci_root := default (region_node a) (first_pci_root P l1 anc) in
  let l_adr := l1 ++ root_walk_events P ns l1 (region_node a) anc in
  let l_seg := l_adr ++ [eval_typed dev "_ADR"] in
  let l_bbn := l_seg ++ [eval_typed pci_root "_SEG"] in
  let seg := uacpi_eval_typed P l_seg pci_root "_SEG" in
  let bbn := uacpi_eval_typed P l_bbn pci_root "_BBN" in
  ctx <> UACPI_NULL ->
  dev <> UACPI_NULL ->
  uacpi_eval_typed P l_adr dev "_ADR" = (UACPI_STATUS_OK, v) ->
  exists w',
    pci_region_attach P ns root fuel a w
      = Some ((UACPI_STATUS_OK, set_out_region_context a ctx), w') /\
    heap w' !! ctx
      = Some (pci_block
                {| segment := if bool_decide (seg.1 = UACPI_STATUS_OK)
                              then as_u16 (as_u64 seg.2) else 0;
                   bus := if bool_decide (bbn.1 = UACPI_STATUS_OK)
                          then as_u8 (as_u64 bbn.2) else 0;
                   device := Z.land (Z.shiftr v 16) 255;
                   function := Z.land v 255 |}) /\
    forall (f : list event -> Z -> string -> uacpi_status * Z) (v' : Z),
      (forall i, 0 <= i < 8 \/ 16 <= i < 24 -> Z.testbit v' i = Z.testbit v i) ->
      f l_adr dev "_ADR"%string = (UACPI_STATUS_OK, v') ->
      f l_seg pci_root "_SEG"%string = seg ->
      f l_bbn pci_root "_BBN"%string = bbn ->
      pci_region_attach (with_eval_typed P f) ns root fuel a w
      = Some ((UACPI_STATUS_OK, set_out_region_context a ctx), w').
Proof.
  intros Hwf Hobj Hfuel ctx dev l1 pci_root l_adr l_seg l_bbn seg bbn Hctx Hdev Hadr.
  eexists. split; [| split].
  - rewrite (pci_region_attach_eq P ns root fuel a anc w Hwf Hobj Hfuel).
    cbv zeta. fold ctx dev l1 pci_root l_adr l_seg l_bbn seg bbn.
    rewrite decide_False by exact Hctx. rewrite decide_False by exact Hdev.
    rewrite Hadr. reflexivity.
  - cbn [heap]. rewrite lookup_insert_eq. f_equal. f_equal.
    unfold resolved_address. cbn [fst snd].
    rewrite !(bool_decide_eq_true_2 (UACPI_STATUS_OK = UACPI_STATUS_OK) eq_refl).
    rewrite adr_function, adr_device. reflexivity.
  - intros f v' Hbits Hfadr Hfseg Hfbbn.
    rewrite (pci_region_attach_eq (with_eval_typed P f) ns root fuel a anc w
               Hwf Hobj Hfuel).
    cbv zeta.
    change (uacpi_kernel_calloc (with_eval_typed P f)) with (uacpi_kernel_calloc P).
    change (uacpi_eval_typed (with_eval_typed P f)) with f.
    rewrite with_eval_typed_first_pci_root, with_eval_typed_root_walk_events.
    fold ctx dev l1 pci_root l_adr l_seg l_bbn.
    rewrite decide_False by exact Hctx. rewrite decide_False by exact Hdev.
    rewrite Hfadr, Hfseg, Hfbbn.
    rewrite (resolved_address_adr_bits v v' seg bbn Hbits). reflexivity.
Qed.

(** C7: once the context is allocated and a controlling device is found, the
    attach returns success and stores the context in the out-slot whatever
    the evaluations of [_ADR], [_SEG] and [_BBN] answer; an evaluation that
    fails leaves its fields zero: device and function for [_ADR], segment
    for [_SEG], bus for [_BBN]. *)
Theorem pci_region_attach_tolerates_failed_evaluations P ns root fuel
    (a : uacpi_region_attach_data) (anc : list Z) (w : world) :
  well_rooted ns root (region_node a) anc = true ->
  has_object ns (region_node a) = true ->
  (length anc + 2 <= fuel)%nat ->
  let ctx := uacpi_kernel_calloc P (log w) 1 sizeof_pci_region_ctx in
  let dev := controlling_device ns (region_node a :: anc ++ [root]) in
  let pci_root :=
    default (region_node a)
            (first_pci_root P (log w ++ [kernel_calloc 1 sizeof_pci_region_ctx]) anc) in
  ctx <> UACPI_NULL ->
  dev <> UACPI_NULL ->
  exists evs l_adr l_seg l_bbn line a' w' addr,
    l_adr = log w ++ kernel_calloc 1 sizeof_pci_region_ctx :: evs /\
    l_seg = l_adr ++ [eval_typed dev "_ADR"] /\
    l_bbn = l_seg ++ [eval_typed pci_root "_SEG"] /\
    log w' = l_bbn ++ [eval_typed pci_root "_BBN"; line] /\
    pci_region_attach P ns root fuel a w = Some ((UACPI_STATUS_OK, a'), w') /\
    out_region_context a' = ctx /\
    heap w' !! ctx = Some (pci_block addr) /\
    addr = resolved_address (uacpi_eval_typed P l_adr dev "_ADR")
                            (uacpi_eval_typed P l_seg pci_root "_SEG")
                            (uacpi_eval_typed P l_bbn pci_root "_BBN") /\
    ((uacpi_eval_typed P l_adr dev "_ADR").1 <> UACPI_STATUS_OK ->
       device addr = 0 /\ function addr = 0) /\
    ((uacpi_eval_typed P l_seg pci_root "_SEG").1 <> UACPI_STATUS_OK ->
       segment addr = 0) /\
    ((uacpi_eval_typed P l_bbn pci_root "_BBN").1 <> UACPI_STATUS_OK ->
       bus addr = 0).
Proof.
  intros Hwf Hobj Hfuel ctx dev pci_root Hctx Hdev.
  destruct (pci_region_attach_ok P ns root fuel a anc w Hwf Hobj Hfuel Hctx Hdev)
    as (evs & l_adr & l_seg & l_bbn & line & w' & H1 & H2 & H3 & H4 & Hrun & Hblk).
  exists evs, l_adr, l_seg, l_bbn, line. eexists _, w', _.
  split; [exact H1 |]. split; [exact H2 |]. split; [exact H3 |].
  split; [exact H4 |]. split; [exact Hrun |]. split; [reflexivity |].
  split; [exact Hblk |]. split; [reflexivity |].
  unfold resolved_address. cbn [segment bus device function].
  split; [| split]; intros Hfail; rewrite bool_decide_eq_false_2 by exact Hfail;
    try split; reflexivity.
Qed.

(** C10: on a region node that sits properly below the root, the PCI attach
    returns, and its status is success, out-of-memory or not-found:
    out-of-memory exactly when the allocation fails, not-found exactly when
    the allocation succeeds and no Device is on the way to the root, and
    success otherwise, whatever the [_HID], [_CID], [_ADR], [_SEG] and [_BBN]
    evaluations answer. *)
Theorem pci_region_attach_statuses P ns root fuel
    (a : uacpi_region_attach_data) (anc : list Z) (w : world) :
  well_rooted ns root (region_node a) anc = true ->
  has_object ns (region_node a) = true ->
  (length anc + 2 <= fuel)%nat ->
  let ctx := uacpi_kernel_calloc P (log w) 1 sizeof_pci_region_ctx in
  let dev := controlling_device ns (region_node a :: anc ++ [root]) in
  exists st a' w',
    pci_region_attach P ns root fuel a w = Some ((st, a'), w') /\
    (st = UACPI_STATUS_OK \/ st = UACPI_STATUS_OUT_OF_MEMORY \/
     st = UACPI_STATUS_NOT_FOUND) /\
    (st = UACPI_STATUS_OUT_OF_MEMORY <-> ctx = UACPI_NULL) /\
    (st = UACPI_STATUS_NOT_FOUND <-> ctx <> UACPI_NULL /\ dev = UACPI_NULL) /\
    (st = UACPI_STATUS_OK <-> ctx <> UACPI_NULL /\ dev <> UACPI_NULL).
Proof.
  intros Hwf Hobj Hfuel ctx dev.
  rewrite (pci_region_attach_eq P ns root fuel a anc w Hwf Hobj Hfuel).
  cbv zeta. fold ctx dev.
  destruct (decide (ctx = UACPI_NULL)) as [Hctx | Hctx];
    [| destruct (decide (dev = UACPI_NULL)) as [Hdev | Hdev]];
    eexists _, _, _; (split; [reflexivity |]); intuition (congruence || discriminate).
Qed.

(** ** The PCI root *)

Lemma first_pci_root_find P l anc :
  (forall l1 l2 n, recognized_pci_root P l1 n = recognized_pci_root P l2 n) ->
  first_pci_root P l anc = List.find (recognized_pci_root P []) anc.
Proof.
  intros Hpure. revert l. induction anc as [|p rest IH]; intros l.
  - reflexivity.
  - cbn [first_pci_root List.find]. rewrite (Hpure l [] p).
    destruct (recognized_pci_root P [] p); [reflexivity | apply IH].
Qed.

Lemma first_pci_root_Some P anc :
  forall l p,
    first_pci_root P l anc = Some p ->
    exists pre post l',
      anc = pre ++ p :: post /\
      first_pci_root P l pre = None /\
      recognized_pci_root P l' p = true.
Proof.
  induction anc as [|x rest IH]; intros l p Hfirst.
  - discriminate Hfirst.
  - cbn [first_pci_root] in Hfirst.
    destruct (recognized_pci_root P l x) eqn:Hx.
    + injection Hfirst as <-. exists [], rest, l.
      split; [reflexivity | split; [reflexivity | exact Hx]].
    + destruct (IH _ _ Hfirst) as (pre & post & l' & -> & Hpre & Hp).
      exists (x :: pre), post, l'. split; [reflexivity |].
      split; [| exact Hp]. cbn [first_pci_root]. rewrite Hx. exact Hpre.
Qed.

(** C6: the walk for the PCI root starts at the parent of the region node
    and goes up; it returns the first ancestor below the namespace root that
    is recognized as a PCI root bridge, a node being recognized by its
    [_HID] or, failing that, by any entry of its [_CID]; when no ancestor is
    recognized it returns the region node itself, and the attach then still
    succeeds provided the context was allocated and a controlling device
    exists.  For a platform whose answers to [_HID] and [_CID] do not depend
    on what happened before, the result is [List.find] over the ancestors. *)
Theorem find_pci_root_selects_first_recognized P ns root fuel
    (a : uacpi_region_attach_data) (anc : list Z) (w : world) :
  well_rooted ns root (region_node a) anc = true ->
  has_object ns (region_node a) = true ->
  (length anc + 2 <= fuel)%nat ->
  let node := region_node a in
  let ctx := uacpi_kernel_calloc P (log w) 1 sizeof_pci_region_ctx in
  let dev := controlling_device ns (region_node a :: anc ++ [root]) in
  (forall n s,
      exists s',
        is_node_pci_root P n s
        = Some (hid_matches P (log s) n || cid_matches P (log s ++ [eval_hid n]) n,
                s')) /\
  (exists evs,
      find_pci_root P ns root fuel node w
      = Some (default node (first_pci_root P (log w) anc), add_log w evs)) /\
  (forall p,
      first_pci_root P (log w) anc = Some p ->
      exists pre post l',
        anc = pre ++ p :: post /\
        first_pci_root P (log w) pre = None /\
        recognized_pci_root P l' p = true) /\
  ((forall l1 l2 n, recognized_pci_root P l1 n = recognized_pci_root P l2 n) ->
   first_pci_root P (log w) anc = List.find (recognized_pci_root P []) anc) /\
  (first_pci_root P (log w) anc = None ->
   exists evs, find_pci_root P ns root fuel node w = Some (node, add_log w evs)) /\
  (first_pci_root P (log w ++ [kernel_calloc 1 sizeof_pci_region_ctx]) anc = None ->
   ctx <> UACPI_NULL -> dev <> UACPI_NULL ->
   exists w',
     pci_region_attach P ns root fuel a w
     = Some ((UACPI_STATUS_OK, set_out_region_context a ctx), w')).
Proof.
  intros Hwf Hobj Hfuel node ctx dev.
  split; [| split; [| split; [| split; [| split]]]].
  - intros n s. eexists. rewrite is_node_pci_root_eq. reflexivity.
  - eexists. apply find_pci_root_eq; [exact Hwf | lia].
  - intros p Hp. apply (first_pci_root_Some P anc _ _ Hp).
  - intros Hpure. apply first_pci_root_find. exact Hpure.
  - intros Hnone. eexists.
    rewrite (find_pci_root_eq P ns root fuel node anc w Hwf) by lia.
    rewrite Hnone. reflexivity.
  - intros _ Hctx Hdev.
    destruct (pci_region_attach_ok P ns root fuel a anc w Hwf Hobj Hfuel Hctx Hdev)
      as (evs & l_adr & l_seg & l_bbn & line & w' & _ & _ & _ & _ & Hrun & _).
    exists w'. exact Hrun.
Qed.

(** * The handlers at work

    The scenarios of the specification, run on the small machine. *)

Lemma memory_access_width_check_witness :
  (memory_read LittleEndian 28672 3 17 boot_world
     = Some ((UACPI_STATUS_INVALID_ARGUMENT, 17), boot_world) /\
   memory_write LittleEndian 28672 3 5 boot_world
     = Some (UACPI_STATUS_INVALID_ARGUMENT, boot_world)) /\
  (exists out' s',
      memory_read LittleEndian 28672 4 17 boot_world
        = Some ((UACPI_STATUS_OK, out'), s') /\
      log s' = log boot_world ++ [volatile_load 28672 4]).
Proof.
  split.
  - apply (memory_access_width_check LittleEndian 28672 3 17 5 boot_world); lia.
  - apply (memory_access_width_check LittleEndian 28672 4 17 5 boot_world). lia.
Defined.

Lemma memory_write_truncates_read_zero_extends_witness :
  exists s1,
    memory_write LittleEndian 28672 2 74565 boot_world = Some (UACPI_STATUS_OK, s1) /\
    log s1 = log boot_world ++ [volatile_store 28672 2 (74565 mod 2 ^ (8 * 2))] /\
    exists s2,
      memory_read LittleEndian 28672 2 0 s1
      = Some ((UACPI_STATUS_OK, 74565 mod 2 ^ (8 * 2)), s2).
Proof.
  apply (memory_write_truncates_read_zero_extends LittleEndian 28672 2 74565 0 boot_world).
  lia.
Defined.

Lemma memory_region_do_rw_pointer_witness :
  memory_region_do_rw Gnu_x86_64 LittleEndian UACPI_REGION_OP_WRITE
                      (rw_data 4096 65540 0 3735928559 4) mmio_world
  = Some ((UACPI_STATUS_OK, rw_data 4096 65540 0 3735928559 4),
          emit (volatile_store
                  (as_size Gnu_x86_64 (28672 + as_u64 (65540 - 65536)))
                  (Z.of_nat 4) (wrap (8 * Z.of_nat 4) 3735928559))
               (set_ram mmio_world
                  (write_bytes (ram mmio_world)
                     (as_size Gnu_x86_64 (28672 + as_u64 (65540 - 65536)))
                     (encode LittleEndian 4 (wrap (8 * Z.of_nat 4) 3735928559))))).
Proof.
  destruct (memory_region_do_rw_pointer Gnu_x86_64 LittleEndian UACPI_REGION_OP_WRITE
              (rw_data 4096 65540 0 3735928559 4) mmio_world
              (<[F_phys := 65536]> (<[F_virt := 28672]> (<[F_size := 256]> ∅)))
              28672 65536 eq_refl eq_refl eq_refl (or_intror eq_refl))
    as (_ & _ & Hwidth & _).
  destruct (Hwidth 4%nat eq_refl (or_intror (or_intror (or_introl eq_refl))))
    as [_ Hwrite].
  exact (Hwrite eq_refl).
Defined.


Lemma attach_failure_releases_context_witness :
  (exists w',
      memory_region_attach bad_platform Gnu_x86_64 demo_ns (attach_data 6) boot_world
        = Some ((UACPI_STATUS_MAPPING_FAILED, attach_data 6), w') /\
      heap w' !! 4096 = None) /\
  (exists w',
      pci_region_attach good_platform demo_ns demo_root 10 (attach_data 8) boot_world
        = Some ((UACPI_STATUS_NOT_FOUND, attach_data 8), w') /\
      heap w' !! 4096 = None) /\
  (exists w',
      io_region_attach bad_platform demo_ns (attach_data 7) boot_world
        = Some ((UACPI_STATUS_OTHER 5, attach_data 7), w') /\
      heap w' !! 4096 = None).
Proof.
  split; [| split].
  - destruct (attach_failure_releases_context bad_platform Gnu_x86_64 demo_ns
                demo_root 10 (attach_data 6) [] boot_world) as [Hmem _].
    destruct (Hmem {| or_offset := 65536; or_length := 256 |}
                   eq_refl ltac:(discriminate) eq_refl)
      as (w' & Hrun & _ & _ & Hgone).
    exists w'. split; [exact Hrun | exact Hgone].
  - destruct (attach_failure_releases_context good_platform Gnu_x86_64 demo_ns
                demo_root 10 (attach_data 8) [2] boot_world) as (_ & Hpci & _).
    destruct (Hpci eq_refl eq_refl ltac:(cbn; lia) ltac:(discriminate) eq_refl)
      as (w' & Hrun & _ & _ & Hgone).
    exists w'. split; [exact Hrun | exact Hgone].
  - destruct (attach_failure_releases_context bad_platform Gnu_x86_64 demo_ns
                demo_root 10 (attach_data 7) [] boot_world) as (_ & _ & Hio).
    destruct (Hio {| or_offset := 1016; or_length := 8 |} (UACPI_STATUS_OTHER 5)
                  eq_refl ltac:(discriminate) eq_refl ltac:(discriminate))
      as (w' & Hrun & _ & _ & Hgone).
    exists w'. split; [exact Hrun | exact Hgone].
Defined.

Lemma pci_region_attach_adr_fields_witness :
  exists w',
    pci_region_attach good_platform demo_ns demo_root 10 (attach_data 5) boot_world
      = Some ((UACPI_STATUS_OK, set_out_region_context (attach_data 5) 4096), w') /\
    heap w' !! 4096
      = Some (pci_block {| segment := 1; bus := 64; device := 31; function := 3 |}) /\
    pci_region_attach (with_eval_typed good_platform (fun _ => demo_eval_typed_adr 4280286979))
                      demo_ns demo_root 10 (attach_data 5) boot_world
      = Some ((UACPI_STATUS_OK, set_out_region_context (attach_data 5) 4096), w').
Proof.
  destruct (pci_region_attach_adr_fields good_platform demo_ns demo_root 10
              (attach_data 5) [4; 3; 2] boot_world 2031619
              eq_refl eq_refl ltac:(cbn; lia) ltac:(discriminate) ltac:(discriminate)
              eq_refl)
    as (w' & Hrun & Hblk & Hother).
  exists w'. split; [exact Hrun |]. split; [exact Hblk |].
  apply (Hother (fun _ => demo_eval_typed_adr 4280286979) 4280286979).
  - intros i Hi.
    assert (Hcases : i = 0 \/ i = 1 \/ i = 2 \/ i = 3 \/ i = 4 \/ i = 5 \/ i = 6 \/ i = 7
                     \/ i = 16 \/ i = 17 \/ i = 18 \/ i = 19 \/ i = 20 \/ i = 21
                     \/ i = 22 \/ i = 23) by lia.
    repeat (destruct Hcases as [-> | Hcases]; [reflexivity |]).
    subst i. reflexivity.
  - reflexivity.
  - reflexivity.
  - reflexivity.
Defined.

Lemma pci_region_attach_tolerates_failed_evaluations_witness :
  exists a' w' addr,
    pci_region_attach good_platform demo_ns demo_root 10 (attach_data 10) boot_world
      = Some ((UACPI_STATUS_OK, a'), w') /\
    out_region_context a' = 4096 /\
    heap w' !! 4096 = Some (pci_block addr) /\
    device addr = 0 /\ function addr = 0 /\ segment addr = 0 /\ bus addr = 0.
Proof.
  destruct (pci_region_attach_tolerates_failed_evaluations good_platform demo_ns
              demo_root 10 (attach_data 10) [9] boot_world
              eq_refl eq_refl ltac:(cbn; lia) ltac:(discriminate) ltac:(discriminate))
    as (evs & l_adr & l_seg & l_bbn & line & a' & w' & addr
        & _ & _ & _ & _ & Hrun & Hout & Hblk & _ & Hadr & Hseg & Hbbn).
  exists a', w', addr.
  split; [exact Hrun |]. split; [exact Hout |]. split; [exact Hblk |].
  split; [apply Hadr; discriminate |]. split; [apply Hadr; discriminate |].
  split; [apply Hseg; discriminate | apply Hbbn; discriminate].
Defined.

Lemma pci_region_attach_statuses_witness :
  exists st a' w',
    pci_region_attach good_platform demo_ns demo_root 10 (attach_data 5) boot_world
      = Some ((st, a'), w') /\
    (st = UACPI_STATUS_OK \/ st = UACPI_STATUS_OUT_OF_MEMORY \/
     st = UACPI_STATUS_NOT_FOUND).
Proof.
  destruct (pci_region_attach_statuses good_platform demo_ns demo_root 10
              (attach_data 5) [4; 3; 2] boot_world eq_refl eq_refl ltac:(cbn; lia))
    as (st & a' & w' & Hrun & Hst & _).
  exists st, a', w'. split; [exact Hrun | exact Hst].
Defined.

Lemma find_pci_root_selects_first_recognized_witness :
  (exists evs,
      find_pci_root good_platform demo_ns demo_root 10 5 boot_world
      = Some (3, add_log boot_world evs)) /\
  (exists evs,
      find_pci_root rootless_platform demo_ns demo_root 10 5 boot_world
      = Some (5, add_log boot_world evs)) /\
  (exists w',
      pci_region_attach rootless_platform demo_ns demo_root 10 (attach_data 5) boot_world
      = Some ((UACPI_STATUS_OK, set_out_region_context (attach_data 5) 4096), w')).
Proof.
  split; [| split].
  - destruct (find_pci_root_selects_first_recognized good_platform demo_ns demo_root
                10 (attach_data 5) [4; 3; 2] boot_world eq_refl eq_refl ltac:(cbn; lia))
      as (_ & Hwalk & _).
    exact Hwalk.
  - destruct (find_pci_root_selects_first_recognized rootless_platform demo_ns
                demo_root 10 (attach_data 5) [4; 3; 2] boot_world
                eq_refl eq_refl ltac:(cbn; lia))
      as (_ & _ & _ & _ & Hnone & _).
    apply Hnone. reflexivity.
  - destruct (find_pci_root_selects_first_recognized rootless_platform demo_ns
                demo_root 10 (attach_data 5) [4; 3; 2] boot_world
                eq_refl eq_refl ltac:(cbn; lia))
      as (_ & _ & _ & _ & _ & Hattach).
    apply Hattach; [reflexivity | discriminate | discriminate].
Defined.

Lemma unknown_op_rejected_and_detach_succeeds_witness :
  handle_io_region good_platform Gnu_x86_64 demo_ns (UACPI_REGION_OP_unknown 9)
                   (DetachData {| detach_region_context := 4096 |}) boot_world
    = Some ((UACPI_STATUS_INVALID_ARGUMENT,
             DetachData {| detach_region_context := 4096 |}), boot_world) /\
  (exists w1 w2,
      handle_memory_region good_platform Gnu_x86_64 LittleEndian demo_ns
        UACPI_REGION_OP_ATTACH (AttachData (attach_data 6)) boot_world
        = Some ((UACPI_STATUS_OK,
                 AttachData (set_out_region_context (attach_data 6) 4096)), w1) /\
      handle_memory_region good_platform Gnu_x86_64 LittleEndian demo_ns
        UACPI_REGION_OP_DETACH (DetachData {| detach_region_context := 4096 |}) w1
        = Some ((UACPI_STATUS_OK, DetachData {| detach_region_context := 4096 |}), w2) /\
      log w2 = log w1 ++ [kernel_unmap 28672 256; kernel_free 4096]) /\
  (exists w1 w2,
      handle_io_region good_platform Gnu_x86_64 demo_ns
        UACPI_REGION_OP_ATTACH (AttachData (attach_data 7)) boot_world
        = Some ((UACPI_STATUS_OK,
                 AttachData (set_out_region_context (attach_data 7) 4096)), w1) /\
      handle_io_region good_platform Gnu_x86_64 demo_ns
        UACPI_REGION_OP_DETACH (DetachData {| detach_region_context := 4096 |}) w1
        = Some ((UACPI_STATUS_OK, DetachData {| detach_region_context := 4096 |}), w2) /\
      log w2 = log w1 ++ [kernel_io_unmap 7; kernel_free 4096]) /\
  (exists w1 w2,
      handle_pci_region good_platform Gnu_x86_64 demo_ns demo_root 10
        UACPI_REGION_OP_ATTACH (AttachData (attach_data 5)) boot_world
        = Some ((UACPI_STATUS_OK,
                 AttachData (set_out_region_context (attach_data 5) 4096)), w1) /\
      handle_pci_region good_platform Gnu_x86_64 demo_ns demo_root 10
        UACPI_REGION_OP_DETACH (DetachData {| detach_region_context := 4096 |}) w1
        = Some ((UACPI_STATUS_OK, DetachData {| detach_region_context := 4096 |}), w2) /\
      log w2 = log w1 ++ [kernel_free 4096]).
Proof.
  destruct (unknown_op_rejected_and_detach_succeeds good_platform Gnu_x86_64 demo_ns
              demo_root 10 boot_world) as (Hunknown & Hmem & Hio & Hpci).
  split; [apply Hunknown; exact LittleEndian |].
  split; [| split].
  - eexists.
    assert (Hrun : handle_memory_region good_platform Gnu_x86_64 LittleEndian demo_ns
                     UACPI_REGION_OP_ATTACH (AttachData (attach_data 6)) boot_world
                   = Some ((UACPI_STATUS_OK,
                            AttachData (set_out_region_context (attach_data 6) 4096)),
                           _)) by (vm_compute; reflexivity).
    destruct (Hmem _ _ _ _ Hrun) as (blk & virt & size & w2 & Hblk & Hvirt & Hsize & Hdetach & Hlog & _).
    exists w2. split; [exact Hrun |]. split; [exact Hdetach |].
    vm_compute in Hblk. injection Hblk as <-.
    vm_compute in Hvirt, Hsize. injection Hvirt as <-. injection Hsize as <-.
    exact Hlog.
  - eexists.
    assert (Hrun : handle_io_region good_platform Gnu_x86_64 demo_ns
                     UACPI_REGION_OP_ATTACH (AttachData (attach_data 7)) boot_world
                   = Some ((UACPI_STATUS_OK,
                            AttachData (set_out_region_context (attach_data 7) 4096)),
                           _)) by (vm_compute; reflexivity).
    assert (Hcontract : forall l base len,
               (uacpi_kernel_io_map good_platform l base len).1 = UACPI_STATUS_OK ->
               is_Some (uacpi_kernel_io_map good_platform l base len).2)
      by (intros l base len _; exists 7; reflexivity).
    destruct (Hio _ _ _ Hcontract Hrun) as (blk & h & w2 & Hblk & Hh & Hdetach & Hlog & _).
    exists w2. split; [exact Hrun |]. split; [exact Hdetach |].
    vm_compute in Hblk. injection Hblk as <-.
    vm_compute in Hh. injection Hh as <-.
    exact Hlog.
  - eexists.
    assert (Hrun : handle_pci_region good_platform Gnu_x86_64 demo_ns demo_root 10
                     UACPI_REGION_OP_ATTACH (AttachData (attach_data 5)) boot_world
                   = Some ((UACPI_STATUS_OK,
                            AttachData (set_out_region_context (attach_data 5) 4096)),
                           _)) by (vm_compute; reflexivity).
    destruct (Hpci _ _ _ Hrun) as (w2 & Hdetach & Hlog & _).
    exists w2. split; [exact Hrun |]. split; [exact Hdetach | exact Hlog].
Defined.

(** ** The scenarios of the specification *)

(** MMIO round trip: a region at physical base 0x10000, 0x100 bytes; a
    4-byte write of 0xDEADBEEF at its first byte is read back. *)
Example scenario_mmio_round_trip :
  fst <$> (let* (st1, _) := memory_region_do_rw Gnu_x86_64 LittleEndian
                              UACPI_REGION_OP_WRITE
                              (rw_data 4096 65536 0 3735928559 4) in
           let* (st2, d) := memory_region_do_rw Gnu_x86_64 LittleEndian
                              UACPI_REGION_OP_READ
                              (rw_data 4096 65536 0 0 4) in
           ret (st1, st2, value d)) mmio_world
  = Some (UACPI_STATUS_OK, UACPI_STATUS_OK, 3735928559).
Proof. vm_compute. reflexivity. Qed.

(** Port I/O: a request whose [offset] field holds the absolute port 0x3FA
    reaches the platform as offset 2 of the region based at 0x3F8. *)
Example scenario_port_io :
  (log ∘ snd) <$> io_region_do_rw good_platform Gnu_x86_64 UACPI_REGION_OP_WRITE
                                  (rw_data 4096 1018 1018 90 1) io_world
  = Some [kernel_io_write 7 2 1 90].
Proof. vm_compute. reflexivity. Qed.

(** PCI resolution: the attach on [REG] stores segment 1, bus 0x40, device
    0x1F, function 3. *)
Example scenario_pci_resolution :
  fst <$> (let* (st, a) := pci_region_attach good_platform demo_ns demo_root 10
                                             (attach_data 5) in
           let* addr := load_pci_address (out_region_context a) in
           ret (st, addr)) boot_world
  = Some (UACPI_STATUS_OK,
          {| segment := 1; bus := 64; device := 31; function := 3 |}).
Proof. vm_compute. reflexivity. Qed.

(** Unsupported width: a 3-byte read is refused and nothing is accessed. *)
Example scenario_unsupported_width :
  memory_region_do_rw Gnu_x86_64 LittleEndian UACPI_REGION_OP_READ
                      (rw_data 4096 65536 0 17 3) mmio_world
  = Some ((UACPI_STATUS_INVALID_ARGUMENT, rw_data 4096 65536 0 17 3), mmio_world).
Proof. vm_compute. reflexivity. Qed.

(** * Further properties of the handlers *)

(** ** Reads and writes through the PCI and port backings *)

Lemma pci_block_lookup addr :
  pci_block addr !! F_segment = Some (segment addr) /\
  pci_block addr !! F_bus = Some (bus addr) /\
  pci_block addr !! F_device = Some (device addr) /\
  pci_block addr !! F_function = Some (function addr).
Proof.
  unfold pci_block.
  repeat split;
    repeat first [ rewrite lookup_insert_eq
                 | rewrite lookup_insert_ne by discriminate ];
    reflexivity.
Qed.

Lemma pci_region_do_rw_eq P tgt (op : uacpi_region_op) (d : uacpi_region_rw_data)
    (w : world) (addr : uacpi_pci_address) :
  heap w !! region_context d = Some (pci_block addr) ->
  let off := as_size tgt (offset d) in
  let width := as_u8 (byte_width d) in
  pci_region_do_rw P tgt op d w
  = match op with
    | UACPI_REGION_OP_READ =>
        Some (((uacpi_kernel_pci_read P (log w) addr off width).1,
               store_out d (uacpi_kernel_pci_read P (log w) addr off width).2),
              emit (kernel_pci_read addr off width) w)
    | _ =>
        Some ((uacpi_kernel_pci_write P (log w) addr off width (value d), d),
              emit (kernel_pci_write addr off width (value d)) w)
    end.
Proof.
  intros Hblk off width.
  destruct (pci_block_lookup addr) as (Hseg & Hbus & Hdev & Hfn).
  unfold pci_region_do_rw, load_pci_address.
  rewrite bind_bind, (bind_load_field _ _ _ _ _ _ Hblk Hseg).
  rewrite bind_bind, (bind_load_field _ _ _ _ _ _ Hblk Hbus).
  rewrite bind_bind, (bind_load_field _ _ _ _ _ _ Hblk Hdev).
  rewrite bind_bind, (bind_load_field _ _ _ _ _ _ Hblk Hfn).
  rewrite bind_ret. fold off width.
  replace {| segment := segment addr; bus := bus addr;
             device := device addr; function := function addr |}
    with addr by (destruct addr; reflexivity).
  unfold bind, call, ret.
  destruct op; try reflexivity.
  destruct (uacpi_kernel_pci_read P (log w) addr off width) as [st out]. reflexivity.
Qed.

(** X1: a PCI-config read or write on a context that holds the address
    tuple [addr] calls the platform's PCI primitive exactly once, with that
    tuple, the request's [offset] field converted to [uacpi_size] and the
    width; nothing else is logged and the context is left as it was.  The
    platform's status comes back unchanged; a read stores what the platform
    wrote through the out pointer, a write leaves the request untouched.
    The namespace plays no part. *)
Theorem pci_region_do_rw_uses_stored_address P tgt ns root fuel
    (op : uacpi_region_op) (d : uacpi_region_rw_data) (w : world)
    (addr : uacpi_pci_address) :
  heap w !! region_context d = Some (pci_block addr) ->
  let off := as_size tgt (offset d) in
  let width := as_u8 (byte_width d) in
  (op = UACPI_REGION_OP_READ ->
   handle_pci_region P tgt ns root fuel op (RwData d) w
   = Some (((uacpi_kernel_pci_read P (log w) addr off width).1,
            RwData (store_out d (uacpi_kernel_pci_read P (log w) addr off width).2)),
           emit (kernel_pci_read addr off width) w)) /\
  (op = UACPI_REGION_OP_WRITE ->
   handle_pci_region P tgt ns root fuel op (RwData d) w
   = Some ((uacpi_kernel_pci_write P (log w) addr off width (value d), RwData d),
           emit (kernel_pci_write addr off width (value d)) w)).
Proof.
  intros Hblk off width. split; intros ->; cbn [handle_pci_region];
    unfold bind at 1; rewrite (pci_region_do_rw_eq P tgt _ d w addr Hblk);
    reflexivity.
Qed.

Lemma handle_pci_rw P tgt ns root fuel (op : uacpi_region_op)
    (d : uacpi_region_rw_data) (w : world) (addr : uacpi_pci_address) :
  heap w !! region_context d = Some (pci_block addr) ->
  op = UACPI_REGION_OP_READ \/ op = UACPI_REGION_OP_WRITE ->
  exists st d',
    handle_pci_region P tgt ns root fuel op (RwData d) w
    = Some ((st, RwData d'), emit (pci_access tgt addr op d) w).
Proof.
  intros Hblk [-> | ->]; cbn [handle_pci_region]; unfold bind at 1;
    rewrite (pci_region_do_rw_eq P tgt _ d w addr Hblk); eexists _, _; reflexivity.
Qed.

(** X2: the address tuple is resolved once.  After a successful PCI attach,
    two accesses in a row on the attached context (reads or writes) reach the
    platform with the same tuple, the one the attach stored; each adds one
    platform call to the log and no evaluation, and the context block is
    still the one the attach left. *)
Theorem pci_accesses_reuse_attached_address P tgt ns root fuel
    (a : uacpi_region_attach_data) (anc : list Z) (w : world)
    (op1 op2 : uacpi_region_op) (d1 d2 : uacpi_region_rw_data) :
  well_rooted ns root (region_node a) anc = true ->
  has_object ns (region_node a) = true ->
  (length anc + 2 <= fuel)%nat ->
  let ctx := uacpi_kernel_calloc P (log w) 1 sizeof_pci_region_ctx in
  let dev := controlling_device ns (region_node a :: anc ++ [root]) in
  ctx <> UACPI_NULL ->
  dev <> UACPI_NULL ->
  op1 = UACPI_REGION_OP_READ \/ op1 = UACPI_REGION_OP_WRITE ->
  op2 = UACPI_REGION_OP_READ \/ op2 = UACPI_REGION_OP_WRITE ->
  region_context d1 = ctx ->
  region_context d2 = ctx ->
  exists addr w1 st1 d1' w2 st2 d2' w3,
    handle_pci_region P tgt ns root fuel UACPI_REGION_OP_ATTACH (AttachData a) w
      = Some ((UACPI_STATUS_OK, AttachData (set_out_region_context a ctx)), w1) /\
    heap w1 !! ctx = Some (pci_block addr) /\
    handle_pci_region P tgt ns root fuel op1 (RwData d1) w1
      = Some ((st1, RwData d1'), w2) /\
    handle_pci_region P tgt ns root fuel op2 (RwData d2) w2
      = Some ((st2, RwData d2'), w3) /\
    log w3 = log w1 ++ [pci_access tgt addr op1 d1; pci_access tgt addr op2 d2] /\
    heap w3 = heap w1.
Proof.
  intros Hwf Hobj Hfuel ctx dev Hctx Hdev Hop1 Hop2 Hd1 Hd2.
  destruct (pci_region_attach_ok P ns root fuel a anc w Hwf Hobj Hfuel Hctx Hdev)
    as (evs & l_adr & l_seg & l_bbn & line & w1 & _ & _ & _ & _ & Hrun & Hblk).
  fold ctx in Hrun, Hblk.
  set (addr := resolved_address _ _ _) in Hblk.
  assert (Hblk1 : heap w1 !! region_context d1 = Some (pci_block addr))
    by (rewrite Hd1; exact Hblk).
  destruct (handle_pci_rw P tgt ns root fuel op1 d1 w1 addr Hblk1 Hop1)
    as (st1 & d1' & Hrw1).
  assert (Hblk2 : heap (emit (pci_access tgt addr op1 d1) w1) !! region_context d2
                  = Some (pci_block addr))
    by (rewrite Hd2; exact Hblk).
  destruct (handle_pci_rw P tgt ns root fuel op2 d2 _ addr Hblk2 Hop2)
    as (st2 & d2' & Hrw2).
  exists addr, w1, st1, d1', (emit (pci_access tgt addr op1 d1) w1), st2, d2'.
  eexists. split.
  { cbn [handle_pci_region]. unfold bind at 1. rewrite Hrun. reflexivity. }
  split; [exact Hblk |]. split; [exact Hrw1 |]. split; [exact Hrw2 |].
  cbn [log heap emit add_log]. rewrite <- app_assoc. split; reflexivity.
Qed.

(** ** Allocation failure *)

(** X3: when the allocator answers null, each of the three attach routines
    returns out-of-memory at once: the allocation is the only platform call,
    the state is otherwise untouched, the out-slot is not written, and the
    region node is not even read (the namespace may be anything). *)
Theorem attach_out_of_memory P tgt ns root fuel
    (a : uacpi_region_attach_data) (w : world) :
  (uacpi_kernel_alloc P (log w) sizeof_memory_region_ctx = UACPI_NULL ->
   memory_region_attach P tgt ns a w
   = Some ((UACPI_STATUS_OUT_OF_MEMORY, a),
           emit (kernel_alloc sizeof_memory_region_ctx) w)) /\
  (uacpi_kernel_alloc P (log w) sizeof_io_region_ctx = UACPI_NULL ->
   io_region_attach P ns a w
   = Some ((UACPI_STATUS_OUT_OF_MEMORY, a),
           emit (kernel_alloc sizeof_io_region_ctx) w)) /\
  (uacpi_kernel_calloc P (log w) 1 sizeof_pci_region_ctx = UACPI_NULL ->
   pci_region_attach P ns root fuel a w
   = Some ((UACPI_STATUS_OUT_OF_MEMORY, a),
           emit (kernel_calloc 1 sizeof_pci_region_ctx) w)).
Proof.
  split; [| split]; intros Hnull.
  - rewrite memory_region_attach_eq. cbv zeta.
    rewrite decide_True by exact Hnull. reflexivity.
  - rewrite io_region_attach_eq. cbv zeta.
    rewrite decide_True by exact Hnull. reflexivity.
  - unfold pci_region_attach, kernel_calloc_call. mrun.
    rewrite !decide_True by exact Hnull. mrun.
    rewrite decide_True by exact Hnull. reflexivity.
Qed.

(** ** The memory backing end to end *)

Lemma write_bytes_above m p bs a :
  p + Z.of_nat (length bs) <= a -> write_bytes m p bs a = m a.
Proof.
  revert m p. induction bs as [|b bs IH]; intros m p Ha; cbn [write_bytes length] in *.
  - reflexivity.
  - rewrite IH by lia. destruct (Z.eqb_spec a p); [lia | reflexivity].
Qed.

Lemma wrap_bounds bits v : 0 <= bits -> 0 <= wrap bits v < 2 ^ bits.
Proof. intros Hb. unfold wrap. apply Z.mod_pos_bound. apply Z.pow_pos_nonneg; lia. Qed.

Lemma memory_region_do_rw_eq tgt bo (op : uacpi_region_op)
    (d : uacpi_region_rw_data) (w : world) (blk : gmap field Z) (virt phys : Z) (n : nat) :
  heap w !! region_context d = Some blk ->
  blk !! F_virt = Some virt ->
  blk !! F_phys = Some phys ->
  byte_width d = Z.of_nat n ->
  (n = 1 \/ n = 2 \/ n = 4 \/ n = 8)%nat ->
  let ptr := as_size tgt (virt + as_u64 (address d - phys)) in
  memory_region_do_rw tgt bo op d w
  = match op with
    | UACPI_REGION_OP_READ =>
        Some ((UACPI_STATUS_OK,
               set_value d (decode bo (read_bytes (ram w) ptr n))),
              emit (volatile_load ptr (Z.of_nat n)) w)
    | _ =>
        Some ((UACPI_STATUS_OK, d),
              emit (volatile_store ptr (Z.of_nat n) (wrap (8 * Z.of_nat n) (value d)))
                   (set_ram w (write_bytes (ram w) ptr
                                 (encode bo n (wrap (8 * Z.of_nat n) (value d))))))
    end.
Proof.
  intros Hblk Hvirt Hphys Hwidth Hn ptr.
  unfold memory_region_do_rw.
  rewrite (bind_load_field _ _ _ _ _ _ Hblk Hvirt), (bind_load_field _ _ _ _ _ _ Hblk Hphys).
  fold ptr. rewrite Hwidth. unfold bind.
  destruct op; rewrite ?(memory_read_spec bo ptr n (value d) w Hn),
                       ?(memory_write_spec bo ptr n (value d) w Hn); reflexivity.
Qed.

(** X4: the memory backing end to end.  When the region node carries a
    region descriptor, the allocation succeeds and the platform maps the
    region, the attach returns success with the context in the out-slot.  A
    write of [v] through the handler at an address inside the region,
    followed by a read of the same width at the same address, then returns
    [v mod 2^(8w)]; both accesses are at [virt + (address - phys)], which
    lies inside the mapped window, and no byte of memory outside the window
    is changed.  Between attach and the end the log grows by exactly one
    volatile store and one volatile load. *)
Theorem memory_attach_write_read_round_trip P tgt bo ns
    (a : uacpi_region_attach_data) (w : world) (r : uacpi_operation_region)
    (dw dr : uacpi_region_rw_data) (n : nat) :
  let ctx := uacpi_kernel_alloc P (log w) sizeof_memory_region_ctx in
  let phys := as_u64 (or_offset r) in
  let size := as_size tgt (or_length r) in
  let virt := uacpi_kernel_map P (log w ++ [kernel_alloc sizeof_memory_region_ctx])
                               phys size in
  let ptr := as_size tgt (virt + as_u64 (address dw - phys)) in
  region_descriptor ns (region_node a) = Some r ->
  ctx <> UACPI_NULL ->
  virt <> UACPI_NULL ->
  0 <= virt ->
  virt + size <= 2 ^ (8 * UACPI_POINTER_SIZE tgt) ->
  phys + size <= 2 ^ 64 ->
  phys <= address dw ->
  address dw + Z.of_nat n <= phys + size ->
  (n = 1 \/ n = 2 \/ n = 4 \/ n = 8)%nat ->
  region_context dw = ctx -> region_context dr = ctx ->
  address dr = address dw ->
  byte_width dw = Z.of_nat n -> byte_width dr = Z.of_nat n ->
  exists w1 w2 w3,
    handle_memory_region P tgt bo ns UACPI_REGION_OP_ATTACH (AttachData a) w
      = Some ((UACPI_STATUS_OK, AttachData (set_out_region_context a ctx)), w1) /\
    log w1 = log w ++ [kernel_alloc sizeof_memory_region_ctx; kernel_map phys size] /\
    handle_memory_region P tgt bo ns UACPI_REGION_OP_WRITE (RwData dw) w1
      = Some ((UACPI_STATUS_OK, RwData dw), w2) /\
    handle_memory_region P tgt bo ns UACPI_REGION_OP_READ (RwData dr) w2
      = Some ((UACPI_STATUS_OK,
               RwData (set_value dr (value dw mod 2 ^ (8 * Z.of_nat n)))), w3) /\
    log w3 = log w1 ++
             [volatile_store ptr (Z.of_nat n) (value dw mod 2 ^ (8 * Z.of_nat n));
              volatile_load ptr (Z.of_nat n)] /\
    ptr = virt + (address dw - phys) /\
    (virt <= ptr /\ ptr + Z.of_nat n <= virt + size) /\
    (forall x, x < virt \/ virt + size <= x -> ram w3 x = ram w x).
Proof.
  intros ctx phys size virt ptr Hr Hctx Hvirt Hv0 Hvfit Hpfit Hlo Hhi Hn
         Hdw Hdr Haddr Hww Hwr.
  assert (Hphys0 : 0 <= phys) by (apply (wrap_bounds 64); lia).
  assert (Hn1 : 1 <= Z.of_nat n) by (destruct Hn as [-> | [-> | [-> | ->]]]; lia).
  assert (Hptr : ptr = virt + (address dw - phys)).
  { subst ptr. unfold as_u64. rewrite (wrap_small 64) by lia.
    apply as_size_small. lia. }
  assert (Hattach : memory_region_attach P tgt ns a w
            = Some ((UACPI_STATUS_OK, set_out_region_context a ctx),
                    {| heap := <[ctx := <[F_virt := virt]>
                                          (<[F_phys := phys]> (<[F_size := size]> ∅))]>
                                 (heap w);
                       ram := ram w;
                       log := (log w ++ [kernel_alloc sizeof_memory_region_ctx])
                              ++ [kernel_map phys size] |})).
  { rewrite memory_region_attach_eq. cbv zeta. fold ctx.
    rewrite decide_False by exact Hctx. rewrite Hr. fold phys size virt.
    rewrite decide_False by exact Hvirt. reflexivity. }
  set (w1 := {| heap := _; ram := ram w; log := _ |}) in Hattach.
  set (blk := <[F_virt := virt]> (<[F_phys := phys]> (<[F_size := size]> (∅ : gmap field Z)))).
  assert (Hblk1 : heap w1 !! ctx = Some blk) by apply lookup_insert_eq.
  assert (Hv : blk !! F_virt = Some virt) by apply lookup_insert_eq.
  assert (Hp : blk !! F_phys = Some phys)
    by (unfold blk; rewrite lookup_insert_ne by discriminate; apply lookup_insert_eq).
  eexists w1, _, _.
  split. { cbn [handle_memory_region]. unfold bind at 1. rewrite Hattach. reflexivity. }
  split. { cbn [log w1]. rewrite <- app_assoc. reflexivity. }
  split.
  { cbn [handle_memory_region]. unfold bind at 1.
    rewrite (memory_region_do_rw_eq tgt bo _ dw w1 blk virt phys n); try assumption.
    - reflexivity.
    - rewrite Hdw. exact Hblk1. }
  split.
  { cbn [handle_memory_region]. unfold bind at 1.
    rewrite (memory_region_do_rw_eq tgt bo _ dr _ blk virt phys n); try assumption.
    - cbn [ram emit add_log set_ram]. rewrite Haddr. fold ptr.
      rewrite load_after_store. unfold wrap.
      rewrite Z.mod_mod by (apply Z.pow_nonzero; lia). reflexivity.
    - rewrite Hdr. exact Hblk1. }
  split.
  { cbn [log heap emit add_log set_ram]. fold ptr.
    rewrite <- app_assoc. reflexivity. }
  split; [exact Hptr |]. split; [lia |].
  intros x Hx. cbn [ram emit add_log set_ram w1]. fold ptr.
  destruct Hx as [Hx | Hx].
  - apply write_bytes_below. lia.
  - apply write_bytes_above. rewrite length_encode. lia.
Qed.

(** ** What an MMIO access leaves alone *)

Lemma width_cases (w : Z) :
  (exists n : nat, w = Z.of_nat n /\ (n = 1 \/ n = 2 \/ n = 4 \/ n = 8)%nat) \/
  (w <> 1 /\ w <> 2 /\ w <> 4 /\ w <> 8).
Proof.
  destruct (decide (w = 1)) as [-> | H1]; [left; exists 1%nat; auto |].
  destruct (decide (w = 2)) as [-> | H2]; [left; exists 2%nat; auto |].
  destruct (decide (w = 4)) as [-> | H4]; [left; exists 4%nat; auto 6 |].
  destruct (decide (w = 8)) as [-> | H8]; [left; exists 8%nat; auto 6 |].
  right. auto.
Qed.

(** X5: the access primitives write only where they are asked to.  Whatever
    the width, [memory_write] changes no byte of memory outside
    [ptr, ptr + width) and [memory_read] changes no byte at all; each adds at
    most one event to the log. *)
Theorem memory_access_frame bo (ptr w v out : Z) (s : world) :
  (exists st s',
      memory_write bo ptr w v s = Some (st, s') /\
      (forall a, a < ptr \/ ptr + w <= a -> ram s' a = ram s a) /\
      (log s' = log s \/ exists e, log s' = log s ++ [e])) /\
  (exists r s',
      memory_read bo ptr w out s = Some (r, s') /\
      (forall a, ram s' a = ram s a) /\
      (log s' = log s \/ exists e, log s' = log s ++ [e])).
Proof.
  destruct (width_cases w) as [(n & -> & Hn) | (H1 & H2 & H4 & H8)].
  - split.
    + eexists _, _. split; [apply memory_write_spec; exact Hn |].
      cbn [heap ram log emit add_log set_ram].
      split; [| right; eexists; reflexivity].
      intros a [Ha | Ha].
      * apply write_bytes_below. exact Ha.
      * apply write_bytes_above. rewrite length_encode. exact Ha.
    + eexists _, _. split; [apply memory_read_spec; exact Hn |].
      cbn [heap ram log emit add_log].
      split; [reflexivity | right; eexists; reflexivity].
  - unfold memory_write, memory_read.
    rewrite !switch_width_default by assumption.
    split; eexists _, _; (split; [reflexivity |]); auto.
Qed.

(** ** Attach and detach as a pair *)

(** X6: no context outlives its region.  For each backing, when the attach
    succeeds on a heap in which the context address was free, the detach of
    that context puts the heap back exactly as it was before the attach; the
    mapped memory is not touched; and the platform sees the matching release
    calls last: unmap of what map returned, with the recorded size, then
    free (memory); io-unmap of the handle io-map handed out, then free
    (port I/O); free (PCI). *)
Theorem attach_then_detach_restores_heap P tgt bo ns root fuel
    (a : uacpi_region_attach_data) (anc : list Z) (w : world) :
  (forall r,
      let ctx := uacpi_kernel_alloc P (log w) sizeof_memory_region_ctx in
      let phys := as_u64 (or_offset r) in
      let size := as_size tgt (or_length r) in
      let virt := uacpi_kernel_map P (log w ++ [kernel_alloc sizeof_memory_region_ctx])
                                   phys size in
      region_descriptor ns (region_node a) = Some r ->
      ctx <> UACPI_NULL -> virt <> UACPI_NULL ->
      heap w !! ctx = None ->
      exists w1 w2,
        handle_memory_region P tgt bo ns UACPI_REGION_OP_ATTACH (AttachData a) w
          = Some ((UACPI_STATUS_OK, AttachData (set_out_region_context a ctx)), w1) /\
        handle_memory_region P tgt bo ns UACPI_REGION_OP_DETACH
          (DetachData {| detach_region_context := ctx |}) w1
          = Some ((UACPI_STATUS_OK, DetachData {| detach_region_context := ctx |}), w2) /\
        heap w2 = heap w /\ ram w2 = ram w /\
        log w2 = log w ++ [kernel_alloc sizeof_memory_region_ctx; kernel_map phys size;
                           kernel_unmap virt size; kernel_free ctx]) /\
  (forall r h,
      let ctx := uacpi_kernel_alloc P (log w) sizeof_io_region_ctx in
      let base := as_u64 (or_offset r) in
      region_descriptor ns (region_node a) = Some r ->
      ctx <> UACPI_NULL ->
      uacpi_kernel_io_map P (log w ++ [kernel_alloc sizeof_io_region_ctx])
                          base (or_length r) = (UACPI_STATUS_OK, Some h) ->
      heap w !! ctx = None ->
      exists w1 w2,
        handle_io_region P tgt ns UACPI_REGION_OP_ATTACH (AttachData a) w
          = Some ((UACPI_STATUS_OK, AttachData (set_out_region_context a ctx)), w1) /\
        handle_io_region P tgt ns UACPI_REGION_OP_DETACH
          (DetachData {| detach_region_context := ctx |}) w1
          = Some ((UACPI_STATUS_OK, DetachData {| detach_region_context := ctx |}), w2) /\
        heap w2 = heap w /\ ram w2 = ram w /\
        log w2 = log w ++ [kernel_alloc sizeof_io_region_ctx;
                           kernel_io_map base (or_length r);
                           kernel_io_unmap h; kernel_free ctx]) /\
  (let ctx := uacpi_kernel_calloc P (log w) 1 sizeof_pci_region_ctx in
   well_rooted ns root (region_node a) anc = true ->
   has_object ns (region_node a) = true ->
   (length anc + 2 <= fuel)%nat ->
   ctx <> UACPI_NULL ->
   controlling_device ns (region_node a :: anc ++ [root]) <> UACPI_NULL ->
   heap w !! ctx = None ->
   exists w1 w2,
     handle_pci_region P tgt ns root fuel UACPI_REGION_OP_ATTACH (AttachData a) w
       = Some ((UACPI_STATUS_OK, AttachData (set_out_region_context a ctx)), w1) /\
     handle_pci_region P tgt ns root fuel UACPI_REGION_OP_DETACH
       (DetachData {| detach_region_context := ctx |}) w1
       = Some ((UACPI_STATUS_OK, DetachData {| detach_region_context := ctx |}), w2) /\
     heap w2 = heap w /\ ram w2 = ram w /\
     log w2 = log w1 ++ [kernel_free ctx]).
Proof.
  split; [| split].
  - intros r ctx phys size virt Hr Hctx Hvirt Hfresh.
    eexists _, _. split.
    { cbn [handle_memory_region]. unfold bind at 1.
      rewrite memory_region_attach_eq. cbv zeta. fold ctx.
      rewrite decide_False by exact Hctx. rewrite Hr. fold phys size virt.
      rewrite decide_False by exact Hvirt. reflexivity. }
    split.
    { cbn [handle_memory_region]. unfold bind at 1.
      erewrite memory_region_detach_eq; cbn [detach_region_context heap].
      - reflexivity.
      - apply lookup_insert_eq.
      - apply lookup_insert_eq.
      - rewrite !lookup_insert_ne by discriminate. apply lookup_insert_eq. }
    cbn [heap ram log]. rewrite delete_insert_eq, (delete_id _ _ Hfresh).
    rewrite <- !app_assoc. repeat split; reflexivity.
  - intros r h ctx base Hr Hctx Hmap Hfresh.
    eexists _, _. split.
    { cbn [handle_io_region]. unfold bind at 1.
      rewrite io_region_attach_eq. cbv zeta. fold ctx.
      rewrite decide_False by exact Hctx. rewrite Hr. fold base.
      rewrite Hmap. cbn [fst snd]. unfold uacpi_unlikely_error.
      rewrite decide_True by reflexivity. reflexivity. }
    split.
    { cbn [handle_io_region]. unfold bind at 1.
      erewrite io_region_detach_eq; cbn [detach_region_context heap].
      - reflexivity.
      - apply lookup_insert_eq.
      - apply lookup_insert_eq. }
    cbn [heap ram log]. rewrite delete_insert_eq, (delete_id _ _ Hfresh).
    rewrite <- !app_assoc. repeat split; reflexivity.
  - intros ctx Hwf Hobj Hfuel Hctx Hdev Hfresh.
    eexists _, _. split.
    { cbn [handle_pci_region]. unfold bind at 1.
      rewrite (pci_region_attach_eq P ns root fuel a anc w Hwf Hobj Hfuel).
      cbv zeta. fold ctx. rewrite decide_False by exact Hctx.
      rewrite decide_False by exact Hdev. reflexivity. }
    split.
    { cbn [handle_pci_region]. unfold bind at 1.
      rewrite pci_region_detach_eq. reflexivity. }
    cbn [heap ram log detach_region_context].
    rewrite delete_insert_eq, (delete_id _ _ Hfresh). repeat split; reflexivity.
Qed.

(** ** The port backing end to end *)

(** X7: after a successful port attach, an access on the attached context
    reaches the platform with the handle the io-map handed out and the
    request's [offset] field rebased on the region's base; that one call is
    all the access adds to the log, and the platform's status comes back
    unchanged, for reads and for writes. *)
Theorem io_attach_then_access P tgt ns (a : uacpi_region_attach_data) (w : world)
    (r : uacpi_operation_region) (h : Z) (op : uacpi_region_op)
    (d : uacpi_region_rw_data) :
  let ctx := uacpi_kernel_alloc P (log w) sizeof_io_region_ctx in
  let base := as_u64 (or_offset r) in
  let off := as_size tgt (as_u64 (offset d - base)) in
  let width := as_u8 (byte_width d) in
  region_descriptor ns (region_node a) = Some r ->
  ctx <> UACPI_NULL ->
  uacpi_kernel_io_map P (log w ++ [kernel_alloc sizeof_io_region_ctx])
                      base (or_length r) = (UACPI_STATUS_OK, Some h) ->
  region_context d = ctx ->
  exists w1,
    handle_io_region P tgt ns UACPI_REGION_OP_ATTACH (AttachData a) w
      = Some ((UACPI_STATUS_OK, AttachData (set_out_region_context a ctx)), w1) /\
    log w1 = log w ++ [kernel_alloc sizeof_io_region_ctx;
                       kernel_io_map base (or_length r)] /\
    (op = UACPI_REGION_OP_READ ->
     handle_io_region P tgt ns op (RwData d) w1
     = Some (((uacpi_kernel_io_read P (log w1) h off width).1,
              RwData (store_out d (uacpi_kernel_io_read P (log w1) h off width).2)),
             emit (io_access tgt base h op d) w1)) /\
    (op = UACPI_REGION_OP_WRITE ->
     handle_io_region P tgt ns op (RwData d) w1
     = Some ((uacpi_kernel_io_write P (log w1) h off width (value d), RwData d),
             emit (io_access tgt base h op d) w1)).
Proof.
  intros ctx base off width Hr Hctx Hmap Hd.
  eexists. split.
  { cbn [handle_io_region]. unfold bind at 1.
    rewrite io_region_attach_eq. cbv zeta. fold ctx.
    rewrite decide_False by exact Hctx. rewrite Hr. fold base.
    rewrite Hmap. cbn [fst snd]. unfold uacpi_unlikely_error.
    rewrite decide_True by reflexivity. reflexivity. }
  split; [cbn [log]; rewrite <- app_assoc; reflexivity |].
  set (w1 := {| heap := _; ram := ram w; log := _ |}).
  assert (Hblk : heap w1 !! region_context d
                 = Some (<[F_handle := h]> (<[F_base := base]> (∅ : gmap field Z))))
    by (rewrite Hd; apply lookup_insert_eq).
  assert (Hbase : <[F_handle := h]> (<[F_base := base]> (∅ : gmap field Z)) !! F_base
                  = Some base)
    by (rewrite lookup_insert_ne by discriminate; apply lookup_insert_eq).
  assert (Hh : <[F_handle := h]> (<[F_base := base]> (∅ : gmap field Z)) !! F_handle
               = Some h) by apply lookup_insert_eq.
  split; intros ->; cbn [handle_io_region]; unfold bind at 1;
    rewrite (io_region_do_rw_eq P tgt _ d w1 _ base h Hblk Hbase Hh); reflexivity.
Qed.

(** ** The controlling device *)

Lemma find_split {A} (f : A -> bool) (l : list A) :
  match List.find f l with
  | Some x =>
      exists pre post,
        l = pre ++ x :: post /\ f x = true /\ Forall (fun y => f y = false) pre
  | None => Forall (fun y => f y = false) l
  end.
Proof.
  induction l as [|y l IH]; cbn [List.find].
  - constructor.
  - destruct (f y) eqn:Hy.
    + exists [], l. split; [reflexivity |]. split; [exact Hy | constructor].
    + destruct (List.find f l) as [x|].
      * destruct IH as (pre & post & -> & Hx & Hpre).
        exists (y :: pre), post. split; [reflexivity |]. split; [exact Hx |].
        constructor; assumption.
      * constructor; assumption.
Qed.

Lemma is_chain_nonnull ns stop l :
  forall p, is_chain ns stop p l = true -> Forall (fun x => x <> UACPI_NULL) l.
Proof.
  induction l as [|x l IH]; intros p Hchain.
  - constructor.
  - apply is_chain_cons in Hchain as (_ & _ & Hnull & n & _ & Hrest).
    constructor; [exact Hnull | exact (IH _ Hrest)].
Qed.

(** X8: the walk for the controlling device starts at the region node itself
    and returns the nearest node, going up, whose object is a Device: every
    node met before it has no object or an object of another type.  It
    returns null exactly when no node up to and including the last one of
    the path is a Device.  The walk only reads the namespace: the state is
    unchanged and nothing is logged. *)
Theorem find_device_loop_nearest ns (fuel : nat) (node : Z) (path : list Z) (w : world) :
  is_chain ns UACPI_NULL node path = true ->
  (length path <= fuel)%nat ->
  exists dev,
    find_device_loop ns fuel node w = Some (dev, w) /\
    (is_device_node ns node = true -> dev = node) /\
    ((dev = UACPI_NULL /\ Forall (fun p => is_device_node ns p = false) path) \/
     (dev <> UACPI_NULL /\
      exists pre post,
        path = pre ++ dev :: post /\
        is_device_node ns dev = true /\
        Forall (fun p => is_device_node ns p = false) pre)).
Proof.
  intros Hchain Hfuel. exists (controlling_device ns path).
  split; [apply find_device_loop_eq; assumption |].
  split.
  - intros Hnode. destruct path as [|x rest].
    + cbn [is_chain] in Hchain. apply bool_decide_eq_true in Hchain. subst node.
      reflexivity.
    + apply is_chain_cons in Hchain as (-> & _).
      unfold controlling_device. cbn [List.find]. rewrite Hnode. reflexivity.
  - pose proof (find_split (is_device_node ns) path) as Hsplit.
    pose proof (is_chain_nonnull ns _ path _ Hchain) as Hnonnull.
    unfold controlling_device.
    destruct (List.find (is_device_node ns) path) as [dev|].
    + right. destruct Hsplit as (pre & post & -> & Hdev & Hpre).
      split; [| exists pre, post; auto].
      apply Forall_app in Hnonnull as [_ Hnn]. inversion Hnn. assumption.
    + left. split; [reflexivity | exact Hsplit].
Qed.

(** ** Probing a node, and the probes of the root walk *)

(** X9: how [is_node_pci_root] talks to the interpreter.  It evaluates
    [_HID] first; when that identifies a root bridge it answers yes without
    evaluating [_CID]; otherwise it evaluates [_CID] once.  On every path the
    last two calls release the [_HID] string and the [_CID] list it was
    given.  A node both of whose evaluations fail is never a root.  Context
    blocks and mapped memory are not touched. *)
Theorem is_node_pci_root_protocol P (node : Z) (w : world) :
  exists found mid ids,
    is_node_pci_root P node w
    = Some (found,
            add_log w (eval_hid node :: mid ++
                       [kernel_free_id (uacpi_eval_hid P (log w) node).2;
                        release_pnp_id_list ids])) /\
    (hid_matches P (log w) node = true -> found = true /\ mid = [] /\ ids = []) /\
    (hid_matches P (log w) node = false ->
     mid = [eval_cid node] /\
     ids = (uacpi_eval_cid P (log w ++ [eval_hid node]) node).2 /\
     found = cid_matches P (log w ++ [eval_hid node]) node) /\
    ((uacpi_eval_hid P (log w) node).1 <> UACPI_STATUS_OK ->
     (uacpi_eval_cid P (log w ++ [eval_hid node]) node).1 <> UACPI_STATUS_OK ->
     found = false).
Proof.
  rewrite is_node_pci_root_eq. unfold recognized_pci_root, probe_events.
  destruct (hid_matches P (log w) node) eqn:Hhid.
  - exists true, [], []. split; [reflexivity |].
    split; [auto |]. split; [discriminate |].
    intros Hfail _. unfold hid_matches in Hhid.
    rewrite bool_decide_eq_false_2 in Hhid by exact Hfail. discriminate Hhid.
  - eexists _, [eval_cid node], _. split; [reflexivity |].
    split; [discriminate |]. split; [auto |].
    intros _ Hfail. cbn [orb]. unfold cid_matches.
    rewrite bool_decide_eq_false_2 by exact Hfail. reflexivity.
Qed.

Lemma probed_nodes_app es1 es2 :
  probed_nodes (es1 ++ es2) = probed_nodes es1 ++ probed_nodes es2.
Proof.
  induction es1 as [|e es1 IH]; [reflexivity |].
  destruct e; cbn [app probed_nodes]; rewrite IH; reflexivity.
Qed.

Lemma probed_nodes_probe P l a : probed_nodes (probe_events P l a) = [a].
Proof. unfold probe_events. destruct (hid_matches P l a); reflexivity. Qed.

Lemma root_walk_probes P ns node anc :
  forall l,
    exists pre post,
      anc = pre ++ post /\
      probed_nodes (root_walk_events P ns l node anc) = pre /\
      ((first_pci_root P l anc = None /\ post = []) \/
       (exists pre' p, pre = pre' ++ [p] /\ first_pci_root P l anc = Some p)).
Proof.
  induction anc as [|a rest IH]; intros l.
  - exists [], []. split; [reflexivity |]. split; [reflexivity |]. left. auto.
  - cbn [root_walk_events first_pci_root].
    destruct (recognized_pci_root P l a).
    + exists [a], rest. split; [reflexivity |].
      split; [rewrite probed_nodes_app, probed_nodes_probe; reflexivity |].
      right. exists [], a. auto.
    + destruct (IH (l ++ probe_events P l a)) as (pre & post & -> & Hprobed & Hcase).
      exists (a :: pre), post. split; [reflexivity |].
      split; [rewrite probed_nodes_app, probed_nodes_probe, Hprobed; reflexivity |].
      destruct Hcase as [[Hnone ->] | (pre' & p & -> & Hsome)].
      * left. auto.
      * right. exists (a :: pre'), p. auto.
Qed.

Lemma is_chain_avoids_stop ns stop l :
  forall p, is_chain ns stop p l = true -> ~ In stop l.
Proof.
  induction l as [|x l IH]; intros p Hchain Hin.
  - exact Hin.
  - apply is_chain_cons in Hchain as (_ & Hstop & _ & n & _ & Hrest).
    destruct Hin as [-> | Hin]; [contradiction Hstop; reflexivity |].
    exact (IH _ Hrest Hin).
Qed.

(** X10: which nodes the root walk asks.  The nodes whose [_HID] is
    evaluated are the ancestors of the region node, from its parent upwards,
    up to and including the one that is selected; when none is selected they
    are all the ancestors below the namespace root.  The namespace root
    itself is never asked, nothing is asked after the selected node, and the
    walk touches neither context blocks nor mapped memory. *)
Theorem find_pci_root_probes P ns root (fuel : nat) (node : Z) (anc : list Z) (w : world) :
  well_rooted ns root node anc = true ->
  (length anc <= fuel)%nat ->
  exists r evs pre post,
    find_pci_root P ns root fuel node w = Some (r, add_log w evs) /\
    anc = pre ++ post /\
    probed_nodes evs = pre /\
    ~ In root (probed_nodes evs) /\
    ((r = node /\ post = [] /\ first_pci_root P (log w) anc = None) \/
     (exists pre', pre = pre' ++ [r] /\ first_pci_root P (log w) anc = Some r)).
Proof.
  intros Hwf Hfuel.
  destruct (well_rooted_inv _ _ _ _ Hwf) as (_ & n & _ & Hchain & _).
  destruct (root_walk_probes P ns node anc (log w))
    as (pre & post & Hanc & Hprobed & Hcase).
  exists (default node (first_pci_root P (log w) anc)),
         (root_walk_events P ns (log w) node anc), pre, post.
  split; [apply find_pci_root_eq; assumption |].
  split; [exact Hanc |]. split; [exact Hprobed |].
  split.
  - rewrite Hprobed. intros Hin.
    apply (is_chain_avoids_stop ns root anc _ Hchain).
    rewrite Hanc. apply in_or_app. left. exact Hin.
  - destruct Hcase as [[Hnone ->] | (pre' & p & -> & Hsome)].
    + left. rewrite Hnone. auto.
    + right. exists pre'. rewrite Hsome. auto.
Qed.

(** ** The resolved tuple *)

Lemma resolved_address_bounds adr seg bbn :
  0 <= segment (resolved_address adr seg bbn) < 2 ^ 16 /\
  0 <= bus (resolved_address adr seg bbn) < 2 ^ 8 /\
  0 <= device (resolved_address adr seg bbn) < 2 ^ 8 /\
  0 <= function (resolved_address adr seg bbn) < 2 ^ 8.
Proof.
  unfold resolved_address. cbn [segment bus device function].
  repeat split;
    match goal with
    | |- context [bool_decide ?c] => destruct (bool_decide c)
    end;
    first [ apply (wrap_bounds 16); lia | apply (wrap_bounds 8); lia | lia ].
Qed.

Lemma as_u16_as_u64 v : as_u16 (as_u64 v) = v mod 2 ^ 16.
Proof.
  unfold as_u16, as_u64, wrap.
  apply Z.mod_mod_divide. exists (2 ^ 48). reflexivity.
Qed.

Lemma as_u8_as_u64 v : as_u8 (as_u64 v) = v mod 2 ^ 8.
Proof.
  unfold as_u8, as_u64, wrap.
  apply Z.mod_mod_divide. exists (2 ^ 56). reflexivity.
Qed.

(** X11: whatever the three evaluations answer, the tuple a successful PCI
    attach stores fits its fields: the segment is below [2^16], and the bus,
    the device and the function are below [2^8]. *)
Theorem pci_region_attach_fields_fit P ns root fuel
    (a : uacpi_region_attach_data) (anc : list Z) (w : world) :
  well_rooted ns root (region_node a) anc = true ->
  has_object ns (region_node a) = true ->
  (length anc + 2 <= fuel)%nat ->
  let ctx := uacpi_kernel_calloc P (log w) 1 sizeof_pci_region_ctx in
  ctx <> UACPI_NULL ->
  controlling_device ns (region_node a :: anc ++ [root]) <> UACPI_NULL ->
  exists addr w',
    pci_region_attach P ns root fuel a w
      = Some ((UACPI_STATUS_OK, set_out_region_context a ctx), w') /\
    heap w' !! ctx = Some (pci_block addr) /\
    0 <= segment addr < 2 ^ 16 /\
    0 <= bus addr < 2 ^ 8 /\
    0 <= device addr < 2 ^ 8 /\
    0 <= function addr < 2 ^ 8.
Proof.
  intros Hwf Hobj Hfuel ctx Hctx Hdev.
  destruct (pci_region_attach_ok P ns root fuel a anc w Hwf Hobj Hfuel Hctx Hdev)
    as (evs & l_adr & l_seg & l_bbn & line & w' & _ & _ & _ & _ & Hrun & Hblk).
  eexists _, w'. split; [exact Hrun |]. split; [exact Hblk |].
  apply resolved_address_bounds.
Qed.

(** X12: the two anchors of the resolution.  [_SEG] and [_BBN] are evaluated
    on the PCI root the walk selected (on the region node itself when the
    walk selected none), after [_ADR] was evaluated on the controlling
    device, in that order.  When they answer [s] and [b], the stored segment
    is [s mod 2^16] and the stored bus is [b mod 2^8]: values that do not fit
    are cut, not refused. *)
Theorem pci_region_attach_segment_bus P ns root fuel
    (a : uacpi_region_attach_data) (anc : list Z) (w : world) (s b : Z) :
  well_rooted ns root (region_node a) anc = true ->
  has_object ns (region_node a) = true ->
  (length anc + 2 <= fuel)%nat ->
  let ctx := uacpi_kernel_calloc P (log w) 1 sizeof_pci_region_ctx in
  let dev := controlling_device ns (region_node a :: anc ++ [root]) in
  let pci_root :=
    default (region_node a)
            (first_pci_root P (log w ++ [kernel_calloc 1 sizeof_pci_region_ctx]) anc) in
  ctx <> UACPI_NULL ->
  dev <> UACPI_NULL ->
  (forall l, uacpi_eval_typed P l pci_root "_SEG" = (UACPI_STATUS_OK, s)) ->
  (forall l, uacpi_eval_typed P l pci_root "_BBN" = (UACPI_STATUS_OK, b)) ->
  exists addr w' before line,
    pci_region_attach P ns root fuel a w
      = Some ((UACPI_STATUS_OK, set_out_region_context a ctx), w') /\
    heap w' !! ctx = Some (pci_block addr) /\
    segment addr = s mod 2 ^ 16 /\
    bus addr = b mod 2 ^ 8 /\
    log w' = before ++ [eval_typed dev "_ADR"; eval_typed pci_root "_SEG";
                        eval_typed pci_root "_BBN"; line].
Proof.
  intros Hwf Hobj Hfuel ctx dev pci_root Hctx Hdev Hseg Hbbn.
  destruct (pci_region_attach_ok P ns root fuel a anc w Hwf Hobj Hfuel Hctx Hdev)
    as (evs & l_adr & l_seg & l_bbn & line & w' & _ & H2 & H3 & H4 & Hrun & Hblk).
  fold pci_root dev in H2, H3, H4, Hblk. rewrite Hseg, Hbbn in Hblk.
  eexists _, w', l_adr, line. split; [exact Hrun |]. split; [exact Hblk |].
  unfold resolved_address. cbn [segment bus fst snd].
  rewrite !bool_decide_eq_true_2 by reflexivity.
  split; [apply as_u16_as_u64 |]. split; [apply as_u8_as_u64 |].
  rewrite H4, H3, H2, <- !app_assoc. reflexivity.
Qed.

(** ** The further properties at work *)

Lemma pci_region_do_rw_uses_stored_address_witness :
  handle_pci_region good_platform Gnu_x86_64 demo_ns demo_root 0
                    UACPI_REGION_OP_READ (RwData (rw_data 4096 0 4 0 2)) pci_world
  = Some ((UACPI_STATUS_OK, RwData (rw_data 4096 0 4 32902 2)),
          emit (kernel_pci_read {| segment := 1; bus := 64; device := 31; function := 3 |}
                                4 2) pci_world).
Proof.
  apply (pci_region_do_rw_uses_stored_address good_platform Gnu_x86_64 demo_ns
           demo_root 0 UACPI_REGION_OP_READ (rw_data 4096 0 4 0 2) pci_world
           {| segment := 1; bus := 64; device := 31; function := 3 |} eq_refl).
  reflexivity.
Defined.

Lemma pci_accesses_reuse_attached_address_witness :
  exists addr w1 w3,
    handle_pci_region good_platform Gnu_x86_64 demo_ns demo_root 10
                      UACPI_REGION_OP_ATTACH (AttachData (attach_data 5)) boot_world
      = Some ((UACPI_STATUS_OK,
               AttachData (set_out_region_context (attach_data 5) 4096)), w1) /\
    log w3 = log w1 ++
             [pci_access Gnu_x86_64 addr UACPI_REGION_OP_READ (rw_data 4096 0 0 0 4);
              pci_access Gnu_x86_64 addr UACPI_REGION_OP_WRITE (rw_data 4096 0 4 7 2)] /\
    heap w3 = heap w1.
Proof.
  destruct (pci_accesses_reuse_attached_address good_platform Gnu_x86_64 demo_ns
              demo_root 10 (attach_data 5) [4; 3; 2] boot_world
              UACPI_REGION_OP_READ UACPI_REGION_OP_WRITE
              (rw_data 4096 0 0 0 4) (rw_data 4096 0 4 7 2)
              eq_refl eq_refl ltac:(cbn; lia) ltac:(discriminate) ltac:(discriminate)
              (or_introl eq_refl) (or_intror eq_refl) eq_refl eq_refl)
    as (addr & w1 & st1 & d1' & w2 & st2 & d2' & w3 & Hattach & _ & _ & _ & Hlog & Hheap).
  exists addr, w1, w3. split; [exact Hattach |]. split; [exact Hlog | exact Hheap].
Defined.

Lemma attach_out_of_memory_witness :
  memory_region_attach oom_platform Gnu_x86_64 demo_ns (attach_data 6) boot_world
    = Some ((UACPI_STATUS_OUT_OF_MEMORY, attach_data 6),
            emit (kernel_alloc sizeof_memory_region_ctx) boot_world) /\
  io_region_attach oom_platform demo_ns (attach_data 7) boot_world
    = Some ((UACPI_STATUS_OUT_OF_MEMORY, attach_data 7),
            emit (kernel_alloc sizeof_io_region_ctx) boot_world) /\
  pci_region_attach oom_platform demo_ns demo_root 10 (attach_data 5) boot_world
    = Some ((UACPI_STATUS_OUT_OF_MEMORY, attach_data 5),
            emit (kernel_calloc 1 sizeof_pci_region_ctx) boot_world).
Proof.
  split; [| split].
  - apply (attach_out_of_memory oom_platform Gnu_x86_64 demo_ns demo_root 10
             (attach_data 6) boot_world). reflexivity.
  - apply (attach_out_of_memory oom_platform Gnu_x86_64 demo_ns demo_root 10
             (attach_data 7) boot_world). reflexivity.
  - apply (attach_out_of_memory oom_platform Gnu_x86_64 demo_ns demo_root 10
             (attach_data 5) boot_world). reflexivity.
Defined.

Lemma memory_attach_write_read_round_trip_witness :
  exists w1 w2 w3,
    handle_memory_region good_platform Gnu_x86_64 LittleEndian demo_ns
      UACPI_REGION_OP_ATTACH (AttachData (attach_data 6)) boot_world
      = Some ((UACPI_STATUS_OK,
               AttachData (set_out_region_context (attach_data 6) 4096)), w1) /\
    handle_memory_region good_platform Gnu_x86_64 LittleEndian demo_ns
      UACPI_REGION_OP_WRITE (RwData (rw_data 4096 65536 0 3735928559 4)) w1
      = Some ((UACPI_STATUS_OK, RwData (rw_data 4096 65536 0 3735928559 4)), w2) /\
    handle_memory_region good_platform Gnu_x86_64 LittleEndian demo_ns
      UACPI_REGION_OP_READ (RwData (rw_data 4096 65536 0 0 4)) w2
      = Some ((UACPI_STATUS_OK,
               RwData (set_value (rw_data 4096 65536 0 0 4)
                                 (3735928559 mod 2 ^ (8 * Z.of_nat 4)))), w3) /\
    (forall x, x < 28672 \/ 28672 + 256 <= x -> ram w3 x = ram boot_world x).
Proof.
  destruct (memory_attach_write_read_round_trip good_platform Gnu_x86_64 LittleEndian
              demo_ns (attach_data 6) boot_world
              {| or_offset := 65536; or_length := 256 |}
              (rw_data 4096 65536 0 3735928559 4) (rw_data 4096 65536 0 0 4) 4
              eq_refl ltac:(discriminate) ltac:(discriminate)
              ltac:(vm_compute; discriminate) ltac:(vm_compute; discriminate)
              ltac:(vm_compute; discriminate) ltac:(vm_compute; discriminate)
              ltac:(vm_compute; discriminate)
              (or_intror (or_intror (or_introl eq_refl)))
              eq_refl eq_refl eq_refl eq_refl eq_refl)
    as (w1 & w2 & w3 & Hattach & _ & Hwrite & Hread & _ & _ & _ & Hframe).
  exists w1, w2, w3. split; [exact Hattach |]. split; [exact Hwrite |].
  split; [exact Hread | exact Hframe].
Defined.

Lemma attach_then_detach_restores_heap_witness :
  (exists w1 w2,
      handle_memory_region good_platform Gnu_x86_64 LittleEndian demo_ns
        UACPI_REGION_OP_ATTACH (AttachData (attach_data 6)) boot_world
        = Some ((UACPI_STATUS_OK,
                 AttachData (set_out_region_context (attach_data 6) 4096)), w1) /\
      handle_memory_region good_platform Gnu_x86_64 LittleEndian demo_ns
        UACPI_REGION_OP_DETACH (DetachData {| detach_region_context := 4096 |}) w1
        = Some ((UACPI_STATUS_OK, DetachData {| detach_region_context := 4096 |}), w2) /\
      heap w2 = heap boot_world) /\
  (exists w1 w2,
      handle_io_region good_platform Gnu_x86_64 demo_ns
        UACPI_REGION_OP_ATTACH (AttachData (attach_data 7)) boot_world
        = Some ((UACPI_STATUS_OK,
                 AttachData (set_out_region_context (attach_data 7) 4096)), w1) /\
      handle_io_region good_platform Gnu_x86_64 demo_ns
        UACPI_REGION_OP_DETACH (DetachData {| detach_region_context := 4096 |}) w1
        = Some ((UACPI_STATUS_OK, DetachData {| detach_region_context := 4096 |}), w2) /\
      heap w2 = heap boot_world) /\
  (exists w1 w2,
      handle_pci_region good_platform Gnu_x86_64 demo_ns demo_root 10
        UACPI_REGION_OP_ATTACH (AttachData (attach_data 5)) boot_world
        = Some ((UACPI_STATUS_OK,
                 AttachData (set_out_region_context (attach_data 5) 4096)), w1) /\
      handle_pci_region good_platform Gnu_x86_64 demo_ns demo_root 10
        UACPI_REGION_OP_DETACH (DetachData {| detach_region_context := 4096 |}) w1
        = Some ((UACPI_STATUS_OK, DetachData {| detach_region_context := 4096 |}), w2) /\
      heap w2 = heap boot_world).
Proof.
  split; [| split].
  - destruct (attach_then_detach_restores_heap good_platform Gnu_x86_64 LittleEndian
                demo_ns demo_root 10 (attach_data 6) [] boot_world) as (Hmem & _).
    destruct (Hmem {| or_offset := 65536; or_length := 256 |}
                   eq_refl ltac:(discriminate) ltac:(discriminate) eq_refl)
      as (w1 & w2 & Hattach & Hdetach & Hheap & _).
    exists w1, w2. split; [exact Hattach |]. split; [exact Hdetach | exact Hheap].
  - destruct (attach_then_detach_restores_heap good_platform Gnu_x86_64 LittleEndian
                demo_ns demo_root 10 (attach_data 7) [] boot_world) as (_ & Hio & _).
    destruct (Hio {| or_offset := 1016; or_length := 8 |} 7
                  eq_refl ltac:(discriminate) eq_refl eq_refl)
      as (w1 & w2 & Hattach & Hdetach & Hheap & _).
    exists w1, w2. split; [exact Hattach |]. split; [exact Hdetach | exact Hheap].
  - destruct (attach_then_detach_restores_heap good_platform Gnu_x86_64 LittleEndian
                demo_ns demo_root 10 (attach_data 5) [4; 3; 2] boot_world)
      as (_ & _ & Hpci).
    destruct (Hpci eq_refl eq_refl ltac:(cbn; lia) ltac:(discriminate)
                   ltac:(discriminate) eq_refl)
      as (w1 & w2 & Hattach & Hdetach & Hheap & _).
    exists w1, w2. split; [exact Hattach |]. split; [exact Hdetach | exact Hheap].
Defined.

Lemma io_attach_then_access_witness :
  exists w1,
    handle_io_region good_platform Gnu_x86_64 demo_ns
      UACPI_REGION_OP_ATTACH (AttachData (attach_data 7)) boot_world
      = Some ((UACPI_STATUS_OK,
               AttachData (set_out_region_context (attach_data 7) 4096)), w1) /\
    handle_io_region good_platform Gnu_x86_64 demo_ns UACPI_REGION_OP_WRITE
                     (RwData (rw_data 4096 1018 1018 90 1)) w1
    = Some ((UACPI_STATUS_OK, RwData (rw_data 4096 1018 1018 90 1)),
            emit (kernel_io_write 7 2 1 90) w1).
Proof.
  destruct (io_attach_then_access good_platform Gnu_x86_64 demo_ns (attach_data 7)
              boot_world {| or_offset := 1016; or_length := 8 |} 7
              UACPI_REGION_OP_WRITE (rw_data 4096 1018 1018 90 1)
              eq_refl ltac:(discriminate) eq_refl eq_refl)
    as (w1 & Hattach & _ & _ & Hwrite).
  exists w1. split; [exact Hattach | exact (Hwrite eq_refl)].
Defined.

Lemma find_device_loop_nearest_witness :
  exists dev,
    find_device_loop demo_ns 10 5 boot_world = Some (dev, boot_world) /\
    dev <> UACPI_NULL /\
    exists pre post,
      [5; 4; 3; 2; 1] = pre ++ dev :: post /\
      is_device_node demo_ns dev = true /\
      Forall (fun p => is_device_node demo_ns p = false) pre.
Proof.
  destruct (find_device_loop_nearest demo_ns 10 5 [5; 4; 3; 2; 1] boot_world
              eq_refl ltac:(cbn; lia))
    as (dev & Hrun & _ & [[Hnull Hnone] | [Hdev Hsplit]]).
  - exfalso. inversion Hnone as [|x l Hx Hrest]. inversion Hrest as [|y l' Hy _].
    discriminate Hy.
  - exists dev. split; [exact Hrun |]. split; [exact Hdev | exact Hsplit].
Defined.

Lemma find_pci_root_probes_witness :
  exists evs,
    find_pci_root good_platform demo_ns demo_root 10 5 boot_world
      = Some (3, add_log boot_world evs) /\
    probed_nodes evs = [4; 3].
Proof.
  destruct (find_pci_root_probes good_platform demo_ns demo_root 10 5 [4; 3; 2]
              boot_world eq_refl ltac:(cbn; lia))
    as (r & evs & pre & post & Hrun & _ & Hprobed & _ & _).
  exists evs. split.
  - rewrite Hrun. f_equal. f_equal.
    assert (Hr : Some (r, add_log boot_world evs)
                 = find_pci_root good_platform demo_ns demo_root 10 5 boot_world)
      by (symmetry; exact Hrun).
    vm_compute in Hr. injection Hr as -> _. reflexivity.
  - assert (Hr : Some (r, add_log boot_world evs)
                 = find_pci_root good_platform demo_ns demo_root 10 5 boot_world)
      by (symmetry; exact Hrun).
    vm_compute in Hr. injection Hr as _ ->. reflexivity.
Defined.

Lemma pci_region_attach_fields_fit_witness :
  exists addr w',
    pci_region_attach good_platform demo_ns demo_root 10 (attach_data 5) boot_world
      = Some ((UACPI_STATUS_OK, set_out_region_context (attach_data 5) 4096), w') /\
    heap w' !! 4096 = Some (pci_block addr) /\
    0 <= segment addr < 2 ^ 16 /\ 0 <= bus addr < 2 ^ 8 /\
    0 <= device addr < 2 ^ 8 /\ 0 <= function addr < 2 ^ 8.
Proof.
  apply (pci_region_attach_fields_fit good_platform demo_ns demo_root 10
           (attach_data 5) [4; 3; 2] boot_world
           eq_refl eq_refl ltac:(cbn; lia) ltac:(discriminate) ltac:(discriminate)).
Defined.

Lemma pci_region_attach_segment_bus_witness :
  exists addr w',
    pci_region_attach good_platform demo_ns demo_root 10 (attach_data 5) boot_world
      = Some ((UACPI_STATUS_OK, set_out_region_context (attach_data 5) 4096), w') /\
    heap w' !! 4096 = Some (pci_block addr) /\
    segment addr = 1 mod 2 ^ 16 /\ bus addr = 64 mod 2 ^ 8.
Proof.
  destruct (pci_region_attach_segment_bus good_platform demo_ns demo_root 10
              (attach_data 5) [4; 3; 2] boot_world 1 64
              eq_refl eq_refl ltac:(cbn; lia) ltac:(discriminate) ltac:(discriminate)
              (fun _ => eq_refl) (fun _ => eq_refl))
    as (addr & w' & before & line & Hrun & Hblk & Hseg & Hbus & _).
  exists addr, w'. repeat split; assumption.
Defined.

(** * Properties of the test runner *)

Lemma string_to_object_type_Returned str t :
  string_to_object_type str = Returned t ->
  (str = "int"%string /\ t = UACPI_OBJECT_INTEGER) \/
  (str = "str"%string /\ t = UACPI_OBJECT_STRING).
Proof.
  unfold string_to_object_type.
  destruct (String.eqb_spec str "int") as [-> | _]; [intros [= <-]; auto |].
  destruct (String.eqb_spec str "str") as [-> | _]; [intros [= <-]; auto |].
  discriminate.
Qed.

Lemma validate_not_aborted H obj t v :
  t = UACPI_OBJECT_INTEGER \/ t = UACPI_OBJECT_STRING ->
  validate_ret_against_expected H obj t v <> Some Aborted.
Proof.
  intros Ht. unfold validate_ret_against_expected, ret_is_wrong.
  destruct (bool_decide_reflect (ret_type obj = t)) as [Heq | Hne]; cbn [negb];
    [| discriminate].
  rewrite Heq.
  destruct Ht as [-> | ->].
  - destruct (stoull H v) as [n | what]; [| discriminate].
    destruct (negb (n =? as_integer_value obj)); discriminate.
  - destruct (string_view _ _) as [actual|]; [| discriminate].
    destruct (negb (String.eqb v actual)); [| discriminate].
    destruct (c_str _); discriminate.
Qed.

Lemma run_test_Aborted H path t v l l' :
  run_test H path t v l = Some (Aborted, l') ->
  exists obj, validate_ret_against_expected H obj t v = Some Aborted.
Proof.
  unfold run_test, ensure_ok_status.
  destruct (build_xsdt_from_file H l path); [discriminate |].
  destruct (bool_decide (uacpi_initialize H _ = _)); [| discriminate].
  destruct (bool_decide (uacpi_namespace_load H _ = _)); [| discriminate].
  destruct (bool_decide (uacpi_namespace_initialize H _ = _)); [| discriminate].
  destruct (uacpi_eval H _ _) as [st obj].
  destruct (bool_decide (st = _)); [| discriminate].
  destruct (validate_ret_against_expected H obj t v) as [o|] eqn:Hv; [| discriminate].
  intros [= -> _]. exists obj. exact Hv.
Qed.

(** X13: the runner never reaches [std::abort].  Whenever [main] ends, it
    ends by returning 0 or 1: the only type tags [string_to_object_type]
    hands to the comparison are Integer and String, and for those the
    comparison returns or throws.  With at least the program name on the
    command line and an expected type other than "str", [main] does end. *)
Theorem main_exits_zero_or_one H (argv : list string) (l : list runner_event) :
  (forall e l', main H argv l = Some (e, l') -> e = Exit 0 \/ e = Exit 1) /\
  (argv <> [] -> nth 2 argv EmptyString <> "str"%string ->
   exists e l', main H argv l = Some (e, l') /\ (e = Exit 0 \/ e = Exit 1)).
Proof.
  assert (Hcodes : forall e l', main H argv l = Some (e, l') -> e = Exit 0 \/ e = Exit 1).
  { intros e l'. unfold main.
    destruct (Z.of_nat (length argv) <? 4).
    - destruct argv; [discriminate |]. intros [= <- _]. auto.
    - destruct (string_to_object_type (nth 2 argv EmptyString)) as [t | what |] eqn:Ht.
      + destruct (run_test H _ t _ l) as [[[[] | what |] l1]|] eqn:Hrun.
        * intros [= <- _]. auto.
        * intros [= <- _]. auto.
        * exfalso. apply run_test_Aborted in Hrun as (obj & Hv).
          apply (validate_not_aborted H obj t _) in Hv; [exact Hv |].
          apply string_to_object_type_Returned in Ht as [[_ ->] | [_ ->]]; auto.
        * discriminate.
      + intros [= <- _]. auto.
      + unfold string_to_object_type in Ht.
        destruct (String.eqb _ "int"); [discriminate |].
        destruct (String.eqb _ "str"); discriminate. }
  split; [exact Hcodes |].
  intros Hargv Hstr.
  destruct (main H argv l) as [[e l']|] eqn:Hmain.
  { exists e, l'. split; [reflexivity | exact (Hcodes e l' eq_refl)]. }
  exfalso. unfold main in Hmain.
  destruct (Z.of_nat (length argv) <? 4).
  { destruct argv; [contradiction Hargv; reflexivity | discriminate]. }
  destruct (string_to_object_type (nth 2 argv EmptyString)) as [t | what |] eqn:Ht;
    [| discriminate | discriminate].
  apply string_to_object_type_Returned in Ht as [[_ ->] | [Hs _]];
    [| contradiction Hstr; exact Hs].
  unfold run_test, ensure_ok_status in Hmain.
  destruct (build_xsdt_from_file H l _); [discriminate |].
  destruct (bool_decide (uacpi_initialize H _ = _)); [| discriminate].
  destruct (bool_decide (uacpi_namespace_load H _ = _)); [| discriminate].
  destruct (bool_decide (uacpi_namespace_initialize H _ = _)); [| discriminate].
  destruct (uacpi_eval H _ _) as [st obj].
  destruct (bool_decide (st = _)); [| discriminate].
  unfold validate_ret_against_expected, ret_is_wrong in Hmain.
  destruct (bool_decide_reflect (ret_type obj = UACPI_OBJECT_INTEGER)) as [Heq | Hne];
    cbn [negb] in Hmain; [| discriminate].
  rewrite Heq in Hmain.
  destruct (stoull H _) as [n | what]; [| discriminate].
  destruct (negb (n =? as_integer_value obj)); discriminate.
Qed.

(** X14: when the comparison accepts.  [validate_ret_against_expected]
    returns normally exactly when the object has the expected type and,
    for an Integer, [stoull] of the expected text is the object's value or,
    for a String, the expected text is the first [length] bytes of the
    object's text; what the buffer holds beyond [length] bytes plays no part.
    An object of another type than expected makes it throw, whatever the
    expected text and the harness are. *)
Theorem validate_returns_iff H (obj : retval_object) (t : uacpi_object_type)
    (v : string) :
  (validate_ret_against_expected H obj t v = Some (Returned tt) <->
   ret_type obj = t /\
   ((t = UACPI_OBJECT_INTEGER /\ stoull H v = inl (as_integer_value obj)) \/
    (t = UACPI_OBJECT_STRING /\
     string_view (as_string_text obj) (as_string_length obj) = Some v))) /\
  (ret_type obj <> t ->
   validate_ret_against_expected H obj t v
   = Some (Thrown ("returned type '" ++ type_to_string (ret_type obj)
                   ++ "' doesn't match expected '" ++ type_to_string t ++ "'"))).
Proof.
  unfold validate_ret_against_expected, ret_is_wrong. split.
  - destruct (bool_decide_reflect (ret_type obj = t)) as [Heq | Hne]; cbn [negb].
    + rewrite Heq. split.
      * intros Hrun. split; [reflexivity |].
        destruct t; try discriminate Hrun.
        -- left. split; [reflexivity |].
           destruct (stoull H v) as [n | what]; [| discriminate Hrun].
           destruct (Z.eqb_spec n (as_integer_value obj)) as [Hn | _];
             [rewrite Hn; reflexivity | discriminate Hrun].
        -- right. split; [reflexivity |].
           destruct (string_view _ _) as [actual|]; [| discriminate Hrun].
           destruct (String.eqb_spec v actual) as [Hv | _];
             [rewrite Hv; reflexivity |].
           cbn [negb] in Hrun. destruct (c_str _); discriminate Hrun.
      * intros [_ [[-> Hint] | [-> Hview]]].
        -- rewrite Hint, Z.eqb_refl. reflexivity.
        -- rewrite Hview, String.eqb_refl. reflexivity.
    + split; [discriminate | intros [Heq _]; contradiction].
  - intros Hne. rewrite bool_decide_eq_false_2 by exact Hne. reflexivity.
Qed.

(** X15: what [main] refuses before anything is loaded.  With fewer than
    three arguments after the program name it prints the usage line and
    returns 1; with an expected type that is neither "int" nor "str" it
    prints the error of [string_to_object_type] and returns 1.  In both
    cases that one line is all that happens: no table is built and the
    interpreter is not called. *)
Theorem main_rejects_before_loading H (argv : list string) (l : list runner_event) :
  (forall argv0 rest,
      argv = argv0 :: rest -> (length argv < 4)%nat ->
      main H argv l
      = Some (Exit 1,
              l ++ [ev_cout ("Usage: " ++ argv0
                             ++ " <dsdt_path> <expected_type> <expected_value>")])) /\
  ((4 <= length argv)%nat ->
   nth 2 argv EmptyString <> "int"%string ->
   nth 2 argv EmptyString <> "str"%string ->
   main H argv l
   = Some (Exit 1,
           l ++ [ev_cout ("ERROR: Unsupported type for validation: "
                          ++ nth 2 argv EmptyString)])).
Proof.
  split.
  - intros argv0 rest -> Hlen. unfold main.
    destruct (Z.ltb_spec (Z.of_nat (length (argv0 :: rest))) 4) as [_ | Hge];
      [reflexivity | lia].
  - intros Hlen Hint Hstr. unfold main, string_to_object_type.
    destruct (Z.ltb_spec (Z.of_nat (length argv)) 4) as [Hlt | _]; [lia |].
    destruct (String.eqb_spec (nth 2 argv EmptyString) "int") as [Heq | _];
      [contradiction |].
    destruct (String.eqb_spec (nth 2 argv EmptyString) "str") as [Heq | _];
      [contradiction |].
    reflexivity.
Qed.

(** X16: a run stops at the first stage that fails.  The calls [run_test]
    makes are always the first [k] of: build the tables, initialize, load
    the namespace, initialize the namespace, evaluate [MAIN] -- in that
    order, with [1 <= k <= 5].  When it stops short of the evaluation it
    throws; it returns normally only after all five, each of the four
    interpreter calls having answered OK. *)
Theorem run_test_stops_at_first_failure H (path : string) (t : uacpi_object_type)
    (v : string) (l : list runner_event) (o : outcome unit) (l' : list runner_event) :
  run_test H path t v l = Some (o, l') ->
  exists k,
    (1 <= k <= 5)%nat /\
    l' = l ++ firstn k (run_stages path) /\
    ((k < 5)%nat -> exists what, o = Thrown what) /\
    (o = Returned tt ->
     k = 5%nat /\
     build_xsdt_from_file H l path = None /\
     uacpi_initialize H (l ++ firstn 1 (run_stages path)) = UACPI_STATUS_OK /\
     uacpi_namespace_load H (l ++ firstn 2 (run_stages path)) = UACPI_STATUS_OK /\
     uacpi_namespace_initialize H (l ++ firstn 3 (run_stages path)) = UACPI_STATUS_OK /\
     (uacpi_eval H (l ++ firstn 4 (run_stages path)) "\MAIN").1 = UACPI_STATUS_OK).
Proof.
  unfold run_test, ensure_ok_status, run_stages. cbn [firstn].
  rewrite <- !app_assoc. cbn [app].
  destruct (build_xsdt_from_file H l path) as [what|].
  { intros [= <- <-]. exists 1%nat. cbn [firstn].
    split; [lia |]. split; [reflexivity |]. split; [eauto | discriminate]. }
  destruct (bool_decide_reflect (uacpi_initialize H (l ++ [ev_build_xsdt_from_file path])
                                 = UACPI_STATUS_OK)) as [H1 | H1].
  2:{ intros [= <- <-]. exists 2%nat. cbn [firstn].
      split; [lia |]. split; [reflexivity |]. split; [eauto | discriminate]. }
  destruct (bool_decide_reflect
              (uacpi_namespace_load H (l ++ [ev_build_xsdt_from_file path;
                                             ev_uacpi_initialize])
               = UACPI_STATUS_OK)) as [H2 | H2].
  2:{ intros [= <- <-]. exists 3%nat. cbn [firstn].
      split; [lia |]. split; [reflexivity |]. split; [eauto | discriminate]. }
  destruct (bool_decide_reflect
              (uacpi_namespace_initialize H (l ++ [ev_build_xsdt_from_file path;
                                                   ev_uacpi_initialize;
                                                   ev_uacpi_namespace_load])
               = UACPI_STATUS_OK)) as [H3 | H3].
  2:{ intros [= <- <-]. exists 4%nat. cbn [firstn].
      split; [lia |]. split; [reflexivity |]. split; [eauto | discriminate]. }
  destruct (uacpi_eval H _ "\MAIN") as [st obj] eqn:Heval.
  destruct (bool_decide_reflect (st = UACPI_STATUS_OK)) as [H4 | H4].
  - destruct (validate_ret_against_expected H obj t v) as [o'|]; [| discriminate].
    intros [= <- <-]. exists 5%nat. cbn [firstn].
    split; [lia |]. split; [reflexivity |]. split; [lia |].
    intros _. cbn [fst]. auto 8.
  - intros [= <- <-]. exists 5%nat. cbn [firstn].
    split; [lia |]. split; [reflexivity |]. split; [lia | discriminate].
Qed.

(** ** The runner at work *)

Lemma main_exits_zero_or_one_witness :
  exists e l',
    main (demo_harness UACPI_STATUS_OK (integer_object 4660))
         ["runner"; "dsdt.aml"; "int"; "0x1234"]%string [] = Some (e, l') /\
    (e = Exit 0 \/ e = Exit 1).
Proof.
  apply (main_exits_zero_or_one (demo_harness UACPI_STATUS_OK (integer_object 4660))
           ["runner"; "dsdt.aml"; "int"; "0x1234"]%string []); discriminate.
Defined.

Lemma validate_returns_iff_witness :
  validate_ret_against_expected (demo_harness UACPI_STATUS_OK (integer_object 4660))
                                (integer_object 4660) UACPI_OBJECT_INTEGER "0x1234"
  = Some (Returned tt).
Proof.
  apply (validate_returns_iff (demo_harness UACPI_STATUS_OK (integer_object 4660))
           (integer_object 4660) UACPI_OBJECT_INTEGER "0x1234").
  split; [reflexivity |]. left. split; reflexivity.
Defined.

Lemma main_rejects_before_loading_witness :
  main (demo_harness UACPI_STATUS_OK (integer_object 4660))
       ["runner"; "dsdt.aml"]%string []
    = Some (Exit 1,
            [ev_cout "Usage: runner <dsdt_path> <expected_type> <expected_value>"]) /\
  main (demo_harness UACPI_STATUS_OK (integer_object 4660))
       ["runner"; "dsdt.aml"; "buffer"; "0"]%string []
    = Some (Exit 1, [ev_cout "ERROR: Unsupported type for validation: buffer"]).
Proof.
  split.
  - destruct (main_rejects_before_loading
                (demo_harness UACPI_STATUS_OK (integer_object 4660))
                ["runner"; "dsdt.aml"]%string []) as [Husage _].
    apply (Husage "runner"%string ["dsdt.aml"%string] eq_refl). cbn. lia.
  - destruct (main_rejects_before_loading
                (demo_harness UACPI_STATUS_OK (integer_object 4660))
                ["runner"; "dsdt.aml"; "buffer"; "0"]%string []) as [_ Htype].
    apply Htype.
    + cbn. lia.
    + discriminate.
    + discriminate.
Defined.

Lemma run_test_stops_at_first_failure_witness :
  exists k,
    (1 <= k <= 5)%nat /\
    [ev_build_xsdt_from_file "dsdt.aml"; ev_uacpi_initialize]
    = [] ++ firstn k (run_stages "dsdt.aml") /\
    ((k < 5)%nat -> exists what, Thrown "uACPI error: error" = @Thrown unit what).
Proof.
  destruct (run_test_stops_at_first_failure
              (demo_harness (UACPI_STATUS_OTHER 3) (integer_object 4660))
              "dsdt.aml" UACPI_OBJECT_INTEGER "0x1234" []
              (Thrown "uACPI error: error")
              [ev_build_xsdt_from_file "dsdt.aml"; ev_uacpi_initialize] eq_refl)
    as (k & Hk & Hlog & Hshort & _).
  exists k. split; [exact Hk |]. split; [exact Hlog | exact Hshort].
Defined.

(** The specification's first two scenarios: [MAIN] returns the integer
    0x1234, or the string "hello". *)
Example scenario_integer_eval :
  fst <$> main (demo_harness UACPI_STATUS_OK (integer_object 4660))
               ["runner"; "dsdt.aml"; "int"; "0x1234"]%string []
  = Some (Exit 0).
Proof. vm_compute. reflexivity. Qed.

Example scenario_string_eval :
  fst <$> main (demo_harness UACPI_STATUS_OK
                  (string_object (String.append "hello" (String Ascii.zero "")) 5))
               ["runner"; "dsdt.aml"; "str"; "hello"]%string []
  = Some (Exit 0).
Proof. vm_compute. reflexivity. Qed.
